(** * Google Calendar streamable MCP server: security gate, OAuth input
      parsing, discovery metadata and MCP session routes

    A shallow embedding of four TypeScript sources:
    - the Hono security middleware ([createMcpSecurityMiddleware]),
    - the discovery handlers and the two discovery strategies,
    - the auth application's discovery route ([buildAuthApp]),
    - the shared OAuth input parsing ([parseTokenInput], [buildTokenInput])
      and the MCP routes ([buildMcpRoutes], [ensureConnected]).

    Strings are byte strings: a header value or a request body is read as
    Latin-1, one [ascii] per character.  Code that can throw returns a
    [completion]; code that mutates the session registry threads an explicit
    state. *)

From Stdlib Require Import String Ascii List NArith ZArith Bool Lia.
From stdpp Require Import base option list gmap strings pretty.

Local Open Scope string_scope.
Local Open Scope list_scope.

(** ** Completions: a JavaScript evaluation returns a value or throws *)

Inductive completion (A : Type) : Type :=
| Returns (a : A)
| Throws (message : string).
Arguments Returns {A} a.
Arguments Throws {A} message.

Definition bind_completion {A B} (m : completion A) (k : A -> completion B)
  : completion B :=
  match m with
  | Returns a => k a
  | Throws e => Throws e
  end.

(** ** The JavaScript string primitives the sources use *)

Module Js.

(** [!s] for a string: only the empty string is falsy. *)
Definition truthy (s : string) : bool :=
  match s with
  | EmptyString => false
  | String _ _ => true
  end.

(** [!v] for [string | undefined]. *)
Definition truthy_opt (o : option string) : bool :=
  match o with
  | Some s => truthy s
  | None => false
  end.

(** [a || b] on strings. *)
Definition or_else (a : option string) (b : string) : string :=
  match a with
  | Some s => if truthy s then s else b
  | None => b
  end.

(** [a ?? b]. *)
Definition nullish (a : option string) (b : string) : string :=
  match a with
  | Some s => s
  | None => b
  end.

(** [s.split(sep)] for a one-character separator: every occurrence cuts,
    so the empty string gives one empty piece. *)
Fixpoint split (sep : ascii) (s : string) : list string :=
  match s with
  | EmptyString => [EmptyString]
  | String c rest =>
      if Ascii.eqb c sep then EmptyString :: split sep rest
      else match split sep rest with
           | piece :: pieces => String c piece :: pieces
           | [] => [String c EmptyString]
           end
  end.

(** [s.split(sep, limit)] keeps the first [limit] pieces. *)
Definition split_limit (sep : ascii) (limit : nat) (s : string) : list string :=
  firstn limit (split sep s).

(** White space of [String.prototype.trim] among the Latin-1 characters:
    TAB, LF, VT, FF, CR, SPACE and NBSP. *)
Definition is_white_space (c : ascii) : bool :=
  let n := N_of_ascii c in
  ((9 <=? n) && (n <=? 13) || (n =? 32) || (n =? 160))%N.

Fixpoint trimStart (s : string) : string :=
  match s with
  | EmptyString => EmptyString
  | String c rest => if is_white_space c then trimStart rest else s
  end.

Fixpoint trimEnd (s : string) : string :=
  match s with
  | EmptyString => EmptyString
  | String c rest =>
      match trimEnd rest with
      | EmptyString => if is_white_space c then EmptyString else String c EmptyString
      | kept => String c kept
      end
  end.

Definition trim (s : string) : string := trimEnd (trimStart s).

(** [s.split(/\s+/)]: a run of white space is one separator. *)
Fixpoint split_white_space (after_separator : bool) (s : string) : list string :=
  match s with
  | EmptyString => [EmptyString]
  | String c rest =>
      if is_white_space c then
        if after_separator then split_white_space true rest
        else EmptyString :: split_white_space true rest
      else match split_white_space false rest with
           | piece :: pieces => String c piece :: pieces
           | [] => [String c EmptyString]
           end
  end.

(** [toLowerCase] on Latin-1: A-Z and the accented capitals (all of
    U+00C0..U+00DE but the multiplication sign) move up by 32. *)
Definition lower_char (c : ascii) : ascii :=
  let n := N_of_ascii c in
  if ((65 <=? n) && (n <=? 90) || (192 <=? n) && (n <=? 222) && negb (n =? 215))%N
  then ascii_of_N (n + 32)
  else c.

Fixpoint toLowerCase (s : string) : string :=
  match s with
  | EmptyString => EmptyString
  | String c rest => String (lower_char c) (toLowerCase rest)
  end.

(** [s.includes(needle)]. *)
Fixpoint includes (needle s : string) : bool :=
  String.prefix needle s
  || match s with
     | EmptyString => false
     | String _ rest => includes needle rest
     end.

(** Does the character occur in the string? *)
Fixpoint occurs (c : ascii) (s : string) : bool :=
  match s with
  | EmptyString => false
  | String d rest => Ascii.eqb d c || occurs c rest
  end.

End Js.

(** ** Shared OAuth input parsing *)

Module OAuthInput.

(** A [URLSearchParams]: the list of name-value pairs, in order, with
    repetitions. *)
Definition URLSearchParams : Type := list (string * string).

(** [form.get(name)]: the value of the first pair with that name. *)
Fixpoint get (name : string) (form : URLSearchParams) : option string :=
  match form with
  | [] => None
  | (k, v) :: rest => if String.eqb k name then Some v else get name rest
  end.

(** [TokenInput], the tagged grant request. *)
Inductive TokenInput : Type :=
| refresh_token_grant (refreshToken : string)
| authorization_code_grant (code codeVerifier : string).

(** [TokenInput | { error: string }]. *)
Inductive TokenInputResult : Type :=
| Input (input : TokenInput)
| ErrorResult (error : string).

Definition buildTokenInput (form : URLSearchParams) : TokenInputResult :=
  let grant := get "grant_type" form in
  if decide (grant = Some "refresh_token") then
    match get "refresh_token" form with
    | Some refreshToken =>
        if negb (Js.truthy refreshToken) then ErrorResult "missing_refresh_token"
        else Input (refresh_token_grant refreshToken)
    | None => ErrorResult "missing_refresh_token"
    end
  else if decide (grant = Some "authorization_code") then
    match get "code" form, get "code_verifier" form with
    | Some code, Some codeVerifier =>
        if negb (Js.truthy code) || negb (Js.truthy codeVerifier)
        then ErrorResult "missing_code_or_verifier"
        else Input (authorization_code_grant code codeVerifier)
    | _, _ => ErrorResult "missing_code_or_verifier"
    end
  else ErrorResult "unsupported_grant_type".

(** A grant request is well formed when the fields it carries are not
    empty. *)
Definition well_formed (input : TokenInput) : Prop :=
  match input with
  | refresh_token_grant refreshToken => refreshToken <> ""
  | authorization_code_grant code codeVerifier => code <> "" /\ codeVerifier <> ""
  end.

(** A field that is absent or empty. *)
Definition absent_or_empty (field : option string) : Prop :=
  field = None \/ field = Some "".

(** The token request as [parseTokenInput] reads it: the content-type
    header and the body text. *)
Record Request : Type := {
  content_type : option string;
  body : string
}.

Section Parsing.

(** The platform's parsers.  [Json] is a parsed JSON value;
    [request_json] is [request.json()], [None] when the promise is
    rejected; [params_of_text] is [new URLSearchParams(text)], which
    accepts every text; [params_of_json] is [new URLSearchParams(value)],
    which throws on a value that is no record, sequence of pairs or
    string; [empty_object] is [{}]. *)
Context {Json : Type}.
Variable request_json : string -> option Json.
Variable params_of_text : string -> URLSearchParams.
Variable params_of_json : Json -> completion URLSearchParams.
Variable empty_object : Json.

Definition parseTokenInput (request : Request) : completion URLSearchParams :=
  let contentType := Js.or_else (content_type request) "" in
  if Js.includes "application/x-www-form-urlencoded" contentType then
    let text := body request in
    Returns (params_of_text text)
  else
    let json :=
      match request_json (body request) with
      | Some value => value
      | None => empty_object
      end in
    params_of_json json.

(** The token endpoint's parsing pipeline: [parseTokenInput], then
    [buildTokenInput]. *)
Definition tokenInputOf (request : Request) : completion TokenInputResult :=
  bind_completion (parseTokenInput request) (fun form => Returns (buildTokenInput form)).

End Parsing.

End OAuthInput.


(** ** Configuration and URLs *)

(** The fields of [UnifiedConfig] that the sources read.  The two provider
    URLs are the upstream provider's native authorize and token endpoints. *)
Record UnifiedConfig : Type := {
  NODE_ENV : string;
  PORT : N;
  MCP_PROTOCOL_VERSION : string;
  AUTH_ENABLED : bool;
  AUTH_STRATEGY : string;
  AUTH_REQUIRE_RS : bool;
  AUTH_ALLOW_DIRECT_BEARER : bool;
  AUTH_RESOURCE_URI : option string;
  AUTH_DISCOVERY_URL : option string;
  OAUTH_SCOPES : string;
  OAUTH_AUTHORIZATION_URL : string;
  OAUTH_TOKEN_URL : string
}.

(** A parsed [URL] with the properties the sources read.  [port] is [None]
    for the empty string and the decimal numeral's value otherwise. *)
Record URL : Type := {
  protocol : string;
  hostname : string;
  port : option N;
  host : string;
  origin : string
}.

(** [new URL(text)], which throws on a text that is no URL. *)
Class UrlParser : Type := new_URL : string -> completion URL.

(** [Number(url.port || (url.protocol === 'https:' ? 443 : 80)) + 1]. *)
Definition next_port (url : URL) : N :=
  (match port url with
   | Some p => p
   | None => if String.eqb (protocol url) "https:" then 443 else 80
   end + 1)%N.

(** [`${url.protocol}//${url.hostname}:${authPort}`]. *)
Definition adjacent_port_base (url : URL) (authPort : N) : string :=
  protocol url +:+ "//" +:+ hostname url +:+ ":" +:+ pretty authPort.

(** ** OAuth discovery *)

Module Discovery.

Record AuthorizationServerMetadata : Type := {
  issuer : string;
  authorization_endpoint : string;
  token_endpoint : string;
  revocation_endpoint : string;
  scopes_supported : list string
}.

Record EndpointOverrides : Type := {
  authorizationEndpoint : option string;
  tokenEndpoint : option string;
  revocationEndpoint : option string
}.

(** Modelled from the spec: [buildAuthorizationServerMetadata] of
    shared/oauth/discovery, which is not among the sources.  The document
    advertises the issuer, the authorize, token and revoke endpoints and the
    supported scopes; an endpoint the caller passes is advertised as passed,
    one it leaves out is the base URL's own path. *)
Definition buildAuthorizationServerMetadata
    (baseUrl : string) (scopes : list string) (overrides : EndpointOverrides)
  : AuthorizationServerMetadata :=
  {| issuer := baseUrl;
     authorization_endpoint :=
       default (baseUrl +:+ "/authorize") (authorizationEndpoint overrides);
     token_endpoint := default (baseUrl +:+ "/token") (tokenEndpoint overrides);
     revocation_endpoint := default (baseUrl +:+ "/revoke") (revocationEndpoint overrides);
     scopes_supported := scopes |}.

(** A document advertises the proxy's endpoints under a base URL. *)
Definition advertises_proxy (base : string) (doc : AuthorizationServerMetadata) : Prop :=
  authorization_endpoint doc = base +:+ "/authorize"
  /\ token_endpoint doc = base +:+ "/token"
  /\ revocation_endpoint doc = base +:+ "/revoke".

Record DiscoveryStrategy : Type := {
  resolveAuthBaseUrl : URL -> UnifiedConfig -> completion string;
  resolveAuthorizationServerUrl : URL -> UnifiedConfig -> completion string;
  resolveResourceBaseUrl : URL -> UnifiedConfig -> completion string
}.

(** [config.OAUTH_SCOPES.split(/\s+/).map(trim).filter(Boolean)]. *)
Definition handler_scopes (config : UnifiedConfig) : list string :=
  List.filter Js.truthy (List.map Js.trim (Js.split_white_space false (OAUTH_SCOPES config))).

(** [createDiscoveryHandlers(config, strategy).authorizationMetadata]. *)
Definition authorizationMetadata
    (config : UnifiedConfig) (strategy : DiscoveryStrategy) (requestUrl : URL)
  : completion AuthorizationServerMetadata :=
  let scopes := handler_scopes config in
  bind_completion (resolveAuthBaseUrl strategy requestUrl config) (fun baseUrl =>
    Returns (buildAuthorizationServerMetadata baseUrl scopes
      {| authorizationEndpoint := Some (baseUrl +:+ "/authorize");
         tokenEndpoint := Some (baseUrl +:+ "/token");
         revocationEndpoint := Some (baseUrl +:+ "/revoke") |})).

Definition workerDiscoveryStrategy : DiscoveryStrategy :=
  {| resolveAuthBaseUrl := fun requestUrl _ => Returns (origin requestUrl);
     resolveAuthorizationServerUrl := fun requestUrl _ =>
       Returns (origin requestUrl +:+ "/.well-known/oauth-authorization-server");
     resolveResourceBaseUrl := fun requestUrl _ => Returns (origin requestUrl +:+ "/mcp") |}.

Section ProtectedResource.

(** [buildProtectedResourceMetadata] of shared/oauth/discovery is not among
    the sources: the handler is modelled over any builder of the document
    from the resource base, the authorization server URL and the session
    id. *)
Context {ProtectedResourceMetadata : Type}.
Variable buildProtectedResourceMetadata :
  string -> string -> option string -> ProtectedResourceMetadata.

(** [createDiscoveryHandlers(config, strategy).protectedResourceMetadata].
    The strategy's resolver of the authorization server URL is only called
    when [config.AUTH_DISCOVERY_URL] is falsy. *)
Definition protectedResourceMetadata
    (config : UnifiedConfig) (strategy : DiscoveryStrategy) (requestUrl : URL)
    (sid : option string) : completion ProtectedResourceMetadata :=
  bind_completion (resolveResourceBaseUrl strategy requestUrl config) (fun resourceBase =>
    bind_completion
      (if Js.truthy_opt (AUTH_DISCOVERY_URL config)
       then Returns (Js.nullish (AUTH_DISCOVERY_URL config) "")
       else resolveAuthorizationServerUrl strategy requestUrl config)
      (fun authorizationServerUrl =>
         Returns (buildProtectedResourceMetadata resourceBase authorizationServerUrl sid))).

End ProtectedResource.

Section Node.
Context {url_parser : UrlParser}.

(** [Number(config.PORT) + 1] is computed on natural numbers: it is the
    source's sum for every port below 2^53, where a double is exact. *)
Definition nodeDiscoveryStrategy : DiscoveryStrategy :=
  {| resolveAuthBaseUrl := fun requestUrl config =>
       if Js.truthy_opt (AUTH_RESOURCE_URI config) then
         bind_completion (new_URL (Js.nullish (AUTH_RESOURCE_URI config) "")) (fun resourceUrl =>
           let authPort := next_port resourceUrl in
           Returns (adjacent_port_base resourceUrl authPort))
       else
         let authPort := (PORT config + 1)%N in
         Returns (adjacent_port_base requestUrl authPort);
     resolveAuthorizationServerUrl := fun requestUrl config =>
       if Js.truthy_opt (AUTH_RESOURCE_URI config) then
         bind_completion (new_URL (Js.nullish (AUTH_RESOURCE_URI config) "")) (fun resourceUrl =>
           let authPort := next_port resourceUrl in
           Returns (adjacent_port_base resourceUrl authPort
                      +:+ "/.well-known/oauth-authorization-server"))
       else
         let authPort := (PORT config + 1)%N in
         Returns (adjacent_port_base requestUrl authPort
                    +:+ "/.well-known/oauth-authorization-server");
     resolveResourceBaseUrl := fun requestUrl config =>
       Returns (Js.or_else (AUTH_RESOURCE_URI config)
                  (protocol requestUrl +:+ "//" +:+ host requestUrl +:+ "/mcp")) |}.

(** The base URL of the auth application's discovery route. *)
Definition authAppBase (config : UnifiedConfig) (requestUrl : string) : completion string :=
  bind_completion
    (if Js.truthy_opt (AUTH_RESOURCE_URI config)
     then new_URL (Js.nullish (AUTH_RESOURCE_URI config) "")
     else new_URL requestUrl)
    (fun here =>
       let authPort := next_port here in
       Returns (if Js.truthy_opt (AUTH_RESOURCE_URI config)
                then adjacent_port_base here authPort
                else protocol here +:+ "//" +:+ host here)).

(** The handler of GET /.well-known/oauth-authorization-server in
    [buildAuthApp]: the document it answers with. *)
Definition authAppMetadata (config : UnifiedConfig) (requestUrl : string)
  : completion AuthorizationServerMetadata :=
  bind_completion (authAppBase config requestUrl) (fun base =>
    let scopes := List.filter Js.truthy (Js.split " " (OAUTH_SCOPES config)) in
    Returns (buildAuthorizationServerMetadata base scopes
      {| authorizationEndpoint := Some (base +:+ "/authorize");
         tokenEndpoint := Some (base +:+ "/token");
         revocationEndpoint := Some (base +:+ "/revoke") |})).

End Node.

End Discovery.

(** ** Responses and logging shared by the gate and the routes *)

(** The JSON-RPC error envelope [{jsonrpc: '2.0', error: {code, message}, id: null}]. *)
Record JsonRpcError : Type := {
  code : Z;
  message : string
}.

Inductive LogLevel : Type := debug | info | error.

(** A call of the logger: level, scope, message and the detail logged with
    it (a session id or an error message). *)
Record LogEntry : Type := {
  level : LogLevel;
  scope : string;
  text : string;
  detail : option string
}.

(** ** The security gate *)

Module SecurityGate.

(** The provider credential of a stored record. *)
Record ProviderTokens : Type := {
  access_token : string;
  refresh_token : option string;
  expires_at : option N;
  scopes : option (list string)
}.

(** A record of the token store; [provider] may be missing. *)
Record RsRecord : Type := {
  provider : option ProviderTokens
}.

(** The token store: [getTokenStore().getByRsAccess(token)] returns the
    record, returns nothing, or throws. *)
Record TokenStore : Type := {
  getByRsAccess : string -> completion (option RsRecord)
}.

Record AuthContext : Type := {
  strategy : string;
  authHeaders_authorization : string;
  resolvedHeaders_authorization : string;
  providerToken : string;
  provider_credential : ProviderTokens;
  rsToken : string
}.

(** The request as the middleware reads it through Hono: the two header
    values, the request URL and the raw headers given to the validators. *)
Record Request (Headers : Type) : Type := {
  Authorization : option string;
  Mcp_Session_Id : option string;
  url : string;
  raw_headers : Headers
}.
Arguments Authorization {Headers} _.
Arguments Mcp_Session_Id {Headers} _.
Arguments url {Headers} _.
Arguments raw_headers {Headers} _.

Record Challenge : Type := {
  challenge_status : N;
  challenge_WWW_Authenticate : string;
  challenge_body : JsonRpcError
}.

(** What the middleware imports from shared/mcp/security, which is not among
    the sources: the two validators, which throw on a request they refuse,
    and the header value and body of a challenge. *)
Class SecurityLibrary (Headers : Type) : Type := {
  validateOrigin : Headers -> bool -> completion unit;
  validateProtocolVersion : Headers -> string -> completion unit;
  www_authenticate : string -> string -> string;
  unauthorized_error : JsonRpcError
}.

(** A response the middleware sends: [c.header] calls, then [c.json]. *)
Record Response : Type := {
  status : N;
  headers : list (string * string);
  body : JsonRpcError
}.

(** How the middleware ends: it answers itself, or it calls [next()] with
    the auth context it attached to the Hono context, if any. *)
Inductive GateResult : Type :=
| Respond (response : Response)
| Next (authContext : option AuthContext).

Section Middleware.
Context {Headers : Type} {security : SecurityLibrary Headers} {url_parser : UrlParser}.

(** Modelled from the spec: [buildUnauthorizedChallenge] of
    shared/mcp/security, which is not among the sources.  A challenge has
    status 401, a WWW-Authenticate header advertising the discovery metadata
    of the origin and the session id, and a JSON-RPC error body. *)
Definition buildUnauthorizedChallenge (origin sid : string) : Challenge :=
  {| challenge_status := 401;
     challenge_WWW_Authenticate := www_authenticate origin sid;
     challenge_body := unauthorized_error |}.

(** The 401 challenge for an origin and a session id, as the client sees it. *)
Definition challenge_for (origin sid : string) : Response :=
  {| status := 401;
     headers := [("Mcp-Session-Id", sid); ("WWW-Authenticate", www_authenticate origin sid)];
     body := unauthorized_error |}.

Definition token_lookup_failed (e : string) : LogEntry :=
  {| level := error; scope := "mcp_security"; text := "Token lookup failed"; detail := Some e |}.

(** [config.AUTH_RESOURCE_URI ? new URL(config.AUTH_RESOURCE_URI).origin
      : new URL(c.req.url).origin]. *)
Definition advertised_origin (config : UnifiedConfig) (c : Request Headers)
  : completion string :=
  bind_completion
    (if Js.truthy_opt (AUTH_RESOURCE_URI config)
     then new_URL (Js.nullish (AUTH_RESOURCE_URI config) "")
     else new_URL (url c))
    (fun parsed => Returns (origin parsed)).

(** The challenge for a session id: the two [c.header] calls and
    [c.json(challenge.body, challenge.status)]. *)
Definition challenge_response (config : UnifiedConfig) (c : Request Headers) (sid : string)
  : completion Response :=
  bind_completion (advertised_origin config c) (fun origin =>
    let challenge := buildUnauthorizedChallenge origin sid in
    Returns {| status := challenge_status challenge;
               headers := [("Mcp-Session-Id", sid);
                           ("WWW-Authenticate", challenge_WWW_Authenticate challenge)];
               body := challenge_body challenge |}).

(** [auth.split(' ', 2)]: the scheme and the token of an Authorization value. *)
Definition scheme_of (auth : string) : option string := Js.split_limit " " 2 auth !! 0%nat.
Definition rsToken_of (auth : string) : option string := Js.split_limit " " 2 auth !! 1%nat.

(** [scheme && scheme.toLowerCase() === 'bearer' ? (rsToken || '').trim() : '']. *)
Definition bearer_of (auth : string) : string :=
  if Js.truthy_opt (scheme_of auth)
     && String.eqb (Js.toLowerCase (Js.nullish (scheme_of auth) "")) "bearer"
  then Js.trim (Js.or_else (rsToken_of auth) "")
  else "".

Definition authContext_of (config : UnifiedConfig) (auth bearer : string)
    (provider : ProviderTokens) : AuthContext :=
  {| strategy := AUTH_STRATEGY config;
     authHeaders_authorization := auth;
     resolvedHeaders_authorization := "Bearer " +:+ access_token provider;
     providerToken := access_token provider;
     provider_credential :=
       {| access_token := access_token provider;
          refresh_token := refresh_token provider;
          expires_at := expires_at provider;
          scopes := scopes provider |};
     rsToken := bearer |}.

(** The body of the inner [try]: the store lookup and what follows it.  It
    returns the response when the middleware answers there, and the auth
    context it attached otherwise. *)
Definition lookup_credential (config : UnifiedConfig) (store : TokenStore)
    (randomUUID : string) (c : Request Headers) (auth bearer : string)
  : completion (GateResult * list LogEntry) :=
  bind_completion (getByRsAccess store bearer) (fun record =>
    match record ≫= provider with
    | Some provider => Returns (Next (Some (authContext_of config auth bearer provider)), [])
    | None =>
        if AUTH_REQUIRE_RS config && negb (AUTH_ALLOW_DIRECT_BEARER config) then
          let sid := Js.nullish (Mcp_Session_Id c) randomUUID in
          bind_completion (challenge_response config c sid) (fun response =>
            Returns (Respond response,
                     [{| level := debug; scope := "mcp_security";
                         text := "RS token not found, challenging"; detail := None |}]))
        else Returns (Next None, [])
    end).

(** The part of the outer [try] guarded by [config.AUTH_ENABLED]. *)
Definition authenticate (config : UnifiedConfig) (store : TokenStore)
    (randomUUID : string) (c : Request Headers)
  : completion GateResult * list LogEntry :=
  let auth := Authorization c in
  if negb (Js.truthy_opt auth) then
    let sid := if Js.truthy_opt (Mcp_Session_Id c)
               then Js.nullish (Mcp_Session_Id c) "" else randomUUID in
    let generated :=
      if Js.truthy_opt (Mcp_Session_Id c) then []
      else [{| level := debug; scope := "mcp_security";
               text := "Generated session ID"; detail := Some sid |}] in
    (bind_completion (challenge_response config c sid) (fun response =>
       Returns (Respond response)), generated)
  else
    let auth := Js.nullish auth "" in
    let bearer := bearer_of auth in
    if Js.truthy bearer then
      match lookup_credential config store randomUUID c auth bearer with
      | Returns (result, logged) => (Returns result, logged)
      | Throws e =>
          (Returns (Next None),
           [{| level := error; scope := "mcp_security";
               text := "Token lookup failed"; detail := Some e |}])
      end
    else (Returns (Next None), []).

(** The request passes [validateOrigin] and [validateProtocolVersion]. *)
Definition passes_validation (config : UnifiedConfig) (c : Request Headers) : Prop :=
  validateOrigin (raw_headers c) (String.eqb (NODE_ENV config) "development") = Returns tt
  /\ validateProtocolVersion (raw_headers c) (MCP_PROTOCOL_VERSION config) = Returns tt.

(** The response of the outer [catch]. *)
Definition internal_error_response (e : string) : Response :=
  {| status := 500;
     headers := [];
     body := {| code := -32603;
                message := if Js.truthy e then e else "Internal server error" |} |}.

(** The middleware [createMcpSecurityMiddleware(config)] on one request:
    how it ends and what it logged.  [randomUUID] is the value
    [randomUUID()] returns when the middleware calls it. *)
Definition createMcpSecurityMiddleware (config : UnifiedConfig) (store : TokenStore)
    (randomUUID : string) (c : Request Headers) : GateResult * list LogEntry :=
  let attempt : completion GateResult * list LogEntry :=
    match validateOrigin (raw_headers c) (String.eqb (NODE_ENV config) "development") with
    | Throws e => (Throws e, [])
    | Returns _ =>
        match validateProtocolVersion (raw_headers c) (MCP_PROTOCOL_VERSION config) with
        | Throws e => (Throws e, [])
        | Returns _ =>
            if AUTH_ENABLED config then authenticate config store randomUUID c
            else (Returns (Next None), [])
        end
    end in
  match attempt with
  | (Returns result, logged) => (result, logged)
  | (Throws e, logged) =>
      (Respond (internal_error_response e),
       logged ++ [{| level := error; scope := "mcp_security";
                     text := "Security check failed"; detail := Some e |}])
  end.

End Middleware.

End SecurityGate.

(** ** The MCP routes

    The three handlers of [buildMcpRoutes] over the state they share.  The
    patch of [res.setHeader], the removal of the Transfer-Encoding header,
    the [onerror] handler and the close listener are left out: they touch
    neither the registry nor the connected set nor which answer a handler
    gives. *)

Module McpRoutes.

(** A parsed JSON value.  Numbers are integers here: the routes only test a
    request id for truthiness and hand it on. *)
#[warnings="-register-all"]
Inductive Json : Type :=
| JNull
| JBool (b : bool)
| JNumber (n : Z)
| JString (s : string)
| JArray (items : list Json)
| JObject (members : list (string * Json)).

(** JavaScript truthiness of a parsed value. *)
Definition json_truthy (v : Json) : bool :=
  match v with
  | JNull => false
  | JBool b => b
  | JNumber n => negb (n =? 0)%Z
  | JString s => Js.truthy s
  | JArray _ | JObject _ => true
  end.

(** The last member of that name, as [JSON.parse] keeps it. *)
Fixpoint last_member (name : string) (members : list (string * Json)) : option Json :=
  match members with
  | [] => None
  | (k, v) :: rest =>
      match last_member name rest with
      | Some later => Some later
      | None => if String.eqb k name then Some v else None
      end
  end.

(** [value.name] when the value has that property. *)
Definition property (name : string) (value : Json) : option Json :=
  match value with
  | JObject members => last_member name members
  | _ => None
  end.

Inductive Method : Type := POST | GET | DELETE.

(** A transport object: its identity and the two options it was constructed
    with ([sessionIdGenerator] returns a fixed id; [onsessioninitialized]
    registers the transport under the id it is called with). *)
Record Transport : Type := {
  identity : nat;
  sessionIdGenerator : option string;
  onsessioninitialized : bool
}.

Inductive Event : Type :=
| Connected (transport : nat)
| Dispatched (transport : nat) (method : Method)
| Closed (transport : nat)
| ContextCreated (id : Json) (sessionId : option string)
    (authContext : option SecurityGate.AuthContext)
| Logged (entry : LogEntry).

(** The state [buildMcpRoutes] closes over: the [transports] map it is
    given, the [connectedTransports] set (by identity), the number of
    transport objects constructed so far, and what has happened, oldest
    first: [Connected t] is a call of [server.connect] on [t] and
    [Dispatched t m] a call of [handleRequest] on [t]. *)
Record RouteState : Type := {
  transports : gmap string Transport;
  connectedTransports : gset nat;
  constructed : nat;
  history : list Event
}.

(** The SDK behind the routes: whether [server.connect] and
    [transport.handleRequest] return or throw, what the transport writes to
    the response, and whether handling a POST body establishes the session
    (the SDK then calls the transport's [onsessioninitialized] with the id
    its [sessionIdGenerator] returns).  Each may depend on what happened
    before. *)
Class Sdk : Type := {
  NodeResponse : Type;
  server_connect : list Event -> Transport -> completion unit;
  transport_handleRequest :
    list Event -> Transport -> Method -> option Json -> completion NodeResponse;
  session_initialized : list Event -> Transport -> option Json -> bool
}.

(** The request as a route handler reads it: the session header, the parsed
    body ([None] when [c.req.json()] fails), whether an Authorization header
    came with it, and the auth context the gate attached. *)
Record Request : Type := {
  Mcp_Session_Id : option string;
  json : option Json;
  has_authorization : bool;
  authContext : option SecurityGate.AuthContext
}.

(** How often [server.connect] was called on a transport. *)
Fixpoint connect_calls (transport : nat) (events : list Event) : nat :=
  match events with
  | [] => 0
  | Connected t :: rest =>
      (if decide (t = transport) then 1 else 0) + connect_calls transport rest
  | _ :: rest => connect_calls transport rest
  end.

Section Routes.
Context {sdk : Sdk}.

Inductive Response : Type :=
| JsonResponse (status : N) (body : JsonRpcError)
| TextResponse (status : N) (body : string)
| FetchResponse (res : NodeResponse).

(** Stateful code that may throw: the completion and the state it leaves. *)
Definition Action (A : Type) : Type := RouteState -> completion A * RouteState.

Definition ret {A} (a : A) : Action A := fun st => (Returns a, st).

Definition bind {A B} (m : Action A) (k : A -> Action B) : Action B :=
  fun st =>
    match m st with
    | (Returns a, st') => k a st'
    | (Throws e, st') => (Throws e, st')
    end.

Definition record_event (e : Event) (st : RouteState) : RouteState :=
  {| transports := transports st;
     connectedTransports := connectedTransports st;
     constructed := constructed st;
     history := history st ++ [e] |}.

Definition log (lv : LogLevel) (sc msg : string) (d : option string) : Action unit :=
  fun st => (Returns tt, record_event (Logged {| level := lv; scope := sc; text := msg; detail := d |}) st).

(** [connectedTransports.add(transport)]. *)
Definition mark_connected (transport : Transport) (st : RouteState) : RouteState :=
  {| transports := transports st;
     connectedTransports := {[identity transport]} ∪ connectedTransports st;
     constructed := constructed st;
     history := history st |}.

(** [transports.set(sid, transport)]. *)
Definition register (sid : string) (transport : Transport) (st : RouteState) : RouteState :=
  {| transports := <[sid := transport]> (transports st);
     connectedTransports := connectedTransports st;
     constructed := constructed st;
     history := history st |}.

(** [transports.delete(sid)]. *)
Definition unregister (sid : string) (st : RouteState) : RouteState :=
  {| transports := delete sid (transports st);
     connectedTransports := connectedTransports st;
     constructed := constructed st;
     history := history st |}.

(** [new StreamableHTTPServerTransport({...})]: a new identity. *)
Definition construct (generator : option string) (callback : bool) : Action Transport :=
  fun st =>
    (Returns {| identity := constructed st;
                sessionIdGenerator := generator;
                onsessioninitialized := callback |},
     {| transports := transports st;
        connectedTransports := connectedTransports st;
        constructed := S (constructed st);
        history := history st |}).

Definition ensureConnected (transport : Transport) : Action unit :=
  fun st =>
    if decide (identity transport ∈ connectedTransports st) then (Returns tt, st)
    else
      match server_connect (history st) transport with
      | Returns _ =>
          (Returns tt, mark_connected transport (record_event (Connected (identity transport)) st))
      | Throws e => (Throws e, record_event (Connected (identity transport)) st)
      end.

(** The session callback as the POST handler installs it: it registers the
    transport under the id it is called with and logs. *)
Definition session_callback (transport : Transport) (sid : string) : Action unit :=
  fun st =>
    log info "mcp" "Session initialized" (Some sid) (register sid transport st).

(** [await transport.handleRequest(req, res, body)]: the SDK handles the
    request; when handling it establishes the session, the SDK has called the
    transport's callback with the id its generator returns. *)
Definition handleRequest (transport : Transport) (method : Method) (body : option Json)
  : Action NodeResponse :=
  fun st =>
    let st1 := record_event (Dispatched (identity transport) method) st in
    let st2 :=
      match method, sessionIdGenerator transport, onsessioninitialized transport with
      | POST, Some sid, true =>
          if session_initialized (history st) transport body
          then snd (session_callback transport sid st1)
          else st1
      | _, _, _ => st1
      end in
    (transport_handleRequest (history st) transport method body, st2).

(** The [catch] of a handler: log, answer 500 with the internal-error
    envelope. *)
Definition or_internal_error (what : string) (m : Action Response)
  : RouteState -> Response * RouteState :=
  fun st =>
    match m st with
    | (Returns response, st') => (response, st')
    | (Throws e, st') =>
        (JsonResponse 500 {| code := -32603; message := "Internal server error" |},
         record_event (Logged {| level := error; scope := "mcp"; text := what; detail := Some e |}) st')
    end.

Definition no_session_response : Response :=
  JsonResponse 405 {| code := -32000; message := "Method not allowed - no session" |}.

Definition invalid_session_response : Response := TextResponse 404 "Invalid session".

(** [Boolean(body && body.method === 'initialize')]. *)
Definition is_initialize (body : option Json) : bool :=
  match body with
  | Some value =>
      json_truthy value
      && match property "method" value with
         | Some (JString m) => String.eqb m "initialize"
         | _ => false
         end
  | None => false
  end.

(** [body && typeof body === 'object' && 'id' in body && body.id]: the id. *)
Definition request_id (body : option Json) : option Json :=
  match body with
  | Some value => match property "id" value with
                  | Some id => if json_truthy id then Some id else None
                  | None => None
                  end
  | None => None
  end.

(** [app.post('/')]. *)
Definition app_post (c : Request) (randomUUID : string) : RouteState -> Response * RouteState :=
  or_internal_error "Error handling POST request" (
    let sessionIdHeader := Mcp_Session_Id c in
    let body := json c in
    let isInitialize := is_initialize body in
    let plannedSid :=
      if isInitialize then Some (Js.or_else sessionIdHeader randomUUID) else None in
    bind (log info "mcp_request" "Processing MCP request"
            (match plannedSid with
             | Some sid => if Js.truthy sid then Some sid else sessionIdHeader
             | None => sessionIdHeader
             end)) (fun _ =>
    bind (fun st =>
            match (if Js.truthy_opt sessionIdHeader
                   then transports st !! Js.nullish sessionIdHeader ""
                   else None) with
            | Some found => ret found st
            | None => construct (if isInitialize then plannedSid else None) isInitialize st
            end) (fun transport =>
    bind (fun st =>
            match request_id body with
            | Some id => (Returns tt, record_event (ContextCreated id plannedSid (authContext c)) st)
            | None => (Returns tt, st)
            end) (fun _ =>
    bind (ensureConnected transport) (fun _ =>
    bind (handleRequest transport POST body) (fun res =>
    ret (FetchResponse res))))))).

(** [app.get('/')]. *)
Definition app_get (c : Request) : RouteState -> Response * RouteState :=
  fun st =>
    let sessionIdHeader := Mcp_Session_Id c in
    if negb (Js.truthy_opt sessionIdHeader) then (no_session_response, st)
    else
      or_internal_error "Error handling GET request" (fun st =>
        match transports st !! Js.nullish sessionIdHeader "" with
        | None => ret invalid_session_response st
        | Some transport =>
            bind (ensureConnected transport) (fun _ =>
            bind (handleRequest transport GET None) (fun res =>
            ret (FetchResponse res))) st
        end) st.

(** [app.delete('/')]. *)
Definition app_delete (c : Request) : RouteState -> Response * RouteState :=
  fun st =>
    let sessionIdHeader := Mcp_Session_Id c in
    if negb (Js.truthy_opt sessionIdHeader) then (no_session_response, st)
    else
      or_internal_error "Error handling DELETE request" (fun st =>
        match transports st !! Js.nullish sessionIdHeader "" with
        | None => ret invalid_session_response st
        | Some transport =>
            bind (ensureConnected transport) (fun _ =>
            bind (handleRequest transport DELETE None) (fun res =>
            bind (fun st => (Returns tt, unregister (Js.nullish sessionIdHeader "") st)) (fun _ =>
            bind (fun st => (Returns tt, record_event (Closed (identity transport)) st)) (fun _ =>
            ret (FetchResponse res))))) st
        end) st.

End Routes.

End McpRoutes.

(** ** OAuth flow input: the authorize and callback requests, flow options *)

Definition map_completion {A B} (f : A -> B) (m : completion A) : completion B :=
  bind_completion m (fun a => Returns (f a)).

Module OAuthFlow.

Record AuthorizeInput : Type := {
  codeChallenge : string;
  codeChallengeMethod : string;
  redirectUri : string;
  requestedScope : option string;
  state : option string;
  sid : option string
}.

(** [parseAuthorizeInput(url, sessionId)], over [url.searchParams]. *)
Definition parseAuthorizeInput
    (searchParams : OAuthInput.URLSearchParams) (sessionId : option string)
  : AuthorizeInput :=
  {| codeChallenge := Js.or_else (OAuthInput.get "code_challenge" searchParams) "";
     codeChallengeMethod := Js.or_else (OAuthInput.get "code_challenge_method" searchParams) "";
     redirectUri := Js.or_else (OAuthInput.get "redirect_uri" searchParams) "";
     requestedScope := OAuthInput.get "scope" searchParams;
     state := OAuthInput.get "state" searchParams;
     sid := if Js.truthy_opt (OAuthInput.get "sid" searchParams)
            then OAuthInput.get "sid" searchParams
            else if Js.truthy_opt sessionId then sessionId else None |}.

Record CallbackInput : Type := {
  callback_code : option string;
  callback_state : option string
}.

(** [parseCallbackInput(url)], over [url.searchParams]. *)
Definition parseCallbackInput (searchParams : OAuthInput.URLSearchParams) : CallbackInput :=
  {| callback_code := OAuthInput.get "code" searchParams;
     callback_state := OAuthInput.get "state" searchParams |}.

Record FlowOverrides : Type := {
  override_callbackPath : option string;
  override_tokenEndpointPath : option string
}.

Record FlowOptions : Type := {
  baseUrl : string;
  isDev : bool;
  callbackPath : string;
  tokenEndpointPath : string
}.

Section Flow.
Context {url_parser : UrlParser}.

(** [buildFlowOptions(url, config, overrides)]. *)
Definition buildFlowOptions (url : URL) (config : UnifiedConfig) (overrides : FlowOverrides)
  : completion FlowOptions :=
  bind_completion
    (if Js.truthy_opt (AUTH_RESOURCE_URI config) then
       bind_completion (new_URL (Js.nullish (AUTH_RESOURCE_URI config) "")) (fun resourceUrl =>
         let authPort := next_port resourceUrl in
         Returns (adjacent_port_base resourceUrl authPort))
     else Returns (origin url))
    (fun base =>
       Returns {| baseUrl := base;
                  isDev := String.eqb (NODE_ENV config) "development";
                  callbackPath := Js.nullish (override_callbackPath overrides) "/oauth/callback";
                  tokenEndpointPath :=
                    Js.nullish (override_tokenEndpointPath overrides) "/api/token" |}).

End Flow.

End OAuthFlow.

(** ** Vocabulary of the properties *)

Module Spec.

(** Every character of the string satisfies the test. *)
Fixpoint all_chars (test : ascii -> bool) (s : string) : bool :=
  match s with
  | EmptyString => true
  | String c rest => test c && all_chars test rest
  end.

Definition security_check_failed (e : string) : LogEntry :=
  {| level := error; scope := "mcp_security"; text := "Security check failed"; detail := Some e |}.

(** [config.OAUTH_SCOPES.split(' ').filter(Boolean)]: the scopes of the auth
    application's discovery route. *)
Definition auth_app_scopes (config : UnifiedConfig) : list string :=
  List.filter Js.truthy (Js.split " " (OAUTH_SCOPES config)).

(** The well-known path of the authorization server's metadata. *)
Definition well_known : string := "/.well-known/oauth-authorization-server".

(** The string holds no white space. *)
Definition lacks_white_space (s : string) : bool :=
  all_chars (fun c => negb (Js.is_white_space c)) s.

(** The only white space of the string is the space character. *)
Definition spaces_only (s : string) : bool :=
  all_chars (fun c => negb (Js.is_white_space c) || Ascii.eqb c " ") s.

Section Routes.
Import McpRoutes.
Context {sdk : Sdk}.

(** Every registered transport is registered under the id its own
    generator returns, and has the callback that registers it. *)
Definition own_sessions (st : RouteState) : Prop :=
  forall sid transport,
    transports st !! sid = Some transport ->
    sessionIdGenerator transport = Some sid /\ onsessioninitialized transport = true.

(** The identities in use are below the number of transports constructed:
    a transport constructed next is a new object. *)
Definition identities_allocated (st : RouteState) : Prop :=
  (forall sid transport, transports st !! sid = Some transport ->
                         identity transport < constructed st)
  /\ (forall i, i ∈ connectedTransports st -> i < constructed st).

(** One request served from beginning to end: any of the three handlers on
    any request, run to completion as one step.  The relation describes
    requests served one at a time: a handler that waits in [server.connect]
    while another request is taken up is not among its steps. *)
Inductive serves : RouteState -> RouteState -> Prop :=
| serves_post (c : Request) (randomUUID : string) (st : RouteState) :
    serves st (snd (app_post c randomUUID st))
| serves_get (c : Request) (st : RouteState) :
    serves st (snd (app_get c st))
| serves_delete (c : Request) (st : RouteState) :
    serves st (snd (app_delete c st)).

(** Any number of requests served one after the other, each to completion
    before the next is taken up. *)
Definition serves_all : RouteState -> RouteState -> Prop := rtc serves.

(** The routes as [buildMcpRoutes] leaves them: no transport connected yet,
    nothing has happened. *)
Definition just_built (st : RouteState) : Prop :=
  connectedTransports st = ∅ /\ history st = [].

(** Every transport a request was dispatched to is connected. *)
Definition dispatches_connected (st : RouteState) : Prop :=
  forall i method, Dispatched i method ∈ history st -> i ∈ connectedTransports st.

(** [server.connect] was called once on every connected transport and never
    on another. *)
Definition connected_once (st : RouteState) : Prop :=
  forall i, connect_calls i (history st) = if decide (i ∈ connectedTransports st) then 1 else 0.

(** The events a handler adds for itself, apart from the calls of
    [server.connect] and [handleRequest]. *)
Definition bookkeeping (e : Event) : Prop :=
  match e with
  | Connected _ | Dispatched _ _ => False
  | Closed _ | ContextCreated _ _ _ | Logged _ => True
  end.

(** [new StreamableHTTPServerTransport(...)] as a change of state. *)
Definition allocate (st : RouteState) : RouteState :=
  {| transports := transports st;
     connectedTransports := connectedTransports st;
     constructed := S (constructed st);
     history := history st |}.

(** The session id an initialize request plans: the header's, or the
    generated one. *)
Definition planned_session (c : Request) (randomUUID : string) : string :=
  Js.or_else (Mcp_Session_Id c) randomUUID.

(** The transport a request resolves to by its session header. *)
Definition resolved_transport (c : Request) (st : RouteState) : option Transport :=
  if Js.truthy_opt (Mcp_Session_Id c)
  then transports st !! Js.nullish (Mcp_Session_Id c) ""
  else None.

(** The part the three handlers share, for GET and POST: connect, dispatch,
    answer with what the transport wrote, all under the [catch]. *)
Definition serve_plain (what : string) (transport : Transport) (method : Method)
    (body : option Json) : RouteState -> Response * RouteState :=
  or_internal_error what
    (bind (ensureConnected transport) (fun _ =>
     bind (handleRequest transport method body) (fun res =>
     ret (FetchResponse res)))).

(** The POST handler up to the point where it connects: the session id it
    plans, the transport it uses (the one the header resolves to, or a new
    one), and the state after its log entry, the construction and the
    context entry. *)
Definition post_planned (c : Request) (randomUUID : string) : option string :=
  if is_initialize (json c) then Some (planned_session c randomUUID) else None.

Definition post_transport (c : Request) (randomUUID : string) (st : RouteState) : Transport :=
  match resolved_transport c st with
  | Some found => found
  | None => {| identity := constructed st;
               sessionIdGenerator := post_planned c randomUUID;
               onsessioninitialized := is_initialize (json c) |}
  end.

Definition post_logged (c : Request) (randomUUID : string) (st : RouteState) : RouteState :=
  record_event
    (Logged {| level := info; scope := "mcp_request"; text := "Processing MCP request";
               detail := match post_planned c randomUUID with
                         | Some sid => if Js.truthy sid then Some sid else Mcp_Session_Id c
                         | None => Mcp_Session_Id c
                         end |}) st.

Definition post_prepared (c : Request) (randomUUID : string) (st : RouteState) : RouteState :=
  let chosen :=
    match resolved_transport c st with
    | Some _ => post_logged c randomUUID st
    | None => allocate (post_logged c randomUUID st)
    end in
  match request_id (json c) with
  | Some id => record_event (ContextCreated id (post_planned c randomUUID) (authContext c)) chosen
  | None => chosen
  end.

End Routes.

End Spec.

(** ** Fixtures for the examples *)

(** A platform for the examples: a parsed JSON body is its list of string
    members; only a body that opens a brace parses, to no members. *)
Definition example_request_json (text : string) : option (list (string * string)) :=
  if String.prefix "{" text then Some [] else None.

(** Form data for the examples, without percent-decoding: the pairs between
    ampersands, each cut at its first equals sign. *)
Definition example_params_of_text (text : string) : OAuthInput.URLSearchParams :=
  List.map (fun pair =>
              match Js.split "=" pair with
              | name :: value :: _ => (name, value)
              | name :: [] => (name, "")
              | [] => ("", "")
              end)
           (List.filter Js.truthy (Js.split "&" text)).

(** A URL parser for the examples: it knows two URLs. *)
Definition example_new_URL : UrlParser := fun text =>
  if String.eqb text "https://mcp.example.com/mcp" then
    Returns {| protocol := "https:"; hostname := "mcp.example.com"; port := None;
               host := "mcp.example.com"; origin := "https://mcp.example.com" |}
  else if String.eqb text "http://localhost:3000/mcp" then
    Returns {| protocol := "http:"; hostname := "localhost"; port := Some 3000%N;
               host := "localhost:3000"; origin := "http://localhost:3000" |}
  else Throws "Invalid URL".

Definition example_config : UnifiedConfig :=
  {| NODE_ENV := "production";
     PORT := 3000;
     MCP_PROTOCOL_VERSION := "2025-06-18";
     AUTH_ENABLED := true;
     AUTH_STRATEGY := "oauth";
     AUTH_REQUIRE_RS := true;
     AUTH_ALLOW_DIRECT_BEARER := false;
     AUTH_RESOURCE_URI := Some "https://mcp.example.com/mcp";
     AUTH_DISCOVERY_URL := None;
     OAUTH_SCOPES := "calendar.read  calendar.write";
     OAUTH_AUTHORIZATION_URL := "https://accounts.google.com/o/oauth2/v2/auth";
     OAUTH_TOKEN_URL := "https://oauth2.googleapis.com/token" |}.

Definition example_request_url : URL :=
  {| protocol := "http:"; hostname := "localhost"; port := Some 3000%N;
     host := "localhost:3000"; origin := "http://localhost:3000" |}.

(** A configuration whose resource URI is no URL and whose discovery URL is
    set. *)
Definition broken_resource_config : UnifiedConfig :=
  {| NODE_ENV := "production";
     PORT := 3000;
     MCP_PROTOCOL_VERSION := "2025-06-18";
     AUTH_ENABLED := true;
     AUTH_STRATEGY := "oauth";
     AUTH_REQUIRE_RS := true;
     AUTH_ALLOW_DIRECT_BEARER := false;
     AUTH_RESOURCE_URI := Some "not a url";
     AUTH_DISCOVERY_URL := Some "https://auth.example.com/.well-known/oauth-authorization-server";
     OAUTH_SCOPES := "calendar.read";
     OAUTH_AUTHORIZATION_URL := "https://accounts.google.com/o/oauth2/v2/auth";
     OAUTH_TOKEN_URL := "https://oauth2.googleapis.com/token" |}.

(** A configuration without a resource URI. *)
Definition local_config : UnifiedConfig :=
  {| NODE_ENV := "development";
     PORT := 3000;
     MCP_PROTOCOL_VERSION := "2025-06-18";
     AUTH_ENABLED := true;
     AUTH_STRATEGY := "oauth";
     AUTH_REQUIRE_RS := true;
     AUTH_ALLOW_DIRECT_BEARER := false;
     AUTH_RESOURCE_URI := None;
     AUTH_DISCOVERY_URL := None;
     OAUTH_SCOPES := " calendar.read calendar.write ";
     OAUTH_AUTHORIZATION_URL := "https://accounts.google.com/o/oauth2/v2/auth";
     OAUTH_TOKEN_URL := "https://oauth2.googleapis.com/token" |}.

(** A configuration that names the proxy's own endpoints as the provider's
    authorize and token URLs. *)
Definition self_provider_config : UnifiedConfig :=
  {| NODE_ENV := "production";
     PORT := 3000;
     MCP_PROTOCOL_VERSION := "2025-06-18";
     AUTH_ENABLED := true;
     AUTH_STRATEGY := "oauth";
     AUTH_REQUIRE_RS := true;
     AUTH_ALLOW_DIRECT_BEARER := false;
     AUTH_RESOURCE_URI := None;
     AUTH_DISCOVERY_URL := None;
     OAUTH_SCOPES := "calendar.read";
     OAUTH_AUTHORIZATION_URL := "https://mcp.example.com/authorize";
     OAUTH_TOKEN_URL := "https://mcp.example.com/token" |}.

(** The URL https://mcp.example.com/mcp, parsed. *)
Definition example_resource_url : URL :=
  {| protocol := "https:"; hostname := "mcp.example.com"; port := None;
     host := "mcp.example.com"; origin := "https://mcp.example.com" |}.

(** A security library that refuses every origin. *)
Definition strict_security : SecurityGate.SecurityLibrary unit :=
  {| SecurityGate.validateOrigin := fun _ _ => Throws "Invalid origin";
     SecurityGate.validateProtocolVersion := fun _ _ => Returns tt;
     SecurityGate.www_authenticate := fun origin sid => origin +:+ sid;
     SecurityGate.unauthorized_error := {| code := -32000; message := "Unauthorized" |} |}.

(** A security library that accepts every request. *)
Definition example_security : SecurityGate.SecurityLibrary unit :=
  {| SecurityGate.validateOrigin := fun _ _ => Returns tt;
     SecurityGate.validateProtocolVersion := fun _ _ => Returns tt;
     SecurityGate.www_authenticate := fun origin sid =>
       "Bearer resource_metadata=" +:+ origin
       +:+ "/.well-known/oauth-protected-resource?sid=" +:+ sid;
     SecurityGate.unauthorized_error := {| code := -32000; message := "Unauthorized" |} |}.

(** The same configuration with direct bearer tokens allowed. *)
Definition permissive_config : UnifiedConfig :=
  {| NODE_ENV := "production";
     PORT := 3000;
     MCP_PROTOCOL_VERSION := "2025-06-18";
     AUTH_ENABLED := true;
     AUTH_STRATEGY := "oauth";
     AUTH_REQUIRE_RS := true;
     AUTH_ALLOW_DIRECT_BEARER := true;
     AUTH_RESOURCE_URI := Some "https://mcp.example.com/mcp";
     AUTH_DISCOVERY_URL := None;
     OAUTH_SCOPES := "calendar.read  calendar.write";
     OAUTH_AUTHORIZATION_URL := "https://accounts.google.com/o/oauth2/v2/auth";
     OAUTH_TOKEN_URL := "https://oauth2.googleapis.com/token" |}.

(** Three token stores: one whose lookup throws, one that holds nothing and
    one that resolves the token rs-123. *)
Definition failing_store : SecurityGate.TokenStore :=
  {| SecurityGate.getByRsAccess := fun _ => Throws "connection refused" |}.

Definition empty_store : SecurityGate.TokenStore :=
  {| SecurityGate.getByRsAccess := fun _ => Returns None |}.

Definition example_credential : SecurityGate.ProviderTokens :=
  {| SecurityGate.access_token := "ya29.provider";
     SecurityGate.refresh_token := Some "1//refresh";
     SecurityGate.expires_at := Some 1900000000%N;
     SecurityGate.scopes := Some ["calendar.read"] |}.

Definition example_store : SecurityGate.TokenStore :=
  {| SecurityGate.getByRsAccess := fun token =>
       if String.eqb token "rs-123"
       then Returns (Some {| SecurityGate.provider := Some example_credential |})
       else Returns None |}.

(** A store that hands a token back as its own provider credential. *)
Definition echo_store : SecurityGate.TokenStore :=
  {| SecurityGate.getByRsAccess := fun token =>
       Returns (Some {| SecurityGate.provider :=
                          Some {| SecurityGate.access_token := token;
                                  SecurityGate.refresh_token := None;
                                  SecurityGate.expires_at := None;
                                  SecurityGate.scopes := None |} |}) |}.

Definition gate_request (authorization session : option string) : SecurityGate.Request unit :=
  {| SecurityGate.Authorization := authorization;
     SecurityGate.Mcp_Session_Id := session;
     SecurityGate.url := "http://localhost:3000/mcp";
     SecurityGate.raw_headers := tt |}.

(** An SDK whose connect and dispatch always succeed; the transport answers
    200 and establishes the session on an initialize body. *)
Definition example_sdk : McpRoutes.Sdk :=
  {| McpRoutes.NodeResponse := N;
     McpRoutes.server_connect := fun _ _ => Returns tt;
     McpRoutes.transport_handleRequest := fun _ _ _ _ => Returns 200%N;
     McpRoutes.session_initialized := fun _ _ body => McpRoutes.is_initialize body |}.

(** An SDK whose connect succeeds and whose transports throw on every
    request. *)
Definition failing_sdk : McpRoutes.Sdk :=
  {| McpRoutes.NodeResponse := N;
     McpRoutes.server_connect := fun _ _ => Returns tt;
     McpRoutes.transport_handleRequest := fun _ _ _ _ => Throws "stream closed";
     McpRoutes.session_initialized := fun _ _ _ => false |}.

(** An SDK whose [server.connect] throws the first time it is called on a
    transport and returns from then on. *)
Definition flaky_sdk : McpRoutes.Sdk :=
  {| McpRoutes.NodeResponse := N;
     McpRoutes.server_connect := fun events transport =>
       if decide (McpRoutes.connect_calls (McpRoutes.identity transport) events = 0)
       then Throws "connection refused"
       else Returns tt;
     McpRoutes.transport_handleRequest := fun _ _ _ _ => Returns 200%N;
     McpRoutes.session_initialized := fun _ _ body => McpRoutes.is_initialize body |}.

(** An SDK whose transports serve every request but a DELETE, on which they
    throw. *)
Definition delete_failing_sdk : McpRoutes.Sdk :=
  {| McpRoutes.NodeResponse := N;
     McpRoutes.server_connect := fun _ _ => Returns tt;
     McpRoutes.transport_handleRequest := fun _ _ method _ =>
       match method with
       | McpRoutes.DELETE => Throws "stream closed"
       | _ => Returns 200%N
       end;
     McpRoutes.session_initialized := fun _ _ body => McpRoutes.is_initialize body |}.

(** Whether a POST was dispatched to the transport before. *)
Definition was_posted (transport : nat) (events : list McpRoutes.Event) : bool :=
  existsb (fun e => match e with
                    | McpRoutes.Dispatched t McpRoutes.POST => Nat.eqb t transport
                    | _ => false
                    end) events.

(** An SDK whose transports establish the session on an initialize request
    that is the first POST they get, and refuse a later initialize request
    with 400. *)
Definition initializing_sdk : McpRoutes.Sdk :=
  {| McpRoutes.NodeResponse := N;
     McpRoutes.server_connect := fun _ _ => Returns tt;
     McpRoutes.transport_handleRequest := fun events transport _ body =>
       Returns (if McpRoutes.is_initialize body
                   && was_posted (McpRoutes.identity transport) events
                then 400%N else 200%N);
     McpRoutes.session_initialized := fun events transport body =>
       McpRoutes.is_initialize body
       && negb (was_posted (McpRoutes.identity transport) events) |}.

Definition empty_routes : McpRoutes.RouteState :=
  {| McpRoutes.transports := ∅;
     McpRoutes.connectedTransports := ∅;
     McpRoutes.constructed := 0;
     McpRoutes.history := [] |}.

Definition example_transport : McpRoutes.Transport :=
  {| McpRoutes.identity := 0;
     McpRoutes.sessionIdGenerator := Some "session-1";
     McpRoutes.onsessioninitialized := true |}.

(** The routes with the session session-1 registered and not yet connected. *)
Definition one_session : McpRoutes.RouteState :=
  {| McpRoutes.transports := {[ "session-1" := example_transport ]};
     McpRoutes.connectedTransports := ∅;
     McpRoutes.constructed := 1;
     McpRoutes.history := [] |}.

Definition route_request (session : option string) (body : option McpRoutes.Json)
  : McpRoutes.Request :=
  {| McpRoutes.Mcp_Session_Id := session;
     McpRoutes.json := body;
     McpRoutes.has_authorization := false;
     McpRoutes.authContext := None |}.

(** The body of a tools/list call with id 1. *)
Definition tools_list_body : McpRoutes.Json :=
  McpRoutes.JObject [("jsonrpc", McpRoutes.JString "2.0"); ("id", McpRoutes.JNumber 1);
                     ("method", McpRoutes.JString "tools/list")].

(** The body of an initialize call with id 1. *)
Definition initialize_body : McpRoutes.Json :=
  McpRoutes.JObject [("jsonrpc", McpRoutes.JString "2.0"); ("id", McpRoutes.JNumber 1);
                     ("method", McpRoutes.JString "initialize")].

(** The routes with the session session-1 registered and connected. *)
Definition connected_session : McpRoutes.RouteState :=
  {| McpRoutes.transports := {[ "session-1" := example_transport ]};
     McpRoutes.connectedTransports := {[ 0 ]};
     McpRoutes.constructed := 1;
     McpRoutes.history := [McpRoutes.Connected 0] |}.

(** * Properties *)

(** ** JavaScript strings *)

Section JsFacts.

Lemma truthy_true (s : string) : Js.truthy s = true <-> s <> "".
Proof. destruct s; simpl; split; congruence. Qed.

Lemma truthy_false (s : string) : Js.truthy s = false <-> s = "".
Proof. destruct s; simpl; split; congruence. Qed.

Lemma truthy_opt_false (o : option string) :
  Js.truthy_opt o = false <-> o = None \/ o = Some "".
Proof.
  destruct o as [s|]; simpl.
  - rewrite truthy_false. split.
    + intros ->. by right.
    + intros [?|[= ->]]; done.
  - split; [by left | done].
Qed.

(** No piece of [split sep s] contains the separator. *)
Lemma split_pieces_lack_separator (sep : ascii) (s piece : string) :
  In piece (Js.split sep s) -> Js.occurs sep piece = false.
Proof.
  revert piece. induction s as [|c rest IH]; intros piece; simpl.
  - intros [<-|[]]. reflexivity.
  - destruct (Ascii.eqb c sep) eqn:Hc.
    + intros [<-|Hin]; [reflexivity | by apply IH].
    + destruct (Js.split sep rest) as [|first others] eqn:Hsplit.
      * intros [<-|[]]. simpl. by rewrite Hc.
      * intros [<-|Hin].
        -- simpl. rewrite Hc. apply IH. by left.
        -- apply IH. by right.
Qed.

Lemma trimStart_occurs (c : ascii) (s : string) :
  Js.occurs c s = false -> Js.occurs c (Js.trimStart s) = false.
Proof.
  induction s as [|d rest IH]; simpl; [done|].
  intros [Hd Hrest]%orb_false_elim.
  destruct (Js.is_white_space d); [by apply IH|].
  simpl. by rewrite Hd, Hrest.
Qed.

Lemma trimEnd_occurs (c : ascii) (s : string) :
  Js.occurs c s = false -> Js.occurs c (Js.trimEnd s) = false.
Proof.
  induction s as [|d rest IH]; simpl; [done|].
  intros [Hd Hrest]%orb_false_elim.
  specialize (IH Hrest).
  destruct (Js.trimEnd rest) as [|e kept].
  - destruct (Js.is_white_space d); simpl; [done | by rewrite Hd].
  - simpl in *. by rewrite Hd, IH.
Qed.

Lemma trim_occurs (c : ascii) (s : string) :
  Js.occurs c s = false -> Js.occurs c (Js.trim s) = false.
Proof. intros Hs. unfold Js.trim. by apply trimEnd_occurs, trimStart_occurs. Qed.

Example split_limit_example :
  Js.split_limit " " 2 "Bearer rs-123 extra" = ["Bearer"; "rs-123"].
Proof. reflexivity. Qed.

Example split_double_space_example : Js.split_limit " " 2 "Bearer  rs-123" = ["Bearer"; ""].
Proof. reflexivity. Qed.

Example split_empty_example : Js.split " " "" = [""].
Proof. reflexivity. Qed.

Example split_white_space_example :
  Js.split_white_space false " a  b " = [""; "a"; "b"; ""].
Proof. reflexivity. Qed.

Example toLowerCase_example : Js.toLowerCase "BeArEr" = "bearer".
Proof. reflexivity. Qed.

End JsFacts.

(** ** Token input *)

Section TokenInputFacts.
Import OAuthInput.

Example refresh_grant_example :
  buildTokenInput [("grant_type", "refresh_token"); ("refresh_token", "r1")]
  = Input (refresh_token_grant "r1").
Proof. reflexivity. Qed.

Example code_grant_without_verifier_example :
  buildTokenInput [("grant_type", "authorization_code"); ("code", "abc"); ("code_verifier", "")]
  = ErrorResult "missing_code_or_verifier".
Proof. reflexivity. Qed.

Example first_grant_type_wins_example :
  buildTokenInput [("grant_type", "password"); ("grant_type", "refresh_token")]
  = ErrorResult "unsupported_grant_type".
Proof. reflexivity. Qed.

(** C5.  For every parameter set of a token request, [buildTokenInput]
    answers [missing_refresh_token] when the grant is [refresh_token] and the
    refresh token is absent or empty, [missing_code_or_verifier] when the
    grant is [authorization_code] and the code or the verifier is absent or
    empty, [unsupported_grant_type] for every other grant (an absent one
    too), and in the two cases left the tagged grant request carrying the
    fields of the request, which is well formed. *)
Theorem buildTokenInput_dispatch (form : URLSearchParams) :
  (get "grant_type" form = Some "refresh_token" ->
   absent_or_empty (get "refresh_token" form) ->
   buildTokenInput form = ErrorResult "missing_refresh_token")
  /\ (get "grant_type" form = Some "authorization_code" ->
      absent_or_empty (get "code" form) \/ absent_or_empty (get "code_verifier" form) ->
      buildTokenInput form = ErrorResult "missing_code_or_verifier")
  /\ (get "grant_type" form <> Some "refresh_token" ->
      get "grant_type" form <> Some "authorization_code" ->
      buildTokenInput form = ErrorResult "unsupported_grant_type")
  /\ (forall refreshToken,
      get "grant_type" form = Some "refresh_token" ->
      get "refresh_token" form = Some refreshToken -> refreshToken <> "" ->
      buildTokenInput form = Input (refresh_token_grant refreshToken)
      /\ well_formed (refresh_token_grant refreshToken))
  /\ (forall code codeVerifier,
      get "grant_type" form = Some "authorization_code" ->
      get "code" form = Some code -> code <> "" ->
      get "code_verifier" form = Some codeVerifier -> codeVerifier <> "" ->
      buildTokenInput form = Input (authorization_code_grant code codeVerifier)
      /\ well_formed (authorization_code_grant code codeVerifier)).
Proof.
  unfold buildTokenInput, absent_or_empty.
  split; [|split; [|split; [|split]]].
  - intros -> [->| ->]; reflexivity.
  - intros -> Hmissing. simpl.
    destruct (get "code" form) as [code|], (get "code_verifier" form) as [codeVerifier|];
      try reflexivity;
      destruct Hmissing as [[?|?]|[?|?]]; simplify_eq; simpl; try reflexivity.
    destruct (Js.truthy code); reflexivity.
  - intros Hr Ha. repeat case_decide; done.
  - intros refreshToken -> -> Hfilled. simpl.
    by rewrite (proj2 (truthy_true refreshToken) Hfilled).
  - intros code codeVerifier -> -> Hcode -> Hverifier. simpl.
    by rewrite (proj2 (truthy_true code) Hcode), (proj2 (truthy_true codeVerifier) Hverifier).
Qed.

Section Pipeline.
Context {Json : Type}.
Variable request_json : string -> option Json.
Variable params_of_text : string -> URLSearchParams.
Variable params_of_json : Json -> completion URLSearchParams.
Variable empty_object : Json.

(** A body sent as form data is handed to [URLSearchParams] as it is, which
    takes every text: nothing is thrown there. *)
Lemma form_body_is_always_parsed (request : Request) :
  Js.includes "application/x-www-form-urlencoded" (Js.or_else (content_type request) "") = true ->
  parseTokenInput request_json params_of_text params_of_json empty_object request
  = Returns (params_of_text (body request)).
Proof. intros Hform. unfold parseTokenInput. by rewrite Hform. Qed.

(** C10.  A token request whose body does not parse as JSON goes through
    [parseTokenInput] and [buildTokenInput] without a throw, whatever its
    content type: a body announced as form data is taken by [URLSearchParams]
    as it is, and every other body is replaced by the empty object, whose
    parameter set is empty and has no grant_type, so that the result is the
    error [unsupported_grant_type].  ([new URLSearchParams({})] is the empty
    parameter set.) *)
Theorem unparseable_body_is_unsupported_grant (request : Request) :
  params_of_json empty_object = Returns [] ->
  request_json (body request) = None ->
  (exists result,
     tokenInputOf request_json params_of_text params_of_json empty_object request
     = Returns result)
  /\ (Js.includes "application/x-www-form-urlencoded" (Js.or_else (content_type request) "")
      = false ->
      parseTokenInput request_json params_of_text params_of_json empty_object request
      = Returns []
      /\ get "grant_type" [] = None
      /\ tokenInputOf request_json params_of_text params_of_json empty_object request
         = Returns (ErrorResult "unsupported_grant_type")).
Proof.
  intros Hempty Hjson.
  assert (Js.includes "application/x-www-form-urlencoded" (Js.or_else (content_type request) "")
          = false ->
          parseTokenInput request_json params_of_text params_of_json empty_object request
          = Returns []) as Hparse.
  { intros Hform. unfold parseTokenInput. by rewrite Hform, Hjson. }
  split.
  - unfold tokenInputOf.
    destruct (Js.includes "application/x-www-form-urlencoded"
                (Js.or_else (content_type request) "")) eqn:Hform.
    + rewrite (form_body_is_always_parsed request Hform). simpl. eauto.
    + rewrite (Hparse eq_refl). simpl. eauto.
  - intros Hform. split; [by apply Hparse|]. split; [reflexivity|].
    unfold tokenInputOf. by rewrite (Hparse Hform).
Qed.

End Pipeline.

Lemma unparseable_body_witness :
  let request := {| content_type := Some "text/plain"; body := "grant_type=refresh_token" |} in
  (exists result,
     tokenInputOf example_request_json example_params_of_text Returns [] request = Returns result)
  /\ (Js.includes "application/x-www-form-urlencoded" (Js.or_else (content_type request) "")
      = false ->
      parseTokenInput example_request_json example_params_of_text Returns [] request = Returns []
      /\ get "grant_type" [] = None
      /\ tokenInputOf example_request_json example_params_of_text Returns [] request
         = Returns (ErrorResult "unsupported_grant_type")).
Proof.
  intros request.
  apply (unparseable_body_is_unsupported_grant
           example_request_json example_params_of_text Returns [] request); reflexivity.
Defined.

Example form_body_example :
  tokenInputOf example_request_json example_params_of_text Returns []
    {| content_type := Some "application/x-www-form-urlencoded; charset=utf-8";
       body := "grant_type=authorization_code&code=abc&code_verifier=xyz" |}
  = Returns (Input (authorization_code_grant "abc" "xyz")).
Proof. reflexivity. Qed.

Example unparseable_json_example :
  tokenInputOf example_request_json example_params_of_text Returns []
    {| content_type := Some "application/json"; body := "grant_type: refresh_token" |}
  = Returns (ErrorResult "unsupported_grant_type").
Proof. reflexivity. Qed.

End TokenInputFacts.

(** ** Discovery metadata *)

Section DiscoveryFacts.
Import Discovery.

Context {url_parser : UrlParser}.

(** What the handler passes to the builder: the base the strategy resolves,
    the scopes, and the three paths under that base. *)
Lemma authorizationMetadata_document
    (config : UnifiedConfig) (strategy : DiscoveryStrategy) (requestUrl : URL)
    (doc : AuthorizationServerMetadata) :
  authorizationMetadata config strategy requestUrl = Returns doc ->
  exists base,
    resolveAuthBaseUrl strategy requestUrl config = Returns base
    /\ doc = buildAuthorizationServerMetadata base (handler_scopes config)
               {| authorizationEndpoint := Some (base +:+ "/authorize");
                  tokenEndpoint := Some (base +:+ "/token");
                  revocationEndpoint := Some (base +:+ "/revoke") |}.
Proof.
  unfold authorizationMetadata.
  destruct (resolveAuthBaseUrl strategy requestUrl config) as [base|e]; simpl; [|done].
  intros [= <-]. by exists base.
Qed.

(** The same for the auth application's route, whose base is cut from the
    resource URI when there is one and from the request URL otherwise. *)
Lemma authAppMetadata_document
    (config : UnifiedConfig) (requestUrl : string) (doc : AuthorizationServerMetadata) :
  authAppMetadata config requestUrl = Returns doc ->
  exists here,
    new_URL (if Js.truthy_opt (AUTH_RESOURCE_URI config)
             then Js.nullish (AUTH_RESOURCE_URI config) ""
             else requestUrl) = Returns here
    /\ doc = (let base := if Js.truthy_opt (AUTH_RESOURCE_URI config)
                          then adjacent_port_base here (next_port here)
                          else protocol here +:+ "//" +:+ host here in
              buildAuthorizationServerMetadata base
                (List.filter Js.truthy (Js.split " " (OAUTH_SCOPES config)))
                {| authorizationEndpoint := Some (base +:+ "/authorize");
                   tokenEndpoint := Some (base +:+ "/token");
                   revocationEndpoint := Some (base +:+ "/revoke") |}).
Proof.
  unfold authAppMetadata, authAppBase.
  destruct (Js.truthy_opt (AUTH_RESOURCE_URI config)).
  - destruct (new_URL (Js.nullish (AUTH_RESOURCE_URI config) "")) as [here|e]; simpl; [|done].
    intros [= <-]. by exists here.
  - destruct (new_URL requestUrl) as [here|e]; simpl; [|done].
    intros [= <-]. by exists here.
Qed.

(** C6, as the code has it.  Every authorization-server metadata document
    advertises as authorization, token and revocation endpoints the paths
    /authorize, /token and /revoke under the proxy's own base URL, for every
    request URL and configuration for which that base resolves.  For the
    discovery handlers the base is the one the strategy resolves: the
    request URL's origin under the worker strategy, and under the node
    strategy with a resource URI that URI's scheme and host name on its port
    plus one.  For the auth application's route it is the resource URI's
    scheme and host name on its port plus one when there is a resource URI,
    and the request URL's scheme and host otherwise.  An advertised
    authorization or token endpoint is the configured provider URL only when
    the configuration names that very proxy endpoint as the provider's. *)
Theorem metadata_advertises_proxy_endpoints :
  (forall config strategy requestUrl doc,
      authorizationMetadata config strategy requestUrl = Returns doc ->
      exists base,
        resolveAuthBaseUrl strategy requestUrl config = Returns base
        /\ advertises_proxy base doc
        /\ (OAUTH_AUTHORIZATION_URL config <> base +:+ "/authorize" ->
            authorization_endpoint doc <> OAUTH_AUTHORIZATION_URL config)
        /\ (OAUTH_TOKEN_URL config <> base +:+ "/token" ->
            token_endpoint doc <> OAUTH_TOKEN_URL config))
  /\ (forall config requestUrl,
      exists doc,
        authorizationMetadata config workerDiscoveryStrategy requestUrl = Returns doc
        /\ advertises_proxy (origin requestUrl) doc)
  /\ (forall config requestUrl doc,
      Js.truthy_opt (AUTH_RESOURCE_URI config) = true ->
      authorizationMetadata config nodeDiscoveryStrategy requestUrl = Returns doc ->
      exists resourceUrl,
        new_URL (Js.nullish (AUTH_RESOURCE_URI config) "") = Returns resourceUrl
        /\ advertises_proxy (adjacent_port_base resourceUrl (next_port resourceUrl)) doc)
  /\ (forall config requestUrl doc,
      authAppMetadata config requestUrl = Returns doc ->
      exists here base,
        new_URL (if Js.truthy_opt (AUTH_RESOURCE_URI config)
                 then Js.nullish (AUTH_RESOURCE_URI config) ""
                 else requestUrl) = Returns here
        /\ base = (if Js.truthy_opt (AUTH_RESOURCE_URI config)
                   then adjacent_port_base here (next_port here)
                   else protocol here +:+ "//" +:+ host here)
        /\ advertises_proxy base doc
        /\ (OAUTH_AUTHORIZATION_URL config <> base +:+ "/authorize" ->
            authorization_endpoint doc <> OAUTH_AUTHORIZATION_URL config)
        /\ (OAUTH_TOKEN_URL config <> base +:+ "/token" ->
            token_endpoint doc <> OAUTH_TOKEN_URL config)).
Proof.
  split; [|split; [|split]].
  - intros config strategy requestUrl doc (base & Hbase & ->)%authorizationMetadata_document.
    exists base. split; [exact Hbase|]. split; [by repeat split|].
    split; intros Hother Hsame; apply Hother; by rewrite <- Hsame.
  - intros config requestUrl. eexists. split; [reflexivity|]. by repeat split.
  - intros config requestUrl doc Hset (base & Hbase & ->)%authorizationMetadata_document.
    simpl in Hbase. rewrite Hset in Hbase.
    destruct (new_URL (Js.nullish (AUTH_RESOURCE_URI config) "")) as [resourceUrl|e];
      simpl in Hbase; [|done].
    injection Hbase as <-. exists resourceUrl. split; [reflexivity|]. by repeat split.
  - intros config requestUrl doc (here & Hhere & ->)%authAppMetadata_document.
    eexists here, _. split; [exact Hhere|]. split; [reflexivity|].
    split; [by repeat split|].
    split; intros Hother Hsame; apply Hother; by rewrite <- Hsame.
Qed.

End DiscoveryFacts.

(** C6 fails as stated: when the configuration names the proxy's own
    endpoints as the provider's authorize and token URLs, the documents of
    the discovery handler and of the auth application advertise exactly those
    URLs. *)
Lemma provider_url_is_advertised :
  Discovery.authorizationMetadata self_provider_config Discovery.workerDiscoveryStrategy
    example_resource_url
  = Returns {| Discovery.issuer := "https://mcp.example.com";
               Discovery.authorization_endpoint := OAUTH_AUTHORIZATION_URL self_provider_config;
               Discovery.token_endpoint := OAUTH_TOKEN_URL self_provider_config;
               Discovery.revocation_endpoint := "https://mcp.example.com/revoke";
               Discovery.scopes_supported := ["calendar.read"] |}
  /\ Discovery.authAppMetadata (url_parser := example_new_URL) self_provider_config
       "https://mcp.example.com/mcp"
     = Returns {| Discovery.issuer := "https://mcp.example.com";
                  Discovery.authorization_endpoint := OAUTH_AUTHORIZATION_URL self_provider_config;
                  Discovery.token_endpoint := OAUTH_TOKEN_URL self_provider_config;
                  Discovery.revocation_endpoint := "https://mcp.example.com/revoke";
                  Discovery.scopes_supported := ["calendar.read"] |}.
Proof. split; vm_compute; reflexivity. Qed.

Example node_metadata_example :
  Discovery.authorizationMetadata example_config
    (Discovery.nodeDiscoveryStrategy (url_parser := example_new_URL))
    {| protocol := "http:"; hostname := "localhost"; port := Some 3000%N;
       host := "localhost:3000"; origin := "http://localhost:3000" |}
  = Returns {| Discovery.issuer := "https://mcp.example.com:444";
               Discovery.authorization_endpoint := "https://mcp.example.com:444/authorize";
               Discovery.token_endpoint := "https://mcp.example.com:444/token";
               Discovery.revocation_endpoint := "https://mcp.example.com:444/revoke";
               Discovery.scopes_supported := ["calendar.read"; "calendar.write"] |}.
Proof. vm_compute. reflexivity. Qed.

(** ** The security gate *)

Section GateFacts.
Import SecurityGate.
Context {Headers : Type} {security : SecurityLibrary Headers} {url_parser : UrlParser}.

(** Once the request is validated and auth is enabled the middleware is its
    [authenticate] step under the outer [catch]. *)
Lemma validated_middleware (config : UnifiedConfig) (store : TokenStore)
    (randomUUID : string) (c : Request Headers) :
  passes_validation config c ->
  AUTH_ENABLED config = true ->
  createMcpSecurityMiddleware config store randomUUID c
  = match authenticate config store randomUUID c with
    | (Returns result, logged) => (result, logged)
    | (Throws e, logged) =>
        (Respond (internal_error_response e),
         logged ++ [{| level := error; scope := "mcp_security";
                       text := "Security check failed"; detail := Some e |}])
    end.
Proof.
  intros [Horigin Hversion] Henabled. unfold createMcpSecurityMiddleware.
  by rewrite Horigin, Hversion, Henabled.
Qed.

Lemma challenge_response_for (config : UnifiedConfig) (c : Request Headers)
    (sid origin : string) :
  advertised_origin config c = Returns origin ->
  challenge_response config c sid = Returns (challenge_for origin sid).
Proof. intros Horigin. unfold challenge_response. by rewrite Horigin. Qed.

(** The bearer token is empty exactly when the scheme is not Bearer or the
    token after it is blank. *)
Lemma bearer_of_empty (auth : string) :
  bearer_of auth = ""
  <-> Js.toLowerCase (Js.nullish (scheme_of auth) "") <> "bearer"
      \/ Js.trim (Js.or_else (rsToken_of auth) "") = "".
Proof.
  unfold bearer_of.
  destruct (scheme_of auth) as [scheme|]; simpl.
  - destruct (String.eqb_spec (Js.toLowerCase scheme) "bearer") as [Heq|Hne].
    + assert (Js.truthy scheme = true) as ->.
      { destruct scheme; [discriminate Heq | reflexivity]. }
      simpl. split; [by right | intros [?|?]; done].
    + rewrite andb_false_r. split; [by left | done].
  - split; [by left | done].
Qed.

(** A bearer token contains no space: it is cut out of the header at the
    spaces. *)
Lemma bearer_of_lacks_space (auth : string) : Js.occurs " " (bearer_of auth) = false.
Proof.
  unfold bearer_of.
  destruct (_ && _); [|reflexivity].
  apply trim_occurs.
  unfold rsToken_of, Js.split_limit.
  destruct (firstn 2 (Js.split " " auth) !! 1%nat) as [token|] eqn:Htoken; simpl; [|reflexivity].
  destruct (Js.truthy token); [|reflexivity].
  apply (split_pieces_lack_separator " " auth).
  apply list_elem_of_In.
  apply lookup_take_Some in Htoken as [Htoken _].
  by apply list_elem_of_lookup_2 in Htoken.
Qed.

Lemma bearer_header_is_no_token (auth accessToken : string) :
  "Bearer " +:+ accessToken <> bearer_of auth.
Proof.
  intros Heq. pose proof (bearer_of_lacks_space auth) as Hspace.
  rewrite <- Heq in Hspace. discriminate Hspace.
Qed.

Lemma bearer_needs_header (auth : string) : bearer_of auth <> "" -> Js.truthy auth = true.
Proof. destruct auth; [intros Hne; by destruct Hne | reflexivity]. Qed.

(** With a bearer token the middleware is the store lookup under the inner
    [catch], which turns a throw into a log entry and goes on to [next()]. *)
Lemma bearer_middleware (config : UnifiedConfig) (store : TokenStore)
    (randomUUID : string) (c : Request Headers) (auth : string) :
  passes_validation config c ->
  AUTH_ENABLED config = true ->
  Authorization c = Some auth ->
  bearer_of auth <> "" ->
  createMcpSecurityMiddleware config store randomUUID c
  = match lookup_credential config store randomUUID c auth (bearer_of auth) with
    | Returns outcome => outcome
    | Throws e => (Next None, [token_lookup_failed e])
    end.
Proof.
  intros Hvalid Henabled Hauth Hbearer.
  rewrite (validated_middleware _ _ _ _ Hvalid Henabled).
  unfold authenticate. rewrite Hauth. simpl.
  rewrite (bearer_needs_header auth Hbearer). simpl.
  rewrite (proj2 (truthy_true _) Hbearer).
  by destruct (lookup_credential config store randomUUID c auth (bearer_of auth)) as [[]|].
Qed.

(** C2.  For every validated request with auth enabled whose bearer token
    the token store resolves to a provider credential, the middleware calls
    the next handler with an auth context whose resolved authorization header
    is "Bearer " followed by the provider credential's access token; that
    header is never the resource-server token of the inbound Authorization
    header, which the context keeps as [rsToken]. *)
Theorem resolved_header_carries_provider_token
    (config : UnifiedConfig) (store : TokenStore) (randomUUID : string)
    (c : Request Headers) (auth : string) (record : RsRecord) (credential : ProviderTokens) :
  passes_validation config c ->
  AUTH_ENABLED config = true ->
  Authorization c = Some auth ->
  bearer_of auth <> "" ->
  getByRsAccess store (bearer_of auth) = Returns (Some record) ->
  provider record = Some credential ->
  exists context,
    fst (createMcpSecurityMiddleware config store randomUUID c) = Next (Some context)
    /\ resolvedHeaders_authorization context = "Bearer " +:+ access_token credential
    /\ rsToken context = bearer_of auth
    /\ resolvedHeaders_authorization context <> rsToken context.
Proof.
  intros Hvalid Henabled Hauth Hbearer Hlookup Hprovider.
  exists (authContext_of config auth (bearer_of auth) credential).
  split; [|split; [reflexivity | split; [reflexivity | apply bearer_header_is_no_token]]].
  rewrite (bearer_middleware _ _ _ _ _ Hvalid Henabled Hauth Hbearer).
  unfold lookup_credential. rewrite Hlookup. simpl. rewrite Hprovider. reflexivity.
Qed.

(** C1, as the code has it.  For every validated request with auth enabled
    that carries a bearer token, a throw of the token store's lookup is
    logged as "Token lookup failed" and not propagated: no auth context is
    attached, no challenge is issued whatever the configuration requires,
    and the next handler is called, which is how a token that is not found
    ends when the configuration does not both require resource-server tokens
    and forbid direct bearer tokens. *)
Theorem store_error_passes_through
    (config : UnifiedConfig) (store : TokenStore) (randomUUID : string)
    (c : Request Headers) (auth e : string) :
  passes_validation config c ->
  AUTH_ENABLED config = true ->
  Authorization c = Some auth ->
  bearer_of auth <> "" ->
  getByRsAccess store (bearer_of auth) = Throws e ->
  createMcpSecurityMiddleware config store randomUUID c = (Next None, [token_lookup_failed e])
  /\ forall store',
       getByRsAccess store' (bearer_of auth) = Returns None ->
       AUTH_REQUIRE_RS config && negb (AUTH_ALLOW_DIRECT_BEARER config) = false ->
       fst (createMcpSecurityMiddleware config store' randomUUID c)
       = fst (createMcpSecurityMiddleware config store randomUUID c).
Proof.
  intros Hvalid Henabled Hauth Hbearer Hthrow.
  assert (createMcpSecurityMiddleware config store randomUUID c
          = (Next None, [token_lookup_failed e])) as Hfailed.
  { rewrite (bearer_middleware _ _ _ _ _ Hvalid Henabled Hauth Hbearer).
    unfold lookup_credential. rewrite Hthrow. reflexivity. }
  split; [exact Hfailed|].
  intros store' Hnone Hdirect. rewrite Hfailed.
  rewrite (bearer_middleware _ _ _ _ _ Hvalid Henabled Hauth Hbearer).
  unfold lookup_credential. rewrite Hnone. simpl. rewrite Hdirect. reflexivity.
Qed.

(** A header that is there, is not empty and gives no bearer token sends
    the request on to [next()] as it came. *)
Lemma tokenless_header_passes (config : UnifiedConfig) (store : TokenStore)
    (randomUUID : string) (c : Request Headers) (auth : string) :
  passes_validation config c ->
  AUTH_ENABLED config = true ->
  Authorization c = Some auth ->
  auth <> "" ->
  bearer_of auth = "" ->
  createMcpSecurityMiddleware config store randomUUID c = (Next None, []).
Proof.
  intros Hvalid Henabled Hauth Hpresent Hbearer.
  rewrite (validated_middleware _ _ _ _ Hvalid Henabled).
  unfold authenticate. rewrite Hauth. simpl.
  rewrite (proj2 (truthy_true _) Hpresent). simpl.
  by rewrite Hbearer.
Qed.

(** C3, as the code has it.  For every validated request with auth enabled:
    with no Authorization header (absent or empty), when the origin to
    advertise resolves, the response is the 401 challenge whose
    Mcp-Session-Id header is the request's session id if it has a non-empty
    one and the freshly generated id otherwise; with an Authorization header
    that is present and not empty but whose scheme is not Bearer, compared
    without case, or whose token is empty or blank, the request is not
    challenged: the next handler is called, with no auth context and no
    log entry. *)
Theorem missing_authorization_is_challenged
    (config : UnifiedConfig) (store : TokenStore) (randomUUID : string)
    (c : Request Headers) :
  passes_validation config c ->
  AUTH_ENABLED config = true ->
  (Authorization c = None \/ Authorization c = Some "" ->
   forall origin, advertised_origin config c = Returns origin ->
     (forall sid, Mcp_Session_Id c = Some sid -> sid <> "" ->
        fst (createMcpSecurityMiddleware config store randomUUID c)
        = Respond (challenge_for origin sid))
     /\ (Mcp_Session_Id c = None \/ Mcp_Session_Id c = Some "" ->
         fst (createMcpSecurityMiddleware config store randomUUID c)
         = Respond (challenge_for origin randomUUID)))
  /\ (forall auth,
        Authorization c = Some auth ->
        auth <> "" ->
        Js.toLowerCase (Js.nullish (scheme_of auth) "") <> "bearer"
        \/ Js.trim (Js.or_else (rsToken_of auth) "") = "" ->
        createMcpSecurityMiddleware config store randomUUID c = (Next None, [])).
Proof.
  intros Hvalid Henabled. split.
  - intros Hauth%truthy_opt_false origin Horigin.
    rewrite (validated_middleware _ _ _ _ Hvalid Henabled).
    unfold authenticate. rewrite Hauth. simpl.
    split.
    + intros sid Hsid Hfilled. rewrite Hsid. simpl.
      rewrite (proj2 (truthy_true _) Hfilled).
      by rewrite (challenge_response_for _ _ _ _ Horigin).
    + intros Hsid%truthy_opt_false. rewrite Hsid.
      by rewrite (challenge_response_for _ _ _ _ Horigin).
  - intros auth Hauth Hpresent Hscheme%bearer_of_empty.
    by apply (tokenless_header_passes _ _ _ _ auth).
Qed.

(** C9, as the code has it.  For every validated request with auth enabled
    whose Authorization header is present with a value that is not empty and
    either has a scheme other than Bearer, compared without case, or a token
    that is empty or blank after the scheme, the middleware issues no
    challenge, attaches no auth context, logs nothing and calls the next
    handler, under every configuration and every token store. *)
Theorem non_bearer_authorization_passes_through
    (config : UnifiedConfig) (store : TokenStore) (randomUUID : string)
    (c : Request Headers) (auth : string) :
  passes_validation config c ->
  AUTH_ENABLED config = true ->
  Authorization c = Some auth ->
  auth <> "" ->
  Js.toLowerCase (Js.nullish (scheme_of auth) "") <> "bearer"
  \/ Js.trim (Js.or_else (rsToken_of auth) "") = "" ->
  createMcpSecurityMiddleware config store randomUUID c = (Next None, []).
Proof.
  intros Hvalid Henabled Hauth Hpresent Hscheme%bearer_of_empty.
  by apply (tokenless_header_passes _ _ _ _ auth).
Qed.

End GateFacts.

(** ** The security gate on the fixtures *)

Section GateExamples.
Import SecurityGate.
Existing Instance example_security.
Existing Instance example_new_URL.

Example resolved_request_example :
  createMcpSecurityMiddleware example_config example_store "uuid-1"
    (gate_request (Some "bearer rs-123") None)
  = (Next (Some {| strategy := "oauth";
                   authHeaders_authorization := "bearer rs-123";
                   resolvedHeaders_authorization := "Bearer ya29.provider";
                   providerToken := "ya29.provider";
                   provider_credential := example_credential;
                   rsToken := "rs-123" |}), []).
Proof. vm_compute. reflexivity. Qed.

(** The gate takes the credential as the store gives it: with a store that
    keeps no separate name space the resolved header repeats the inbound
    one, and still differs from the bare token. *)
Example echo_store_example :
  createMcpSecurityMiddleware example_config echo_store "uuid-1"
    (gate_request (Some "Bearer rs-123") None)
  = (Next (Some {| strategy := "oauth";
                   authHeaders_authorization := "Bearer rs-123";
                   resolvedHeaders_authorization := "Bearer rs-123";
                   providerToken := "rs-123";
                   provider_credential :=
                     {| access_token := "rs-123"; refresh_token := None;
                        expires_at := None; scopes := None |};
                   rsToken := "rs-123" |}), []).
Proof. vm_compute. reflexivity. Qed.

Example double_space_example : bearer_of "Bearer  rs-123" = "".
Proof. reflexivity. Qed.

Example tab_token_example : bearer_of ("Bearer " +:+ String (ascii_of_N 9) "") = "".
Proof. reflexivity. Qed.

Lemma resolved_header_witness :
  exists context,
    fst (createMcpSecurityMiddleware example_config example_store "uuid-1"
           (gate_request (Some "Bearer rs-123") (Some "session-1")))
    = Next (Some context)
    /\ resolvedHeaders_authorization context = "Bearer " +:+ access_token example_credential
    /\ rsToken context = bearer_of "Bearer rs-123"
    /\ resolvedHeaders_authorization context <> rsToken context.
Proof.
  apply (resolved_header_carries_provider_token example_config example_store "uuid-1"
           (gate_request (Some "Bearer rs-123") (Some "session-1")) "Bearer rs-123"
           {| provider := Some example_credential |} example_credential).
  - split; reflexivity.
  - reflexivity.
  - reflexivity.
  - vm_compute. discriminate.
  - reflexivity.
  - reflexivity.
Defined.

(** C1 fails as stated: with resource-server tokens required and direct
    bearer tokens forbidden, a token that is not found is answered with the
    401 challenge, and the same request is passed to the next handler when
    the lookup throws. *)
Lemma store_error_is_not_challenged :
  fst (createMcpSecurityMiddleware example_config empty_store "uuid-1"
         (gate_request (Some "Bearer rs-123") (Some "session-1")))
  = Respond (challenge_for "https://mcp.example.com" "session-1")
  /\ fst (createMcpSecurityMiddleware example_config failing_store "uuid-1"
            (gate_request (Some "Bearer rs-123") (Some "session-1")))
     = Next None
  /\ fst (createMcpSecurityMiddleware example_config failing_store "uuid-1"
            (gate_request (Some "Bearer rs-123") (Some "session-1")))
     <> fst (createMcpSecurityMiddleware example_config empty_store "uuid-1"
               (gate_request (Some "Bearer rs-123") (Some "session-1"))).
Proof. vm_compute. repeat split; discriminate. Qed.

Lemma store_error_witness :
  createMcpSecurityMiddleware permissive_config failing_store "uuid-1"
    (gate_request (Some "Bearer rs-123") (Some "session-1"))
  = (Next None, [token_lookup_failed "connection refused"])
  /\ forall store',
       getByRsAccess store' (bearer_of "Bearer rs-123") = Returns None ->
       AUTH_REQUIRE_RS permissive_config && negb (AUTH_ALLOW_DIRECT_BEARER permissive_config)
       = false ->
       fst (createMcpSecurityMiddleware permissive_config store' "uuid-1"
              (gate_request (Some "Bearer rs-123") (Some "session-1")))
       = fst (createMcpSecurityMiddleware permissive_config failing_store "uuid-1"
                (gate_request (Some "Bearer rs-123") (Some "session-1"))).
Proof.
  apply (store_error_passes_through permissive_config failing_store "uuid-1"
           (gate_request (Some "Bearer rs-123") (Some "session-1")) "Bearer rs-123"
           "connection refused").
  - split; reflexivity.
  - reflexivity.
  - reflexivity.
  - vm_compute. discriminate.
  - reflexivity.
Defined.

(** C3 fails as stated: a request with Basic credentials carries no bearer
    credential, and with auth enabled it is passed to the next handler, not
    answered with a challenge. *)
Lemma basic_authorization_is_not_challenged :
  bearer_of "Basic dXNlcjpwYXNz" = ""
  /\ createMcpSecurityMiddleware example_config empty_store "uuid-1"
       (gate_request (Some "Basic dXNlcjpwYXNz") (Some "session-1"))
     = (Next None, [])
  /\ ~ exists response,
         fst (createMcpSecurityMiddleware example_config empty_store "uuid-1"
                (gate_request (Some "Basic dXNlcjpwYXNz") (Some "session-1")))
         = Respond response /\ status response = 401%N.
Proof.
  split; [reflexivity|]. split; [reflexivity|].
  intros [response [Hresponse _]]. vm_compute in Hresponse. discriminate Hresponse.
Qed.

Lemma missing_authorization_witness :
  (Authorization (gate_request None (Some "session-1")) = None
   \/ Authorization (gate_request None (Some "session-1")) = Some "" ->
   forall origin,
     advertised_origin example_config (gate_request None (Some "session-1")) = Returns origin ->
     (forall sid, Mcp_Session_Id (gate_request None (Some "session-1")) = Some sid -> sid <> "" ->
        fst (createMcpSecurityMiddleware example_config empty_store "uuid-1"
               (gate_request None (Some "session-1")))
        = Respond (challenge_for origin sid))
     /\ (Mcp_Session_Id (gate_request None (Some "session-1")) = None
         \/ Mcp_Session_Id (gate_request None (Some "session-1")) = Some "" ->
         fst (createMcpSecurityMiddleware example_config empty_store "uuid-1"
                (gate_request None (Some "session-1")))
         = Respond (challenge_for origin "uuid-1")))
  /\ (forall auth,
        Authorization (gate_request None (Some "session-1")) = Some auth ->
        auth <> "" ->
        Js.toLowerCase (Js.nullish (scheme_of auth) "") <> "bearer"
        \/ Js.trim (Js.or_else (rsToken_of auth) "") = "" ->
        createMcpSecurityMiddleware example_config empty_store "uuid-1"
          (gate_request None (Some "session-1"))
        = (Next None, [])).
Proof.
  apply (missing_authorization_is_challenged example_config empty_store "uuid-1"
           (gate_request None (Some "session-1"))).
  - split; reflexivity.
  - reflexivity.
Defined.

(** C9 fails as stated: an Authorization header whose value is empty is
    present and its scheme is not Bearer, and with auth enabled it is
    answered with the 401 challenge, as a request without the header is. *)
Lemma empty_authorization_is_challenged :
  Authorization (gate_request (Some "") (Some "session-1")) = Some ""
  /\ Js.toLowerCase (Js.nullish (scheme_of "") "") <> "bearer"
  /\ createMcpSecurityMiddleware example_config empty_store "uuid-1"
       (gate_request (Some "") (Some "session-1"))
     = (Respond (challenge_for "https://mcp.example.com" "session-1"), [])
  /\ createMcpSecurityMiddleware example_config empty_store "uuid-1"
       (gate_request (Some "") (Some "session-1"))
     <> (Next None, []).
Proof.
  split; [reflexivity|]. split; [vm_compute; discriminate|].
  split; [vm_compute; reflexivity | vm_compute; discriminate].
Qed.

Example echoed_session_example :
  fst (createMcpSecurityMiddleware example_config empty_store "uuid-1"
         (gate_request None (Some "session-1")))
  = Respond (challenge_for "https://mcp.example.com" "session-1").
Proof. vm_compute. reflexivity. Qed.

Example generated_session_example :
  createMcpSecurityMiddleware example_config empty_store "uuid-1" (gate_request None None)
  = (Respond (challenge_for "https://mcp.example.com" "uuid-1"),
     [{| level := debug; scope := "mcp_security"; text := "Generated session ID";
         detail := Some "uuid-1" |}]).
Proof. vm_compute. reflexivity. Qed.

Lemma non_bearer_witness :
  createMcpSecurityMiddleware example_config failing_store "uuid-1"
    (gate_request (Some "Bearer   ") None)
  = (Next None, []).
Proof.
  apply (non_bearer_authorization_passes_through example_config failing_store "uuid-1"
           (gate_request (Some "Bearer   ") None) "Bearer   ").
  - split; reflexivity.
  - reflexivity.
  - reflexivity.
  - discriminate.
  - right. reflexivity.
Defined.

End GateExamples.

(** ** The MCP routes *)

Section RouteFacts.
Import McpRoutes.
Context {sdk : Sdk}.

Lemma connect_calls_app (transport : nat) (before after : list Event) :
  connect_calls transport (before ++ after)
  = connect_calls transport before + connect_calls transport after.
Proof.
  induction before as [|event before IH]; simpl; [reflexivity|].
  destruct event; rewrite IH; lia.
Qed.

(** A connected transport is left alone. *)
Lemma ensureConnected_connected (transport : Transport) (st : RouteState) :
  identity transport ∈ connectedTransports st ->
  ensureConnected transport st = (Returns tt, st).
Proof. intros Hin. unfold ensureConnected. by rewrite decide_True. Qed.

(** [ensureConnected] never touches the registry. *)
Lemma ensureConnected_transports (transport : Transport) (st st' : RouteState)
    (outcome : completion unit) :
  ensureConnected transport st = (outcome, st') -> transports st' = transports st.
Proof.
  unfold ensureConnected. case_decide.
  - by intros [= _ <-].
  - destruct (server_connect (history st) transport); by intros [= _ <-].
Qed.

(** C7, as the code has it.  Two calls of [ensureConnected] one after the
    other on a transport that is not yet connected: when the first call's
    [server.connect] returns, the first call records the transport as
    connected and the second call is a no-op, it returns without a call and
    leaves the state as it is, so that [server.connect] was called exactly
    once; when the first call's [server.connect] throws, the first call
    throws, the transport is not recorded, and the second call calls
    [server.connect] again, which makes two calls. *)
Theorem ensureConnected_twice_connects_once (transport : Transport) (st : RouteState) :
  identity transport ∉ connectedTransports st ->
  (server_connect (history st) transport = Returns tt ->
   exists st1,
     ensureConnected transport st = (Returns tt, st1)
     /\ ensureConnected transport st1 = (Returns tt, st1)
     /\ history st1 = history st ++ [Connected (identity transport)]
     /\ connect_calls (identity transport) (history st1)
        = S (connect_calls (identity transport) (history st)))
  /\ (forall e,
      server_connect (history st) transport = Throws e ->
      exists st1,
        ensureConnected transport st = (Throws e, st1)
        /\ (identity transport ∉ connectedTransports st1)
        /\ connect_calls (identity transport)
             (history (snd (ensureConnected transport st1)))
           = S (S (connect_calls (identity transport) (history st)))).
Proof.
  intros Hfresh.
  assert (connect_calls (identity transport) (history st ++ [Connected (identity transport)])
          = S (connect_calls (identity transport) (history st))) as Hcount.
  { rewrite connect_calls_app. simpl. rewrite decide_True by done. lia. }
  split.
  - intros Hconnect.
    set (st1 := mark_connected transport (record_event (Connected (identity transport)) st)).
    exists st1. split; [|split; [|split]].
    + unfold ensureConnected. rewrite decide_False by done. by rewrite Hconnect.
    + apply ensureConnected_connected. simpl. set_solver.
    + reflexivity.
    + exact Hcount.
  - intros e Hconnect.
    exists (record_event (Connected (identity transport)) st). split; [|split].
    + unfold ensureConnected. rewrite decide_False by done. by rewrite Hconnect.
    + exact Hfresh.
    + unfold ensureConnected at 1. cbn [connectedTransports record_event].
      rewrite decide_False by done.
      assert (forall outcome : completion unit,
                 history (snd (match outcome with
                               | Returns _ =>
                                   (Returns tt,
                                    mark_connected transport
                                      (record_event (Connected (identity transport))
                                         (record_event (Connected (identity transport)) st)))
                               | Throws e' =>
                                   (Throws e',
                                    record_event (Connected (identity transport))
                                      (record_event (Connected (identity transport)) st))
                               end))
                 = (history st ++ [Connected (identity transport)])
                   ++ [Connected (identity transport)]) as Hhistory.
      { by intros [[]|e']. }
      rewrite Hhistory, connect_calls_app, Hcount. simpl.
      rewrite decide_True by done. lia.
Qed.

(** The handlers of GET and DELETE answer without a session header. *)
Lemma get_without_session (c : Request) (st : RouteState) :
  Js.truthy_opt (Mcp_Session_Id c) = false -> app_get c st = (no_session_response, st).
Proof. intros Hnone. unfold app_get. by rewrite Hnone. Qed.

Lemma delete_without_session (c : Request) (st : RouteState) :
  Js.truthy_opt (Mcp_Session_Id c) = false -> app_delete c st = (no_session_response, st).
Proof. intros Hnone. unfold app_delete. by rewrite Hnone. Qed.

Lemma get_unknown_session (c : Request) (st : RouteState) (sid : string) :
  Mcp_Session_Id c = Some sid -> sid <> "" -> transports st !! sid = None ->
  app_get c st = (invalid_session_response, st).
Proof.
  intros Hsid Hfilled Hunknown. unfold app_get. rewrite Hsid. simpl.
  rewrite (proj2 (truthy_true sid) Hfilled). simpl.
  unfold or_internal_error. by rewrite Hunknown.
Qed.

Lemma delete_unknown_session (c : Request) (st : RouteState) (sid : string) :
  Mcp_Session_Id c = Some sid -> sid <> "" -> transports st !! sid = None ->
  app_delete c st = (invalid_session_response, st).
Proof.
  intros Hsid Hfilled Hunknown. unfold app_delete. rewrite Hsid. simpl.
  rewrite (proj2 (truthy_true sid) Hfilled). simpl.
  unfold or_internal_error. by rewrite Hunknown.
Qed.

End RouteFacts.

Section SessionLifecycle.
Import McpRoutes.
Context {sdk : Sdk}.

(** A DELETE that is answered by the transport went through all its steps:
    the session was connected, the request dispatched, the session
    unregistered and the transport closed. *)
Lemma served_delete_steps (c : Request) (st st' : RouteState) (sid : string)
    (transport : Transport) (res : NodeResponse) :
  Mcp_Session_Id c = Some sid ->
  transports st !! sid = Some transport ->
  app_delete c st = (FetchResponse res, st') ->
  sid <> ""
  /\ exists st1,
       ensureConnected transport st = (Returns tt, st1)
       /\ st' = record_event (Closed (identity transport))
                  (unregister sid (record_event (Dispatched (identity transport) DELETE) st1)).
Proof.
  intros Hsid Hregistered. unfold app_delete. rewrite Hsid. simpl.
  destruct (Js.truthy sid) eqn:Hfilled; simpl; [|discriminate].
  unfold or_internal_error. rewrite Hregistered. unfold bind.
  destruct (ensureConnected transport st) as [[[]|e] st1] eqn:Hconnect; [|discriminate].
  unfold handleRequest. simpl.
  destruct (transport_handleRequest (history st1) transport DELETE None) as [written|e];
    [|discriminate].
  unfold ret. intros [= _ <-].
  split; [by apply truthy_true | by exists st1].
Qed.

End SessionLifecycle.

(** ** The routes on the fixtures *)

Section RouteExamples.
Import McpRoutes.
Existing Instance example_sdk.

Lemma ensureConnected_twice_witness :
  (server_connect (history one_session) example_transport = Returns tt ->
   exists st1,
     ensureConnected example_transport one_session = (Returns tt, st1)
     /\ ensureConnected example_transport st1 = (Returns tt, st1)
     /\ history st1 = history one_session ++ [Connected (identity example_transport)]
     /\ connect_calls (identity example_transport) (history st1)
        = S (connect_calls (identity example_transport) (history one_session)))
  /\ (forall e,
      server_connect (history one_session) example_transport = Throws e ->
      exists st1,
        ensureConnected example_transport one_session = (Throws e, st1)
        /\ (identity example_transport ∉ connectedTransports st1)
        /\ connect_calls (identity example_transport)
             (history (snd (ensureConnected example_transport st1)))
           = S (S (connect_calls (identity example_transport) (history one_session)))).
Proof.
  apply (ensureConnected_twice_connects_once example_transport one_session).
  simpl. set_solver.
Defined.

(** C7 fails as stated: with a [server.connect] that throws the first time,
    the first call of [ensureConnected] throws, the second call is no no-op,
    and [server.connect] has been called twice on the transport. *)
Lemma failed_connect_is_repeated :
  fst (ensureConnected (sdk := flaky_sdk) example_transport one_session)
  = Throws "connection refused"
  /\ ensureConnected (sdk := flaky_sdk) example_transport
       (snd (ensureConnected (sdk := flaky_sdk) example_transport one_session))
     <> (Returns tt, snd (ensureConnected (sdk := flaky_sdk) example_transport one_session))
  /\ connect_calls (identity example_transport)
       (history (snd (ensureConnected (sdk := flaky_sdk) example_transport
                        (snd (ensureConnected (sdk := flaky_sdk) example_transport
                                one_session)))))
     = 2.
Proof.
  split; [reflexivity|]. split; [|reflexivity].
  intros Hsame. apply (f_equal (fun outcome => history (snd outcome))) in Hsame.
  vm_compute in Hsame. discriminate Hsame.
Qed.

Example connect_once_example :
  history (snd (bind (ensureConnected example_transport)
                  (fun _ => ensureConnected example_transport) one_session))
  = [Connected 0].
Proof. reflexivity. Qed.

(** C4 fails as stated: a POST that is no initialize request and has no
    session header is not answered 405, and one with an unknown session id is
    not answered 404; a transport is constructed for it and answers. *)
Lemma post_without_session_is_dispatched :
  is_initialize (Some tools_list_body) = false
  /\ fst (app_post (route_request None (Some tools_list_body)) "uuid-1" empty_routes)
     = FetchResponse (sdk := example_sdk) 200%N
  /\ fst (app_post (route_request None (Some tools_list_body)) "uuid-1" empty_routes)
     <> JsonResponse 405 {| code := -32000; message := "Method not allowed - no session" |}
  /\ transports one_session !! "session-9" = None
  /\ fst (app_post (route_request (Some "session-9") (Some tools_list_body)) "uuid-1" one_session)
     = FetchResponse (sdk := example_sdk) 200%N
  /\ fst (app_post (route_request (Some "session-9") (Some tools_list_body)) "uuid-1" one_session)
     <> TextResponse 404 "Invalid session".
Proof.
  split; [reflexivity|]. split; [reflexivity|]. split; [discriminate|].
  split; [reflexivity|]. split; [reflexivity|]. discriminate.
Qed.

Example initialize_registers_session_example :
  transports (snd (app_post
    (route_request None (Some (JObject [("id", JNumber 1); ("method", JString "initialize")])))
    "uuid-1" empty_routes)) !! "uuid-1"
  = Some {| identity := 0; sessionIdGenerator := Some "uuid-1"; onsessioninitialized := true |}.
Proof. reflexivity. Qed.

End RouteExamples.

Section RouteFailures.
Import McpRoutes.
Existing Instance delete_failing_sdk.


End RouteFailures.

(** * Further properties of the sources *)

(** ** Token and authorize input *)

Section TokenInputInversion.
Import OAuthInput.

Lemma get_skips_other_name (name key value : string) (before after : URLSearchParams) :
  name <> key ->
  get key (before ++ (name, value) :: after) = get key (before ++ after).
Proof.
  intros Hother. induction before as [|[k v] before IH]; simpl.
  - destruct (String.eqb_spec name key); [done | reflexivity].
  - destruct (String.eqb k key); [reflexivity | exact IH].
Qed.

(** X1.  [buildTokenInput] returns a grant only from a request that carries
    it: a refresh-token grant exactly when the grant type is refresh_token
    and the first refresh_token parameter is not empty, a code grant exactly
    when the grant type is authorization_code and the first code and
    code_verifier parameters are not empty; and an error it returns is one of
    its three codes. *)
Theorem buildTokenInput_inversion (form : URLSearchParams) :
  (forall refreshToken,
      buildTokenInput form = Input (refresh_token_grant refreshToken)
      <-> get "grant_type" form = Some "refresh_token"
          /\ get "refresh_token" form = Some refreshToken /\ refreshToken <> "")
  /\ (forall code codeVerifier,
      buildTokenInput form = Input (authorization_code_grant code codeVerifier)
      <-> get "grant_type" form = Some "authorization_code"
          /\ get "code" form = Some code /\ code <> ""
          /\ get "code_verifier" form = Some codeVerifier /\ codeVerifier <> "")
  /\ (forall e,
      buildTokenInput form = ErrorResult e ->
      e = "missing_refresh_token" \/ e = "missing_code_or_verifier"
      \/ e = "unsupported_grant_type").
Proof.
  unfold buildTokenInput.
  destruct (decide (get "grant_type" form = Some "refresh_token")) as [Hgrant|Hrefresh];
    [rewrite Hgrant
    |destruct (decide (get "grant_type" form = Some "authorization_code")) as [Hgrant|Hcode];
     [rewrite Hgrant|]];
    destruct (get "refresh_token" form) as [[|r0 refresh]|];
    destruct (get "code" form) as [[|c0 code]|];
    destruct (get "code_verifier" form) as [[|v0 verifier]|];
    simpl;
    (split; [|split];
     [ intros refreshToken; split;
       [ intros [= <-]; repeat split; done | intros (? & ? & ?); simplify_eq; done ]
     | intros codeGiven verifierGiven; split;
       [ intros [= <- <-]; repeat split; done
       | intros (? & ? & ? & ? & ?); simplify_eq; done ]
     | intros e [= <-]; auto ]).
Qed.

(** X2.  A parameter whose name is none of grant_type, refresh_token, code
    and code_verifier does not change what [buildTokenInput] returns,
    wherever it stands in the request. *)
Theorem unused_parameter_is_ignored
    (name value : string) (before after : URLSearchParams) :
  name <> "grant_type" -> name <> "refresh_token" ->
  name <> "code" -> name <> "code_verifier" ->
  buildTokenInput (before ++ (name, value) :: after) = buildTokenInput (before ++ after).
Proof.
  intros Hgrant Hrefresh Hcode Hverifier. unfold buildTokenInput.
  by rewrite !get_skips_other_name.
Qed.

Lemma unused_parameter_witness :
  buildTokenInput ([("grant_type", "refresh_token")] ++ ("client_id", "abc")
                     :: [("refresh_token", "r1")])
  = buildTokenInput ([("grant_type", "refresh_token")] ++ [("refresh_token", "r1")]).
Proof.
  apply (unused_parameter_is_ignored "client_id" "abc"); discriminate.
Defined.

End TokenInputInversion.

Section AuthorizeInputFacts.
Import OAuthFlow.

(** X3.  The session id of a parsed authorize request is never the empty
    string: it is the sid query parameter when that is not empty, else the
    session id passed in when that is not empty, else nothing. *)
Theorem authorize_sid_precedence
    (searchParams : OAuthInput.URLSearchParams) (sessionId : option string) :
  sid (parseAuthorizeInput searchParams sessionId) <> Some ""
  /\ (forall fromQuery,
      OAuthInput.get "sid" searchParams = Some fromQuery -> fromQuery <> "" ->
      sid (parseAuthorizeInput searchParams sessionId) = Some fromQuery)
  /\ (OAuthInput.absent_or_empty (OAuthInput.get "sid" searchParams) ->
      forall given, sessionId = Some given -> given <> "" ->
      sid (parseAuthorizeInput searchParams sessionId) = Some given)
  /\ (OAuthInput.absent_or_empty (OAuthInput.get "sid" searchParams) ->
      OAuthInput.absent_or_empty sessionId ->
      sid (parseAuthorizeInput searchParams sessionId) = None).
Proof.
  unfold OAuthInput.absent_or_empty. simpl.
  split; [|split; [|split]].
  - destruct (OAuthInput.get "sid" searchParams) as [[|c q]|]; simpl;
      try discriminate; destruct sessionId as [[|d s]|]; simpl; discriminate.
  - intros q -> Hq. simpl. by rewrite (proj2 (truthy_true q) Hq).
  - intros Hquery%truthy_opt_false given -> Hgiven. rewrite Hquery. simpl.
    by rewrite (proj2 (truthy_true given) Hgiven).
  - intros Hquery%truthy_opt_false Hsession%truthy_opt_false.
    by rewrite Hquery, Hsession.
Qed.

Example authorize_sid_example :
  sid (parseAuthorizeInput [("code_challenge", "xyz"); ("sid", "")] (Some "session-1"))
  = Some "session-1".
Proof. reflexivity. Qed.

End AuthorizeInputFacts.

(** ** Discovery: the strategies, the scopes and the protected resource *)

Section StrategyFacts.
Import Discovery.
Context {url_parser : UrlParser}.

(** X4.  Under the worker and the node strategy the authorization server's
    metadata URL is the well-known path under the auth base URL the same
    strategy resolves, and resolving it throws exactly when resolving the
    base throws. *)
Theorem metadata_url_is_under_auth_base (requestUrl : URL) (config : UnifiedConfig) :
  resolveAuthorizationServerUrl workerDiscoveryStrategy requestUrl config
  = map_completion (fun base => base +:+ Spec.well_known)
      (resolveAuthBaseUrl workerDiscoveryStrategy requestUrl config)
  /\ resolveAuthorizationServerUrl nodeDiscoveryStrategy requestUrl config
     = map_completion (fun base => base +:+ Spec.well_known)
         (resolveAuthBaseUrl nodeDiscoveryStrategy requestUrl config).
Proof.
  split; [reflexivity|]. simpl.
  destruct (Js.truthy_opt (AUTH_RESOURCE_URI config)); [|reflexivity].
  by destruct (new_URL (Js.nullish (AUTH_RESOURCE_URI config) "")).
Qed.

(** X5.  The authorization-server document of the worker strategy is always
    produced; that of the node strategy fails exactly when
    [AUTH_RESOURCE_URI] is set and is no URL, with the parser's message. *)
Theorem authorizationMetadata_failure (config : UnifiedConfig) (requestUrl : URL) :
  (exists doc, authorizationMetadata config workerDiscoveryStrategy requestUrl = Returns doc)
  /\ (forall e,
      authorizationMetadata config nodeDiscoveryStrategy requestUrl = Throws e
      <-> Js.truthy_opt (AUTH_RESOURCE_URI config) = true
          /\ new_URL (Js.nullish (AUTH_RESOURCE_URI config) "") = Throws e).
Proof.
  split; [eexists; reflexivity|].
  intros e. unfold authorizationMetadata. simpl.
  destruct (Js.truthy_opt (AUTH_RESOURCE_URI config)); simpl.
  - destruct (new_URL (Js.nullish (AUTH_RESOURCE_URI config) "")) as [resourceUrl|e']; simpl.
    + split; [done | intros [_ [=]]].
    + split; [intros [= ->]; done | intros [_ [= ->]]; done].
  - split; [done | intros [[=] _]].
Qed.

(** X6.  With [AUTH_RESOURCE_URI] set, the node strategy's auth base URL,
    the auth application's base URL and the base URL of the flow options are
    the same: the resource URI's scheme and host name on its port plus one,
    whatever the request URL and [PORT] are, and all three fail together
    when the resource URI is no URL. *)
Theorem auth_base_agrees_across_routes
    (config : UnifiedConfig) (requestUrl flowUrl : URL) (requestText : string)
    (overrides : OAuthFlow.FlowOverrides) :
  Js.truthy_opt (AUTH_RESOURCE_URI config) = true ->
  resolveAuthBaseUrl nodeDiscoveryStrategy requestUrl config
  = map_completion (fun resourceUrl => adjacent_port_base resourceUrl (next_port resourceUrl))
      (new_URL (Js.nullish (AUTH_RESOURCE_URI config) ""))
  /\ authAppBase config requestText
     = resolveAuthBaseUrl nodeDiscoveryStrategy requestUrl config
  /\ map_completion OAuthFlow.baseUrl (OAuthFlow.buildFlowOptions flowUrl config overrides)
     = resolveAuthBaseUrl nodeDiscoveryStrategy requestUrl config.
Proof.
  intros Hset. unfold authAppBase, OAuthFlow.buildFlowOptions. simpl. rewrite Hset.
  by destruct (new_URL (Js.nullish (AUTH_RESOURCE_URI config) "")).
Qed.

End StrategyFacts.

Section ScopeFacts.
Import Discovery.

Lemma trimStart_without_white_space (s : string) :
  Spec.lacks_white_space s = true -> Js.trimStart s = s.
Proof.
  destruct s as [|c rest]; simpl; [done|].
  intros [Hc _]%andb_prop. apply negb_true_iff in Hc. by rewrite Hc.
Qed.

Lemma trimEnd_without_white_space (s : string) :
  Spec.lacks_white_space s = true -> Js.trimEnd s = s.
Proof.
  induction s as [|c rest IH]; simpl; [done|].
  intros [Hc Hrest]%andb_prop. rewrite (IH Hrest).
  destruct rest; [|reflexivity].
  apply negb_true_iff in Hc. by rewrite Hc.
Qed.

Lemma trim_without_white_space (s : string) :
  Spec.lacks_white_space s = true -> Js.trim s = s.
Proof.
  intros Hs. unfold Js.trim.
  by rewrite (trimStart_without_white_space s Hs), (trimEnd_without_white_space s Hs).
Qed.

Lemma lacks_white_space_cons (c : ascii) (s : string) :
  Spec.lacks_white_space (String c s)
  = negb (Js.is_white_space c) && Spec.lacks_white_space s.
Proof. reflexivity. Qed.

(** The pieces between runs of white space hold none. *)
Lemma split_white_space_pieces (after_separator : bool) (s : string) :
  Forall (fun piece => Spec.lacks_white_space piece = true)
         (Js.split_white_space after_separator s).
Proof.
  revert after_separator. induction s as [|c rest IH]; intros flag; simpl.
  - by repeat constructor.
  - destruct (Js.is_white_space c) eqn:Hc.
    + destruct flag; [apply IH | constructor; [done | apply IH]].
    + specialize (IH false).
      destruct (Js.split_white_space false rest) as [|piece pieces].
      * constructor; [|constructor]. by rewrite lacks_white_space_cons, Hc.
      * inversion_clear IH as [|? ? Hpiece Hpieces].
        constructor; [|done]. by rewrite lacks_white_space_cons, Hc, Hpiece.
Qed.

(** X7.  Every scope the discovery handlers advertise is a token: it is not
    empty and holds no white space, whatever [OAUTH_SCOPES] is. *)
Theorem handler_scopes_are_tokens (config : UnifiedConfig) (scope : string) :
  In scope (handler_scopes config) ->
  scope <> "" /\ Spec.lacks_white_space scope = true.
Proof.
  unfold handler_scopes. intros [Hin Hfilled]%filter_In.
  apply truthy_true in Hfilled. split; [exact Hfilled|].
  apply in_map_iff in Hin as (piece & <- & Hpiece).
  pose proof (split_white_space_pieces false (OAUTH_SCOPES config)) as Hall.
  rewrite Forall_forall in Hall. specialize (Hall piece).
  rewrite (trim_without_white_space piece); apply Hall; by apply list_elem_of_In.
Qed.

Lemma handler_scopes_witness :
  "calendar.write" <> "" /\ Spec.lacks_white_space "calendar.write" = true.
Proof.
  apply (handler_scopes_are_tokens example_config "calendar.write").
  vm_compute. auto.
Defined.

(** Cutting at every space and cutting at runs of white space give the same
    pieces, empty ones apart, when the only white space is the space. *)
Lemma split_agree (s : string) :
  Spec.spaces_only s = true ->
  (exists piece others spaced,
      Js.split_white_space false s = piece :: others
      /\ Js.split " " s = piece :: spaced
      /\ List.filter Js.truthy others = List.filter Js.truthy spaced)
  /\ List.filter Js.truthy (Js.split_white_space true s)
     = List.filter Js.truthy (Js.split " " s).
Proof.
  induction s as [|c rest IH]; simpl.
  - intros _. split; [by exists "", [], [] | reflexivity].
  - intros [Hc Hrest]%andb_prop. destruct (IH Hrest) as [(piece & others & spaced & Hws & Hsp & Hsame) Htrue].
    destruct (Js.is_white_space c) eqn:Hwhite; simpl in Hc.
    + rewrite Hc. split.
      * exists "", (Js.split_white_space true rest), (Js.split " " rest). by repeat split.
      * simpl. exact Htrue.
    + assert (Ascii.eqb c " " = false) as ->.
      { destruct (Ascii.eqb_spec c " ") as [->|]; [discriminate Hwhite | reflexivity]. }
      rewrite Hws, Hsp. split.
      * exists (String c piece), others, spaced. by repeat split.
      * simpl. by rewrite Hsame.
Qed.

(** X8.  When the only white space in [OAUTH_SCOPES] is the space character,
    the discovery handlers and the auth application's discovery route
    advertise the same scopes: cutting at runs of white space and trimming
    gives what cutting at every space gives, empty pieces dropped. *)
Theorem discovery_routes_cut_same_scopes (config : UnifiedConfig) :
  Spec.spaces_only (OAUTH_SCOPES config) = true ->
  handler_scopes config = Spec.auth_app_scopes config.
Proof.
  intros Hspaces. unfold handler_scopes, Spec.auth_app_scopes.
  assert (List.map Js.trim (Js.split_white_space false (OAUTH_SCOPES config))
          = Js.split_white_space false (OAUTH_SCOPES config)) as ->.
  { pose proof (split_white_space_pieces false (OAUTH_SCOPES config)) as Hall.
    induction Hall as [|piece pieces Hpiece _ IH]; simpl; [done|].
    by rewrite (trim_without_white_space piece Hpiece), IH. }
  destruct (split_agree _ Hspaces) as [(piece & others & spaced & -> & -> & Hsame) _].
  simpl. by rewrite Hsame.
Qed.

Lemma discovery_routes_scopes_witness :
  handler_scopes local_config = Spec.auth_app_scopes local_config.
Proof. apply (discovery_routes_cut_same_scopes local_config). reflexivity. Defined.

(** The scopes of the auth application's document are those. *)
Lemma authAppMetadata_scopes {url_parser : UrlParser} (config : UnifiedConfig)
    (requestText : string) (doc : AuthorizationServerMetadata) :
  authAppMetadata config requestText = Returns doc ->
  scopes_supported doc = Spec.auth_app_scopes config.
Proof.
  unfold authAppMetadata. destruct (authAppBase config requestText); simpl; [|done].
  by intros [= <-].
Qed.

(** A tab between two scopes separates them for the handlers and not for the
    auth application. *)
Example tab_separated_scopes_example :
  let scopes := "a" +:+ String (ascii_of_N 9) "b" in
  List.filter Js.truthy (List.map Js.trim (Js.split_white_space false scopes)) = ["a"; "b"]
  /\ List.filter Js.truthy (Js.split " " scopes) = [scopes].
Proof. split; reflexivity. Qed.

Section ProtectedResourceFacts.
Context {url_parser : UrlParser} {ProtectedResourceMetadata : Type}.
Variable build : string -> string -> option string -> ProtectedResourceMetadata.

(** X9.  With [AUTH_DISCOVERY_URL] set, the protected-resource document of
    the node strategy is always produced, also when [AUTH_RESOURCE_URI] is no
    URL: it names the configured discovery URL as authorization server and,
    as resource, [AUTH_RESOURCE_URI] when that is set and the request's
    /mcp otherwise; the strategy's own authorization server URL is not
    resolved. *)
Theorem configured_discovery_url_is_advertised
    (config : UnifiedConfig) (requestUrl : URL) (sid : option string) (discoveryUrl : string) :
  AUTH_DISCOVERY_URL config = Some discoveryUrl ->
  discoveryUrl <> "" ->
  protectedResourceMetadata build config nodeDiscoveryStrategy requestUrl sid
  = Returns (build (Js.or_else (AUTH_RESOURCE_URI config)
                      (protocol requestUrl +:+ "//" +:+ host requestUrl +:+ "/mcp"))
               discoveryUrl sid).
Proof.
  intros Hurl Hset. unfold protectedResourceMetadata. simpl.
  rewrite Hurl. simpl. by rewrite (proj2 (truthy_true discoveryUrl) Hset).
Qed.

(** X10.  Without [AUTH_DISCOVERY_URL], the protected-resource document of
    the worker or node strategy names as authorization server the well-known
    path under the auth base URL of the authorization-server document, and
    fails exactly when that base fails to resolve. *)
Theorem resource_document_points_at_auth_base
    (config : UnifiedConfig) (requestUrl : URL) (sid : option string) :
  Js.truthy_opt (AUTH_DISCOVERY_URL config) = false ->
  protectedResourceMetadata build config workerDiscoveryStrategy requestUrl sid
  = map_completion
      (fun base => build (origin requestUrl +:+ "/mcp") (base +:+ Spec.well_known) sid)
      (resolveAuthBaseUrl workerDiscoveryStrategy requestUrl config)
  /\ protectedResourceMetadata build config nodeDiscoveryStrategy requestUrl sid
     = map_completion
         (fun base =>
            build (Js.or_else (AUTH_RESOURCE_URI config)
                     (protocol requestUrl +:+ "//" +:+ host requestUrl +:+ "/mcp"))
              (base +:+ Spec.well_known) sid)
         (resolveAuthBaseUrl nodeDiscoveryStrategy requestUrl config).
Proof.
  intros Hunset. unfold protectedResourceMetadata. simpl. rewrite Hunset.
  split; [reflexivity|].
  destruct (Js.truthy_opt (AUTH_RESOURCE_URI config)); [|reflexivity].
  by destruct (new_URL (Js.nullish (AUTH_RESOURCE_URI config) "")).
Qed.

End ProtectedResourceFacts.

End ScopeFacts.

(** ** Discovery on the fixtures *)

Section DiscoveryExamples.
Import Discovery.
Existing Instance example_new_URL.

Lemma auth_base_agrees_witness :
  resolveAuthBaseUrl nodeDiscoveryStrategy example_request_url example_config
  = map_completion (fun resourceUrl => adjacent_port_base resourceUrl (next_port resourceUrl))
      (new_URL (Js.nullish (AUTH_RESOURCE_URI example_config) ""))
  /\ authAppBase example_config "http://localhost:3000/mcp"
     = resolveAuthBaseUrl nodeDiscoveryStrategy example_request_url example_config
  /\ map_completion OAuthFlow.baseUrl
       (OAuthFlow.buildFlowOptions example_request_url example_config
          {| OAuthFlow.override_callbackPath := None;
             OAuthFlow.override_tokenEndpointPath := None |})
     = resolveAuthBaseUrl nodeDiscoveryStrategy example_request_url example_config.
Proof.
  apply (auth_base_agrees_across_routes example_config example_request_url
           example_request_url "http://localhost:3000/mcp").
  reflexivity.
Defined.

Lemma configured_discovery_url_witness :
  protectedResourceMetadata (fun resource server sid => (resource, server, sid))
    broken_resource_config nodeDiscoveryStrategy example_request_url (Some "session-1")
  = Returns ("not a url", "https://auth.example.com/.well-known/oauth-authorization-server",
             Some "session-1").
Proof.
  apply (configured_discovery_url_is_advertised
           (fun resource server sid => (resource, server, sid))
           broken_resource_config example_request_url (Some "session-1")
           "https://auth.example.com/.well-known/oauth-authorization-server").
  - reflexivity.
  - discriminate.
Defined.

Lemma resource_document_witness :
  protectedResourceMetadata (fun resource server sid => (resource, server, sid))
    example_config workerDiscoveryStrategy example_request_url None
  = map_completion
      (fun base => (origin example_request_url +:+ "/mcp", base +:+ Spec.well_known, None))
      (resolveAuthBaseUrl workerDiscoveryStrategy example_request_url example_config)
  /\ protectedResourceMetadata (fun resource server sid => (resource, server, sid))
       example_config nodeDiscoveryStrategy example_request_url None
     = map_completion
         (fun base =>
            (Js.or_else (AUTH_RESOURCE_URI example_config)
               (protocol example_request_url +:+ "//" +:+ host example_request_url +:+ "/mcp"),
             base +:+ Spec.well_known, None))
         (resolveAuthBaseUrl nodeDiscoveryStrategy example_request_url example_config).
Proof.
  apply (resource_document_points_at_auth_base
           (fun resource server sid => (resource, server, sid))
           example_config example_request_url None).
  reflexivity.
Defined.

End DiscoveryExamples.

(** ** The security gate: every way it ends *)

Section GateOutcomes.
Import SecurityGate.
Context {Headers : Type} {security : SecurityLibrary Headers} {url_parser : UrlParser}.

(** The validators return a value of the unit type. *)
Lemma returns_unit (m : completion unit) (u : unit) : m = Returns u -> m = Returns tt.
Proof. by destruct u. Qed.

Lemma challenge_response_sent (config : UnifiedConfig) (c : Request Headers)
    (sid : string) (sent : Response) :
  challenge_response config c sid = Returns sent ->
  exists origin, advertised_origin config c = Returns origin
                 /\ sent = challenge_for origin sid.
Proof.
  unfold challenge_response.
  destruct (advertised_origin config c) as [origin|e]; simpl; [|discriminate].
  intros [= <-]. by exists origin.
Qed.

(** X11.  The middleware attaches an auth context exactly when the request
    passes both validations, auth is enabled, the Authorization header
    carries a bearer token and the token store resolves that token to a
    record with a provider credential; the context is then built from the
    configuration's strategy, the inbound header, the token and that
    credential. *)
Theorem auth_context_attached_iff
    (config : UnifiedConfig) (store : TokenStore) (randomUUID : string)
    (c : Request Headers) (context : AuthContext) :
  fst (createMcpSecurityMiddleware config store randomUUID c) = Next (Some context)
  <-> passes_validation config c
      /\ AUTH_ENABLED config = true
      /\ exists auth record credential,
           Authorization c = Some auth
           /\ bearer_of auth <> ""
           /\ getByRsAccess store (bearer_of auth) = Returns (Some record)
           /\ provider record = Some credential
           /\ context = authContext_of config auth (bearer_of auth) credential.
Proof.
  split.
  - unfold createMcpSecurityMiddleware, passes_validation.
    destruct (validateOrigin _ _) as [[]|]; [|discriminate].
    destruct (validateProtocolVersion _ _) as [[]|]; [|discriminate].
    destruct (AUTH_ENABLED config); [|discriminate].
    unfold authenticate.
    destruct (Authorization c) as [auth|]; simpl.
    + destruct (Js.truthy auth); simpl.
      * destruct (Js.truthy (bearer_of auth)) eqn:Hbearer; [|discriminate].
        apply truthy_true in Hbearer. unfold lookup_credential.
        destruct (getByRsAccess store (bearer_of auth)) as [[record|]|] eqn:Hlookup; simpl.
        -- destruct (provider record) as [credential|] eqn:Hprovider; simpl.
           ++ intros [= <-]. repeat split. by exists auth, record, credential.
           ++ destruct (_ && _); [|discriminate].
              by destruct (challenge_response _ _ _).
        -- destruct (_ && _); [|discriminate].
           by destruct (challenge_response _ _ _).
        -- discriminate.
      * by destruct (challenge_response _ _ _).
    + by destruct (challenge_response _ _ _).
  - intros (Hvalid & Henabled & auth & record & credential
            & Hauth & Hbearer & Hlookup & Hprovider & ->).
    rewrite (bearer_middleware _ _ _ _ _ Hvalid Henabled Hauth Hbearer).
    unfold lookup_credential. rewrite Hlookup. simpl. by rewrite Hprovider.
Qed.

(** X12.  A response the middleware sends itself is the internal error for a
    thrown message, or, with auth enabled, the 401 challenge for the origin
    it advertises and a session id that is the request's own or the
    generated one: every challenge carries a session id. *)
Theorem gate_answers_are_errors_or_challenges
    (config : UnifiedConfig) (store : TokenStore) (randomUUID : string)
    (c : Request Headers) (response : Response) :
  fst (createMcpSecurityMiddleware config store randomUUID c) = Respond response ->
  (exists e, response = internal_error_response e)
  \/ (AUTH_ENABLED config = true
      /\ exists origin sid,
           advertised_origin config c = Returns origin
           /\ response = challenge_for origin sid
           /\ (Mcp_Session_Id c = Some sid \/ sid = randomUUID)).
Proof.
  unfold createMcpSecurityMiddleware.
  destruct (validateOrigin _ _) as [[]|e]; [|intros [= <-]; left; by exists e].
  destruct (validateProtocolVersion _ _) as [[]|e]; [|intros [= <-]; left; by exists e].
  destruct (AUTH_ENABLED config); [|discriminate].
  unfold authenticate.
  destruct (Js.truthy_opt (Authorization c)) eqn:Hauth; simpl.
  - destruct (Js.truthy (bearer_of _)); [|discriminate].
    unfold lookup_credential.
    destruct (getByRsAccess store _) as [record|]; simpl; [|discriminate].
    destruct (record ≫= provider); [discriminate|].
    destruct (_ && _); [|discriminate].
    destruct (challenge_response config c _) as [sent|e] eqn:Hsent; simpl; [|discriminate].
    intros [= <-]. apply challenge_response_sent in Hsent as (origin & Horigin & ->).
    right. split; [done|].
    exists origin, (Js.nullish (Mcp_Session_Id c) randomUUID). repeat split; [done|].
    destruct (Mcp_Session_Id c); simpl; auto.
  - destruct (challenge_response config c _) as [sent|e] eqn:Hsent; simpl.
    + intros [= <-]. apply challenge_response_sent in Hsent as (origin & Horigin & ->).
      right. split; [done|]. eexists origin, _. repeat split; [done|].
      destruct (Mcp_Session_Id c) as [sid|]; simpl; auto.
      destruct (Js.truthy sid); auto.
    + intros [= <-]. left. by exists e.
Qed.

(** X13.  A request that fails origin or protocol-version validation is
    answered 500 with the JSON-RPC error -32603 carrying the thrown message
    and logged as "Security check failed", whatever its headers, the
    configuration's auth settings and the token store: it is neither
    challenged nor given an auth context. *)
Theorem failed_validation_is_rejected
    (config : UnifiedConfig) (store : TokenStore) (randomUUID : string)
    (c : Request Headers) (e : string) :
  validateOrigin (raw_headers c) (String.eqb (NODE_ENV config) "development") = Throws e
  \/ (validateOrigin (raw_headers c) (String.eqb (NODE_ENV config) "development") = Returns tt
      /\ validateProtocolVersion (raw_headers c) (MCP_PROTOCOL_VERSION config) = Throws e) ->
  e <> "" ->
  createMcpSecurityMiddleware config store randomUUID c
  = (Respond {| status := 500; headers := [];
                body := {| code := -32603; message := e |} |},
     [Spec.security_check_failed e]).
Proof.
  intros Hfailed Hmessage. unfold createMcpSecurityMiddleware.
  destruct Hfailed as [-> | [-> ->]]; simpl; unfold internal_error_response;
    by rewrite (proj2 (truthy_true e) Hmessage).
Qed.

(** X14.  A bearer token the store does not know (no record, or a record
    without provider credential) is challenged when resource-server tokens
    are required and direct bearer tokens forbidden, with the request's
    session header as it is, the empty one too, and the generated id only
    when the header is absent; under every other configuration the request
    is passed on without auth context. *)
Theorem unknown_token_outcome
    (config : UnifiedConfig) (store : TokenStore) (randomUUID : string)
    (c : Request Headers) (auth : string) (record : option RsRecord) :
  passes_validation config c ->
  AUTH_ENABLED config = true ->
  Authorization c = Some auth ->
  bearer_of auth <> "" ->
  getByRsAccess store (bearer_of auth) = Returns record ->
  record ≫= provider = None ->
  (AUTH_REQUIRE_RS config && negb (AUTH_ALLOW_DIRECT_BEARER config) = true ->
   forall origin,
     advertised_origin config c = Returns origin ->
     createMcpSecurityMiddleware config store randomUUID c
     = (Respond (challenge_for origin (Js.nullish (Mcp_Session_Id c) randomUUID)),
        [{| level := debug; scope := "mcp_security";
            text := "RS token not found, challenging"; detail := None |}]))
  /\ (AUTH_REQUIRE_RS config && negb (AUTH_ALLOW_DIRECT_BEARER config) = false ->
      createMcpSecurityMiddleware config store randomUUID c = (Next None, [])).
Proof.
  intros Hvalid Henabled Hauth Hbearer Hlookup Hnone.
  rewrite (bearer_middleware _ _ _ _ _ Hvalid Henabled Hauth Hbearer).
  unfold lookup_credential. rewrite Hlookup. simpl. rewrite Hnone.
  split.
  - intros -> origin Horigin. by rewrite (challenge_response_for _ _ _ _ Horigin).
  - by intros ->.
Qed.

(** X15.  When the origin to advertise does not resolve ([AUTH_RESOURCE_URI]
    is no URL), a validated request without Authorization header is answered
    500, and a request with an unknown bearer token that should be
    challenged is passed on without auth context: the inner catch takes the
    parser's error for a failed lookup. *)
Theorem unresolvable_origin_outcomes
    (config : UnifiedConfig) (store : TokenStore) (randomUUID : string)
    (c : Request Headers) (e : string) :
  passes_validation config c ->
  AUTH_ENABLED config = true ->
  advertised_origin config c = Throws e ->
  (Authorization c = None \/ Authorization c = Some "" ->
   fst (createMcpSecurityMiddleware config store randomUUID c)
   = Respond (internal_error_response e))
  /\ (forall auth record,
      Authorization c = Some auth ->
      bearer_of auth <> "" ->
      getByRsAccess store (bearer_of auth) = Returns record ->
      record ≫= provider = None ->
      AUTH_REQUIRE_RS config && negb (AUTH_ALLOW_DIRECT_BEARER config) = true ->
      createMcpSecurityMiddleware config store randomUUID c
      = (Next None, [token_lookup_failed e])).
Proof.
  intros Hvalid Henabled Horigin. split.
  - intros Hauth%truthy_opt_false.
    rewrite (validated_middleware _ _ _ _ Hvalid Henabled).
    unfold authenticate, challenge_response. rewrite Hauth, Horigin. reflexivity.
  - intros auth record Hauth Hbearer Hlookup Hnone Hrequired.
    rewrite (bearer_middleware _ _ _ _ _ Hvalid Henabled Hauth Hbearer).
    unfold lookup_credential, challenge_response.
    rewrite Hlookup. simpl. rewrite Hnone, Hrequired, Horigin. reflexivity.
Qed.

(** X16.  The middleware asks the token store for the bearer token of the
    Authorization header and for nothing else: two stores that answer alike
    for that token give the same outcome and the same log. *)
Theorem store_is_asked_for_the_bearer_token_only
    (config : UnifiedConfig) (store store' : TokenStore) (randomUUID : string)
    (c : Request Headers) :
  (forall auth, Authorization c = Some auth ->
                getByRsAccess store (bearer_of auth) = getByRsAccess store' (bearer_of auth)) ->
  createMcpSecurityMiddleware config store randomUUID c
  = createMcpSecurityMiddleware config store' randomUUID c.
Proof.
  intros Hsame. unfold createMcpSecurityMiddleware, authenticate, lookup_credential.
  destruct (Authorization c) as [auth|]; [|reflexivity].
  simpl. by rewrite (Hsame auth eq_refl).
Qed.

End GateOutcomes.

Section BearerFacts.
Import SecurityGate.

Lemma split_without_separator (sep : ascii) (s : string) :
  Js.occurs sep s = false -> Js.split sep s = [s].
Proof.
  induction s as [|c rest IH]; simpl; [done|].
  intros [Hc Hrest]%orb_false_elim. by rewrite Hc, (IH Hrest).
Qed.

Lemma split_at_first_separator (sep : ascii) (first rest : string) :
  Js.occurs sep first = false ->
  Js.split sep (first +:+ String sep rest) = first :: Js.split sep rest.
Proof.
  induction first as [|c first IH]; simpl.
  - intros _. by rewrite Ascii.eqb_refl.
  - intros [Hc Hfirst]%orb_false_elim. by rewrite Hc, (IH Hfirst).
Qed.

(** X17.  For an Authorization value made of a scheme that reads "bearer"
    without regard to case, one space and a token without spaces, the bearer
    token is the token trimmed; what follows a further space is ignored. *)
Theorem bearer_token_is_second_word (scheme token rest : string) :
  Js.occurs " " scheme = false ->
  Js.occurs " " token = false ->
  Js.toLowerCase scheme = "bearer" ->
  bearer_of (scheme +:+ " " +:+ token) = Js.trim token
  /\ bearer_of (scheme +:+ " " +:+ token +:+ " " +:+ rest) = Js.trim token.
Proof.
  intros Hscheme Htoken Hbearer.
  assert (Js.truthy scheme = true) as Hfilled.
  { destruct scheme; [discriminate Hbearer | reflexivity]. }
  split.
  - unfold bearer_of, scheme_of, rsToken_of, Js.split_limit.
    change (scheme +:+ " " +:+ token) with (scheme +:+ String " " token).
    rewrite (split_at_first_separator " " scheme token Hscheme).
    rewrite (split_without_separator " " token Htoken). simpl.
    rewrite Hfilled, Hbearer. simpl. by destruct token.
  - unfold bearer_of, scheme_of, rsToken_of, Js.split_limit.
    change (scheme +:+ " " +:+ token +:+ " " +:+ rest)
      with (scheme +:+ String " " (token +:+ String " " rest)).
    rewrite (split_at_first_separator " " scheme _ Hscheme).
    rewrite (split_at_first_separator " " token rest Htoken). simpl.
    rewrite Hfilled, Hbearer. simpl. by destruct token.
Qed.

Lemma bearer_token_witness :
  bearer_of ("BEARER" +:+ " " +:+ "rs-123") = Js.trim "rs-123"
  /\ bearer_of ("BEARER" +:+ " " +:+ "rs-123" +:+ " " +:+ "trailing words")
     = Js.trim "rs-123".
Proof.
  apply (bearer_token_is_second_word "BEARER" "rs-123" "trailing words"); reflexivity.
Defined.

End BearerFacts.

(** ** The security gate's outcomes on the fixtures *)

Section GateOutcomeExamples.
Import SecurityGate.
Existing Instance example_new_URL.
Existing Instance example_security.

Lemma gate_answers_witness :
  (exists e, challenge_for "https://mcp.example.com" "uuid-1"
             = internal_error_response e)
  \/ (AUTH_ENABLED example_config = true
      /\ exists origin sid,
           advertised_origin example_config
             (gate_request None None) = Returns origin
           /\ challenge_for "https://mcp.example.com" "uuid-1"
              = challenge_for origin sid
           /\ (Mcp_Session_Id (gate_request None None) = Some sid \/ sid = "uuid-1")).
Proof.
  apply (gate_answers_are_errors_or_challenges
           example_config empty_store "uuid-1" (gate_request None None)).
  reflexivity.
Defined.

Lemma failed_validation_witness :
  createMcpSecurityMiddleware (security := strict_security) example_config example_store
    "uuid-1" (gate_request (Some "Bearer rs-123") (Some "session-1"))
  = (Respond {| status := 500; headers := [];
                body := {| code := -32603; message := "Invalid origin" |} |},
     [Spec.security_check_failed "Invalid origin"]).
Proof.
  apply (failed_validation_is_rejected (security := strict_security)
           example_config example_store "uuid-1"
           (gate_request (Some "Bearer rs-123") (Some "session-1")) "Invalid origin").
  - left. reflexivity.
  - discriminate.
Defined.

Lemma unknown_token_witness :
  (AUTH_REQUIRE_RS example_config && negb (AUTH_ALLOW_DIRECT_BEARER example_config) = true ->
   forall origin,
     advertised_origin example_config
       (gate_request (Some "Bearer rs-999") (Some "")) = Returns origin ->
     createMcpSecurityMiddleware example_config example_store
       "uuid-1" (gate_request (Some "Bearer rs-999") (Some ""))
     = (Respond (challenge_for origin
                   (Js.nullish (Mcp_Session_Id (gate_request (Some "Bearer rs-999") (Some "")))
                      "uuid-1")),
        [{| level := debug; scope := "mcp_security";
            text := "RS token not found, challenging"; detail := None |}]))
  /\ (AUTH_REQUIRE_RS example_config && negb (AUTH_ALLOW_DIRECT_BEARER example_config) = false ->
      createMcpSecurityMiddleware example_config example_store
        "uuid-1" (gate_request (Some "Bearer rs-999") (Some ""))
      = (Next None, [])).
Proof.
  apply (unknown_token_outcome example_config example_store
           "uuid-1" (gate_request (Some "Bearer rs-999") (Some "")) "Bearer rs-999" None).
  - split; reflexivity.
  - reflexivity.
  - reflexivity.
  - vm_compute. discriminate.
  - reflexivity.
  - reflexivity.
Defined.

(** The two challenges treat an empty session header differently: without
    Authorization header it is replaced by the generated id, with an unknown
    token it is sent back empty. *)
Example empty_session_header_example :
  fst (createMcpSecurityMiddleware example_config example_store
         "uuid-1" (gate_request None (Some "")))
  = Respond (challenge_for "https://mcp.example.com" "uuid-1")
  /\ fst (createMcpSecurityMiddleware example_config
            example_store "uuid-1" (gate_request (Some "Bearer rs-999") (Some "")))
     = Respond (challenge_for "https://mcp.example.com" "").
Proof. split; vm_compute; reflexivity. Qed.

Lemma unresolvable_origin_witness :
  (Authorization (gate_request None None) = None
   \/ Authorization (gate_request None None) = Some "" ->
   fst (createMcpSecurityMiddleware broken_resource_config
          empty_store "uuid-1" (gate_request None None))
   = Respond (internal_error_response "Invalid URL"))
  /\ (forall auth record,
      Authorization (gate_request None None) = Some auth ->
      bearer_of auth <> "" ->
      getByRsAccess empty_store (bearer_of auth) = Returns record ->
      record ≫= provider = None ->
      AUTH_REQUIRE_RS broken_resource_config
      && negb (AUTH_ALLOW_DIRECT_BEARER broken_resource_config) = true ->
      createMcpSecurityMiddleware broken_resource_config
        empty_store "uuid-1" (gate_request None None)
      = (Next None, [token_lookup_failed "Invalid URL"])).
Proof.
  apply (unresolvable_origin_outcomes broken_resource_config
           empty_store "uuid-1" (gate_request None None) "Invalid URL").
  - split; reflexivity.
  - reflexivity.
  - reflexivity.
Defined.

Example unknown_token_passes_broken_origin_example :
  createMcpSecurityMiddleware broken_resource_config
    empty_store "uuid-1" (gate_request (Some "Bearer anything") None)
  = (Next None, [token_lookup_failed "Invalid URL"]).
Proof. vm_compute. reflexivity. Qed.

Lemma store_is_asked_witness :
  createMcpSecurityMiddleware example_config example_store
    "uuid-1" (gate_request (Some "Bearer rs-999") None)
  = createMcpSecurityMiddleware example_config empty_store
      "uuid-1" (gate_request (Some "Bearer rs-999") None).
Proof.
  apply (store_is_asked_for_the_bearer_token_only
           example_config example_store empty_store "uuid-1"
           (gate_request (Some "Bearer rs-999") None)).
  intros auth [= <-]. reflexivity.
Defined.

End GateOutcomeExamples.

(** ** The MCP routes: what every request keeps *)

Section RouteSteps.
Import McpRoutes.
Context {sdk : Sdk}.

Lemma ensureConnected_returns (transport : Transport) (st : RouteState) (u : unit) :
  fst (ensureConnected transport st) = Returns u ->
  identity transport ∈ connectedTransports (snd (ensureConnected transport st)).
Proof.
  unfold ensureConnected. case_decide; [done|].
  destruct (server_connect (history st) transport); simpl; [|discriminate].
  intros _. set_solver.
Qed.

Lemma ensureConnected_constructed (transport : Transport) (st : RouteState) :
  constructed (snd (ensureConnected transport st)) = constructed st.
Proof.
  unfold ensureConnected. case_decide; [done|].
  by destruct (server_connect (history st) transport).
Qed.

Lemma ensureConnected_registry (transport : Transport) (st : RouteState) :
  transports (snd (ensureConnected transport st)) = transports st.
Proof.
  unfold ensureConnected. case_decide; [done|].
  by destruct (server_connect (history st) transport).
Qed.

(** A rule for every relation between the state before and after a request:
    it holds across a request when it is a preorder and holds across each
    step a handler takes, where a step may rely on what the handler has
    established by then: a transport is connected when it is registered or
    was constructed, a request is dispatched to a connected transport, and a
    transport is registered under its own generator's id. *)
Section Rule.
Variable R : RouteState -> RouteState -> Prop.
Hypothesis R_refl : forall st, R st st.
Hypothesis R_trans : forall st1 st2 st3, R st1 st2 -> R st2 st3 -> R st1 st3.
Hypothesis R_bookkeeping : forall e st, Spec.bookkeeping e -> R st (record_event e st).
Hypothesis R_allocate : forall st, R st (Spec.allocate st).
Hypothesis R_connect :
  forall transport st,
    (exists sid, transports st !! sid = Some transport)
    \/ identity transport < constructed st ->
    R st (snd (ensureConnected transport st)).
Hypothesis R_dispatch :
  forall transport method st,
    identity transport ∈ connectedTransports st ->
    R st (record_event (Dispatched (identity transport) method) st).
Hypothesis R_register :
  forall sid transport st,
    sessionIdGenerator transport = Some sid -> onsessioninitialized transport = true ->
    R st (register sid transport st).
Hypothesis R_unregister :
  forall sid transport st, transports st !! sid = Some transport -> R st (unregister sid st).

Lemma handleRequest_respects (transport : Transport) (method : Method)
    (body : option Json) (st : RouteState) :
  identity transport ∈ connectedTransports st ->
  R st (snd (handleRequest transport method body st)).
Proof.
  intros Hconnected. unfold handleRequest. simpl.
  pose proof (R_dispatch transport method st Hconnected) as Hdispatch.
  destruct method; try exact Hdispatch.
  destruct (sessionIdGenerator transport) as [sid|] eqn:Hsid; [|exact Hdispatch].
  destruct (onsessioninitialized transport) eqn:Hcallback; [|exact Hdispatch].
  destruct (session_initialized (history st) transport body); [|exact Hdispatch].
  eapply R_trans; [exact Hdispatch|].
  unfold session_callback, log. simpl.
  eapply R_trans; [by apply R_register | by apply R_bookkeeping].
Qed.

(** Connecting, dispatching and answering, under the handler's [catch]. *)
Lemma served_respects (what : string) (transport : Transport) (method : Method)
    (body : option Json) (after : NodeResponse -> Action Response) (st : RouteState) :
  (exists sid, transports st !! sid = Some transport)
  \/ identity transport < constructed st ->
  (forall res st', R st' (snd (after res st'))) ->
  R st (snd (or_internal_error what
               (bind (ensureConnected transport) (fun _ =>
                bind (handleRequest transport method body) after)) st)).
Proof.
  intros Hknown Hafter. unfold or_internal_error, bind.
  pose proof (R_connect transport st Hknown) as Hconnect.
  pose proof (ensureConnected_returns transport st) as Hreturned.
  destruct (ensureConnected transport st) as [[[]|e] st1]; cbn [fst snd] in *.
  - pose proof (handleRequest_respects transport method body st1 (Hreturned tt eq_refl))
      as Hhandled.
    destruct (handleRequest transport method body st1) as [[res|e] st2]; cbn [fst snd] in *.
    + specialize (Hafter res st2).
      destruct (after res st2) as [[response|e] st3]; cbn [fst snd] in *.
      * eauto.
      * eapply R_trans; [|by apply R_bookkeeping]. eauto.
    + eapply R_trans; [|by apply R_bookkeeping]. eauto.
  - eapply R_trans; [exact Hconnect | by apply R_bookkeeping].
Qed.

Lemma get_respects (c : Request) (st : RouteState) : R st (snd (app_get c st)).
Proof.
  unfold app_get. destruct (negb _); [apply R_refl|].
  destruct (transports st !! Js.nullish (Mcp_Session_Id c) "") as [transport|] eqn:Hfound.
  - pose proof (served_respects "Error handling GET request" transport GET None
                  (fun res => ret (FetchResponse res)) st) as Hserved.
    unfold or_internal_error in *. rewrite Hfound. apply Hserved; [eauto|].
    intros res st'. apply R_refl.
  - unfold or_internal_error. rewrite Hfound. apply R_refl.
Qed.

Lemma delete_respects (c : Request) (st : RouteState) : R st (snd (app_delete c st)).
Proof.
  unfold app_delete. destruct (negb _); [apply R_refl|].
  destruct (transports st !! Js.nullish (Mcp_Session_Id c) "") as [transport|] eqn:Hfound.
  - unfold or_internal_error, bind.
    pose proof (R_connect transport st (or_introl (ex_intro _ _ Hfound))) as Hconnect.
    pose proof (ensureConnected_returns transport st) as Hreturned.
    pose proof (ensureConnected_registry transport st) as Hregistry.
    rewrite Hfound.
    destruct (ensureConnected transport st) as [[[]|e] st1]; simpl in *.
    + pose proof (handleRequest_respects transport DELETE None st1 (Hreturned tt eq_refl))
        as Hhandled.
      unfold handleRequest in *. simpl in *.
      destruct (transport_handleRequest (history st1) transport DELETE None); simpl.
      * eapply R_trans; [|by apply R_bookkeeping].
        eapply R_trans; [|eapply R_unregister; simpl; by rewrite Hregistry].
        eauto.
      * eapply R_trans; [|by apply R_bookkeeping]. eauto.
    + eapply R_trans; [exact Hconnect | by apply R_bookkeeping].
  - unfold or_internal_error. rewrite Hfound. apply R_refl.
Qed.

(** The POST handler prepares, then connects, dispatches and answers. *)
Lemma app_post_prepared (c : Request) (randomUUID : string) (st : RouteState) :
  app_post c randomUUID st
  = or_internal_error "Error handling POST request"
      (bind (ensureConnected (Spec.post_transport c randomUUID st)) (fun _ =>
       bind (handleRequest (Spec.post_transport c randomUUID st) POST (json c)) (fun res =>
       ret (FetchResponse res))))
      (Spec.post_prepared c randomUUID st).
Proof.
  unfold app_post, Spec.post_transport, Spec.post_prepared, Spec.post_logged,
    Spec.post_planned, Spec.planned_session, Spec.resolved_transport, or_internal_error.
  unfold bind at 1. unfold log at 1. cbn iota beta. unfold bind at 1.
  cbn [transports record_event].
  destruct (is_initialize (json c));
    (destruct (if Js.truthy_opt (Mcp_Session_Id c)
               then transports st !! Js.nullish (Mcp_Session_Id c) ""
               else None) as [found|];
     [unfold ret at 1 | unfold construct at 1]; cbn iota beta;
     unfold bind at 1; destruct (request_id (json c)); reflexivity).
Qed.

Lemma post_transport_known (c : Request) (randomUUID : string) (st : RouteState) :
  (exists sid, transports (Spec.post_prepared c randomUUID st) !! sid
               = Some (Spec.post_transport c randomUUID st))
  \/ identity (Spec.post_transport c randomUUID st)
     < constructed (Spec.post_prepared c randomUUID st).
Proof.
  unfold Spec.post_transport, Spec.post_prepared, Spec.resolved_transport.
  destruct (Js.truthy_opt (Mcp_Session_Id c)).
  - destruct (transports st !! Js.nullish (Mcp_Session_Id c) "") as [found|] eqn:Hfound.
    + left. exists (Js.nullish (Mcp_Session_Id c) "").
      by destruct (request_id (json c)).
    + right. destruct (request_id (json c)); simpl; lia.
  - right. destruct (request_id (json c)); simpl; lia.
Qed.

Lemma post_prepared_respects (c : Request) (randomUUID : string) (st : RouteState) :
  R st (Spec.post_prepared c randomUUID st).
Proof.
  unfold Spec.post_prepared.
  assert (R st (Spec.post_logged c randomUUID st)) as Hlogged by (by apply R_bookkeeping).
  assert (R st match Spec.resolved_transport c st with
               | Some _ => Spec.post_logged c randomUUID st
               | None => Spec.allocate (Spec.post_logged c randomUUID st)
               end) as Hchosen.
  { destruct (Spec.resolved_transport c st); [done|].
    eapply R_trans; [exact Hlogged | apply R_allocate]. }
  destruct (request_id (json c)); [|done].
  eapply R_trans; [exact Hchosen | by apply R_bookkeeping].
Qed.

Lemma post_respects (c : Request) (randomUUID : string) (st : RouteState) :
  R st (snd (app_post c randomUUID st)).
Proof.
  rewrite app_post_prepared.
  eapply R_trans; [apply post_prepared_respects|].
  apply served_respects; [apply post_transport_known|].
  intros res st'. apply R_refl.
Qed.

Lemma serves_respects (st st' : RouteState) : Spec.serves st st' -> R st st'.
Proof.
  intros [c randomUUID st0|c st0|c st0];
    [apply post_respects | apply get_respects | apply delete_respects].
Qed.

Lemma serves_all_respects (st st' : RouteState) : Spec.serves_all st st' -> R st st'.
Proof.
  induction 1 as [|st1 st2 st3 Hstep _ IH]; [apply R_refl|].
  eapply R_trans; [by apply serves_respects | exact IH].
Qed.

End Rule.

End RouteSteps.

Section RouteInvariants.
Import McpRoutes.
Context {sdk : Sdk}.

Lemma connect_calls_bookkeeping (i : nat) (e : Event) (events : list Event) :
  (forall t, e <> Connected t) ->
  connect_calls i (events ++ [e]) = connect_calls i events.
Proof.
  intros Hother. rewrite connect_calls_app. simpl.
  destruct e; try lia. by destruct (Hother transport).
Qed.

Lemma connect_calls_connect (i t : nat) (events : list Event) :
  connect_calls i (events ++ [Connected t])
  = connect_calls i events + (if decide (t = i) then 1 else 0).
Proof. rewrite connect_calls_app. cbn [connect_calls]. lia. Qed.

Lemma bookkeeping_is_no_connect (e : Event) (t : nat) : Spec.bookkeeping e -> e <> Connected t.
Proof. by destruct e. Qed.

(** X18.  Once a transport is in the connected set, no request served later,
    by any handler and in any number, calls [server.connect] on it again or
    takes it out of the set. *)
Theorem connected_transport_is_never_reconnected (st st' : RouteState) (i : nat) :
  Spec.serves_all st st' ->
  i ∈ connectedTransports st ->
  i ∈ connectedTransports st'
  /\ connect_calls i (history st') = connect_calls i (history st).
Proof.
  revert st st'.
  apply (serves_all_respects
           (fun st st' => i ∈ connectedTransports st ->
                          i ∈ connectedTransports st'
                          /\ connect_calls i (history st') = connect_calls i (history st))).
  - done.
  - intros st1 st2 st3 H12 H23 Hin. destruct (H12 Hin) as [Hin2 Hcount2].
    destruct (H23 Hin2) as [Hin3 Hcount3]. split; [done | congruence].
  - intros e st He Hin. split; [done|]. simpl.
    apply connect_calls_bookkeeping. intros t. by apply bookkeeping_is_no_connect.
  - done.
  - intros transport st _ Hin. unfold ensureConnected. case_decide as Hnew; [done|].
    assert (identity transport <> i) as Hother by (intros Hsame; by rewrite Hsame in Hnew).
    destruct (server_connect (history st) transport); simpl;
      (split; [set_solver|]); rewrite connect_calls_connect;
      rewrite decide_False by done; lia.
  - intros transport method st _ Hin. split; [done|]. simpl.
    by apply connect_calls_bookkeeping.
  - done.
  - done.
Qed.

(** X19.  Starting from routes just built, with no session registered, no
    transport connected and nothing logged, and with a [server.connect] that
    never throws: after any number of requests served one after the other,
    each handler running to completion before the next request is taken up,
    [server.connect] has been called exactly once on every transport in the
    connected set and never on any other: at most once on each transport. *)
Theorem connect_is_called_at_most_once (st st' : RouteState) :
  (forall events transport, server_connect events transport = Returns tt) ->
  transports st = ∅ ->
  Spec.just_built st ->
  Spec.serves_all st st' ->
  Spec.connected_once st'
  /\ forall i, connect_calls i (history st') <= 1.
Proof.
  intros Hreturns _ [Hnone Hquiet] Hserved.
  assert (Spec.connected_once st') as Honce.
  { assert (Spec.connected_once st) as Hstart.
    { intros i. rewrite Hnone, Hquiet. simpl. by rewrite decide_False by set_solver. }
    clear Hnone Hquiet. revert st st' Hserved Hstart.
    apply (serves_all_respects (fun st st' => Spec.connected_once st -> Spec.connected_once st')).
    - done.
    - eauto.
    - intros e st He Honce i. simpl. rewrite connect_calls_bookkeeping; [apply Honce|].
      intros t. by apply bookkeeping_is_no_connect.
    - done.
    - intros transport st _ Honce i. unfold ensureConnected.
      case_decide as Hin; [apply Honce|].
      rewrite Hreturns. simpl. rewrite connect_calls_connect, (Honce i).
      destruct (decide (identity transport = i)) as [Hsame|Hother];
        destruct (decide (i ∈ connectedTransports st)) as [Hold|Hnew];
        destruct (decide (i ∈ {[identity transport]} ∪ connectedTransports st))
          as [Hadded|Hmissing]; try lia;
        first [ by rewrite Hsame in Hin
              | destruct Hmissing; apply elem_of_union;
                first [ by right | left; by apply elem_of_singleton ]
              | apply elem_of_union in Hadded as [Hone%elem_of_singleton|]; done ].
    - intros transport method st _ Honce i. simpl.
      rewrite connect_calls_bookkeeping by done. apply Honce.
    - done.
    - done. }
  split; [exact Honce|]. intros i. rewrite (Honce i). case_decide; lia.
Qed.

(** X20.  Starting from routes just built, after any number of requests
    every transport a request was dispatched to is in the connected set and
    [server.connect] was called on it: no handler hands a request to a
    transport before connecting it. *)
Theorem requests_reach_connected_transports_only (st st' : RouteState) :
  Spec.just_built st ->
  Spec.serves_all st st' ->
  forall i method,
    Dispatched i method ∈ history st' ->
    i ∈ connectedTransports st' /\ 1 <= connect_calls i (history st').
Proof.
  intros [Hnone Hquiet] Hserved.
  set (good := fun st : RouteState =>
                 Spec.dispatches_connected st
                 /\ forall i, i ∈ connectedTransports st -> 1 <= connect_calls i (history st)).
  assert (good st') as [Hdispatched Hcalled].
  { assert (good st) as Hstart.
    { split; [intros i method; rewrite Hquiet; set_solver | rewrite Hnone; set_solver]. }
    clear Hnone Hquiet. revert st st' Hserved Hstart.
    apply (serves_all_respects (fun st st' => good st -> good st')).
    - done.
    - eauto.
    - intros e st He [Hd Hc]. split.
      + intros i method. simpl. rewrite elem_of_app, list_elem_of_singleton.
        intros [Hin|Heq]; [by eapply Hd | by rewrite <- Heq in He].
      + intros i Hin. simpl. rewrite connect_calls_bookkeeping; [by apply Hc|].
        intros t. by apply bookkeeping_is_no_connect.
    - done.
    - intros transport st _ [Hd Hc]. unfold ensureConnected.
      case_decide as Hin; [done|].
      destruct (server_connect (history st) transport);
        (split; [intros i method; simpl | intros i; simpl]).
      + rewrite elem_of_app, list_elem_of_singleton.
        intros [Hold|[=]]. apply Hd in Hold. set_solver.
      + rewrite connect_calls_connect.
        rewrite elem_of_union, elem_of_singleton. intros [->|Hold].
        * rewrite decide_True by done. lia.
        * specialize (Hc i Hold). lia.
      + rewrite elem_of_app, list_elem_of_singleton.
        intros [Hold|[=]]. by eapply Hd.
      + intros Hold. rewrite connect_calls_app. specialize (Hc i Hold). lia.
    - intros transport method st Hconnected [Hd Hc]. split.
      + intros i m. simpl. rewrite elem_of_app, list_elem_of_singleton.
        intros [Hold|[= -> _]]; [by eapply Hd | done].
      + intros i Hin. simpl. rewrite connect_calls_bookkeeping by done. by apply Hc.
    - done.
    - done. }
  intros i method Hin. split; [by eapply Hdispatched | eauto].
Qed.

(** X21.  When every registered transport is registered under the id its own
    generator returns, this is still so after any number of requests: the
    handlers register a transport only under the session id it was
    constructed for. *)
Theorem registry_holds_own_sessions (st st' : RouteState) :
  Spec.own_sessions st ->
  Spec.serves_all st st' ->
  Spec.own_sessions st'.
Proof.
  intros Hown Hserved. revert Hown. revert st st' Hserved.
  apply (serves_all_respects (fun st st' => Spec.own_sessions st -> Spec.own_sessions st')).
  - done.
  - eauto.
  - done.
  - done.
  - intros transport st _ Hown sid t. rewrite ensureConnected_registry. apply Hown.
  - done.
  - intros sid transport st Hsid Hcallback Hown other t. simpl.
    destruct (decide (sid = other)) as [<-|Hother].
    + rewrite lookup_insert_eq. by intros [= <-].
    + rewrite lookup_insert_ne by done. apply Hown.
  - intros sid transport st _ Hown other t. simpl.
    destruct (decide (sid = other)) as [<-|Hother].
    + by rewrite lookup_delete_eq.
    + rewrite lookup_delete_ne by done. apply Hown.
Qed.

End RouteInvariants.

(** ** The MCP routes: what each handler does to the registry *)

Section RouteEffects.
Import McpRoutes.
Context {sdk : Sdk}.

(** What a dispatch leaves behind: the registry as it was, or, for a POST
    that established the session, with the transport registered under its
    generator's id; the events added are the dispatch and the callback's log
    entry. *)
Lemma handleRequest_effect (transport : Transport) (method : Method)
    (body : option Json) (st : RouteState) :
  constructed (snd (handleRequest transport method body st)) = constructed st
  /\ connectedTransports (snd (handleRequest transport method body st))
     = connectedTransports st
  /\ (exists added,
        history (snd (handleRequest transport method body st))
        = history st ++ Dispatched (identity transport) method :: added
        /\ Forall Spec.bookkeeping added
        /\ forall id sid ctx, ContextCreated id sid ctx ∉ added)
  /\ (transports (snd (handleRequest transport method body st)) = transports st
      /\ (method = POST ->
          sessionIdGenerator transport <> None ->
          onsessioninitialized transport = true ->
          session_initialized (history st) transport body = false)
      \/ exists sid,
           method = POST
           /\ sessionIdGenerator transport = Some sid
           /\ onsessioninitialized transport = true
           /\ session_initialized (history st) transport body = true
           /\ transports (snd (handleRequest transport method body st))
              = <[sid := transport]> (transports st)).
Proof.
  unfold handleRequest. cbn [snd].
  assert (forall st0 : RouteState,
             st0 = record_event (Dispatched (identity transport) method) st ->
             constructed st0 = constructed st
             /\ connectedTransports st0 = connectedTransports st
             /\ (exists added,
                    history st0 = history st ++ Dispatched (identity transport) method :: added
                    /\ Forall Spec.bookkeeping added
                    /\ forall id sid ctx, ContextCreated id sid ctx ∉ added)
             /\ transports st0 = transports st) as Hplain.
  { intros st0 ->. repeat split. exists []. repeat split; [constructor | set_solver]. }
  destruct method;
    try (destruct (Hplain _ eq_refl) as (? & ? & ? & ?);
         repeat split; try done; left; split; [done | discriminate]).
  destruct (sessionIdGenerator transport) as [sid|] eqn:Hsid;
    [|destruct (Hplain _ eq_refl) as (? & ? & ? & ?);
      repeat split; try done; left; split; [done | intros _ Hnone; by destruct Hnone]].
  destruct (onsessioninitialized transport) eqn:Hcallback;
    [|destruct (Hplain _ eq_refl) as (? & ? & ? & ?);
      repeat split; try done; left; split; [done | discriminate]].
  destruct (session_initialized (history st) transport body) eqn:Hinit;
    [|destruct (Hplain _ eq_refl) as (? & ? & ? & ?);
      repeat split; try done; left; split; done].
  unfold session_callback, log. simpl.
  repeat split.
  - eexists [_]. rewrite <- app_assoc. repeat split.
    + repeat constructor.
    + intros id s ctx [=]%list_elem_of_singleton.
  - right. by exists sid.
Qed.

Lemma ensureConnected_history (transport : Transport) (st : RouteState) :
  history (snd (ensureConnected transport st)) = history st
  \/ history (snd (ensureConnected transport st))
     = history st ++ [Connected (identity transport)].
Proof.
  unfold ensureConnected. case_decide; [by left|].
  destruct (server_connect (history st) transport); by right.
Qed.

Lemma serve_plain_effect (what : string) (transport : Transport) (method : Method)
    (body : option Json) (st : RouteState) :
  constructed (snd (Spec.serve_plain what transport method body st)) = constructed st
  /\ (exists added,
        history (snd (Spec.serve_plain what transport method body st)) = history st ++ added
        /\ forall id sid ctx, ContextCreated id sid ctx ∉ added)
  /\ (transports (snd (Spec.serve_plain what transport method body st)) = transports st
      \/ exists sid,
           method = POST
           /\ sessionIdGenerator transport = Some sid
           /\ onsessioninitialized transport = true
           /\ transports (snd (Spec.serve_plain what transport method body st))
              = <[sid := transport]> (transports st)).
Proof.
  unfold Spec.serve_plain, or_internal_error, bind.
  pose proof (ensureConnected_constructed transport st) as Hconstructed.
  pose proof (ensureConnected_registry transport st) as Hregistry.
  pose proof (ensureConnected_history transport st) as Hhistory.
  destruct (ensureConnected transport st) as [[[]|e] st1]; cbn [fst snd] in *.
  - destruct (handleRequest_effect transport method body st1)
      as (Hc & _ & (added & Hh & _ & Hnone) & Hr).
    assert (exists added',
               history (snd (handleRequest transport method body st1)) = history st ++ added'
               /\ forall id sid ctx, ContextCreated id sid ctx ∉ added') as (added' & Hh' & Hnone').
    { destruct Hhistory as [Hsame|Hconnected]; rewrite Hh.
      - rewrite Hsame. eexists. split; [reflexivity|].
        intros id sid ctx [[=]|Hin]%elem_of_cons. by eapply Hnone.
      - rewrite Hconnected, <- app_assoc. eexists. split; [reflexivity|].
        intros id sid ctx [[=]|[[=]|Hin]%elem_of_cons]%elem_of_cons. by eapply Hnone. }
    assert (transports (snd (handleRequest transport method body st1)) = transports st
            \/ exists sid,
                 method = POST
                 /\ sessionIdGenerator transport = Some sid
                 /\ onsessioninitialized transport = true
                 /\ transports (snd (handleRequest transport method body st1))
                    = <[sid := transport]> (transports st)) as Hr'.
    { destruct Hr as [[Hsame _]|(sid & ? & ? & ? & _ & Hinserted)].
      - left. congruence.
      - right. exists sid. repeat split; try done. congruence. }
    destruct (handleRequest transport method body st1) as [[res|e] st2];
      cbn [fst snd ret] in *.
    + split; [congruence|]. split; [by exists added' | exact Hr'].
    + split; [simpl; congruence|]. split; [|exact Hr'].
      exists (added' ++ [Logged {| level := error; scope := "mcp"; text := what;
                                   detail := Some e |}]).
      simpl. rewrite Hh', <- app_assoc. split; [reflexivity|].
      intros id sid ctx [Hin|[=]%list_elem_of_singleton]%elem_of_app. by eapply Hnone'.
  - split; [simpl; congruence|]. split; [|left; simpl; congruence].
    destruct Hhistory as [Hsame|Hconnected]; simpl.
    + rewrite Hsame. eexists [_]. split; [reflexivity|].
      intros id sid ctx [=]%list_elem_of_singleton.
    + rewrite Hconnected, <- app_assoc. eexists. split; [reflexivity|].
      intros id sid ctx [[=]|[=]%list_elem_of_singleton]%elem_of_cons.
Qed.

(** When connecting returns and the SDK establishes the session while it
    handles the request, a POST on a transport with generator and callback
    registers, connects and reaches it. *)
Lemma serve_plain_registers (what : string) (transport : Transport)
    (body : option Json) (sid : string) (st connected : RouteState) :
  ensureConnected transport st = (Returns tt, connected) ->
  session_initialized (history connected) transport body = true ->
  sessionIdGenerator transport = Some sid ->
  onsessioninitialized transport = true ->
  transports (snd (Spec.serve_plain what transport POST body st))
  = <[sid := transport]> (transports st)
  /\ identity transport ∈ connectedTransports (snd (Spec.serve_plain what transport POST body st))
  /\ Dispatched (identity transport) POST
     ∈ history (snd (Spec.serve_plain what transport POST body st)).
Proof.
  intros Hconnect Hestablishes Hsid Hcallback.
  unfold Spec.serve_plain, or_internal_error, bind.
  pose proof (ensureConnected_registry transport st) as Hregistry.
  pose proof (ensureConnected_returns transport st) as Hreturned.
  rewrite Hconnect in *. cbn [fst snd] in *.
  specialize (Hreturned tt eq_refl).
  destruct (handleRequest_effect transport POST body connected)
    as (_ & Hkept & (added & Hh & _) & Hr).
  destruct Hr as [[_ Hnot]|(sid' & _ & Hsid' & _ & _ & Hregistered)].
  { rewrite Hestablishes in Hnot. discriminate Hnot; [done | by rewrite Hsid | done]. }
  assert (sid' = sid) as -> by congruence.
  assert (Dispatched (identity transport) POST
          ∈ history (snd (handleRequest transport POST body connected))) as Hin.
  { rewrite Hh. apply elem_of_app. right. apply elem_of_cons. by left. }
  destruct (handleRequest transport POST body connected) as [[res|e] st2];
    cbn [fst snd ret] in *.
  - repeat split; [congruence | congruence | done].
  - simpl. repeat split; [congruence | congruence | apply elem_of_app; by left].
Qed.

End RouteEffects.

Section PostFacts.
Import McpRoutes.
Context {sdk : Sdk}.

Lemma app_post_serves (c : Request) (randomUUID : string) (st : RouteState) :
  app_post c randomUUID st
  = Spec.serve_plain "Error handling POST request" (Spec.post_transport c randomUUID st)
      POST (json c) (Spec.post_prepared c randomUUID st).
Proof. apply app_post_prepared. Qed.

Lemma post_prepared_registry (c : Request) (randomUUID : string) (st : RouteState) :
  transports (Spec.post_prepared c randomUUID st) = transports st.
Proof.
  unfold Spec.post_prepared.
  by destruct (request_id (json c)), (Spec.resolved_transport c st).
Qed.

Lemma post_prepared_constructed (c : Request) (randomUUID : string) (st : RouteState) :
  constructed (Spec.post_prepared c randomUUID st)
  = match Spec.resolved_transport c st with
    | Some _ => constructed st
    | None => S (constructed st)
    end.
Proof.
  unfold Spec.post_prepared.
  by destruct (request_id (json c)), (Spec.resolved_transport c st).
Qed.

Lemma resolved_transport_registered (c : Request) (st : RouteState) (found : Transport) :
  Spec.resolved_transport c st = Some found ->
  Js.truthy_opt (Mcp_Session_Id c) = true
  /\ transports st !! Js.nullish (Mcp_Session_Id c) "" = Some found.
Proof.
  unfold Spec.resolved_transport. by destruct (Js.truthy_opt (Mcp_Session_Id c)).
Qed.

(** X22.  A POST never takes a session away nor binds it to another
    transport: when every registered transport is registered under its own
    generator's id, and the generated id is new when the request has no
    session header, every session id registered before the request resolves
    to the same transport after it. *)
Theorem post_keeps_sessions (c : Request) (randomUUID : string) (st : RouteState) :
  Spec.own_sessions st ->
  (Js.truthy_opt (Mcp_Session_Id c) = false -> transports st !! randomUUID = None) ->
  forall sid transport,
    transports st !! sid = Some transport ->
    transports (snd (app_post c randomUUID st)) !! sid = Some transport.
Proof.
  intros Hown Hnew sid transport Hregistered.
  rewrite app_post_serves.
  destruct (serve_plain_effect "Error handling POST request"
              (Spec.post_transport c randomUUID st) POST (json c)
              (Spec.post_prepared c randomUUID st))
    as (_ & _ & [Hsame|(planned & _ & Hplanned & _ & Hinserted)]).
  - by rewrite Hsame, post_prepared_registry.
  - rewrite Hinserted, post_prepared_registry.
    unfold Spec.post_transport in *.
    destruct (Spec.resolved_transport c st) as [found|] eqn:Hfound.
    + apply resolved_transport_registered in Hfound as [_ Hfound].
      destruct (Hown _ _ Hfound) as [Hgenerator _].
      assert (planned = Js.nullish (Mcp_Session_Id c) "") as -> by congruence.
      by rewrite insert_id.
    + rewrite lookup_insert_ne; [done|]. intros <-.
      simpl in Hplanned. unfold Spec.post_planned, Spec.planned_session in Hplanned.
      destruct (is_initialize (json c)); [|discriminate].
      injection Hplanned as Hplanned. unfold Spec.resolved_transport in Hfound.
      destruct (Mcp_Session_Id c) as [header|]; simpl in *.
      * destruct (Js.truthy header); [congruence|].
        rewrite <- Hplanned, (Hnew eq_refl) in Hregistered. discriminate.
      * rewrite <- Hplanned, (Hnew eq_refl) in Hregistered. discriminate.
Qed.

(** X23.  An initialize POST whose session header resolves to no transport
    constructs one; when connecting that transport returns and the SDK
    establishes the session while it handles this request, the transport is
    registered under the planned session id, the header's if it has one and
    the generated id otherwise, every other entry is left alone, the
    transport is connected and the request dispatched to it. *)
Theorem initialize_registers_session (c : Request) (randomUUID : string)
    (st connected : RouteState) :
  is_initialize (json c) = true ->
  Spec.resolved_transport c st = None ->
  ensureConnected (Spec.post_transport c randomUUID st) (Spec.post_prepared c randomUUID st)
  = (Returns tt, connected) ->
  session_initialized (history connected) (Spec.post_transport c randomUUID st) (json c) = true ->
  transports (snd (app_post c randomUUID st))
  = <[Spec.planned_session c randomUUID :=
        {| identity := constructed st;
           sessionIdGenerator := Some (Spec.planned_session c randomUUID);
           onsessioninitialized := true |}]> (transports st)
  /\ constructed (snd (app_post c randomUUID st)) = S (constructed st)
  /\ constructed st ∈ connectedTransports (snd (app_post c randomUUID st))
  /\ Dispatched (constructed st) POST ∈ history (snd (app_post c randomUUID st)).
Proof.
  intros Hinitialize Hunresolved Hconnects Hestablishes.
  rewrite app_post_serves.
  assert (Spec.post_transport c randomUUID st
          = {| identity := constructed st;
               sessionIdGenerator := Some (Spec.planned_session c randomUUID);
               onsessioninitialized := true |}) as Htransport.
  { unfold Spec.post_transport, Spec.post_planned. by rewrite Hunresolved, Hinitialize. }
  destruct (serve_plain_registers "Error handling POST request"
              (Spec.post_transport c randomUUID st) (json c)
              (Spec.planned_session c randomUUID) (Spec.post_prepared c randomUUID st)
              connected Hconnects Hestablishes)
    as (Hregistry & Hconnected & Hdispatched); try (by rewrite Htransport).
  destruct (serve_plain_effect "Error handling POST request"
              (Spec.post_transport c randomUUID st) POST (json c)
              (Spec.post_prepared c randomUUID st)) as (Hconstructed & _).
  rewrite Hregistry, Hconstructed, post_prepared_registry, post_prepared_constructed,
    Hunresolved.
  rewrite Htransport in *. done.
Qed.

(** X24.  A POST that is no initialize request and whose session header
    resolves to no transport constructs a transport of its own and registers
    nothing, with every SDK: the registry is left as it was. *)
Theorem stateless_post_registers_nothing (c : Request) (randomUUID : string) (st : RouteState) :
  is_initialize (json c) = false ->
  Spec.resolved_transport c st = None ->
  transports (snd (app_post c randomUUID st)) = transports st
  /\ constructed (snd (app_post c randomUUID st)) = S (constructed st).
Proof.
  intros Hplain Hunresolved. rewrite app_post_serves.
  destruct (serve_plain_effect "Error handling POST request"
              (Spec.post_transport c randomUUID st) POST (json c)
              (Spec.post_prepared c randomUUID st))
    as (Hconstructed & _ & Hregistry).
  rewrite Hconstructed, post_prepared_constructed, Hunresolved. split; [|reflexivity].
  destruct Hregistry as [Hsame|(planned & _ & Hplanned & _)].
  - by rewrite Hsame, post_prepared_registry.
  - unfold Spec.post_transport, Spec.post_planned in Hplanned.
    rewrite Hunresolved, Hplain in Hplanned. discriminate.
Qed.

(** X25.  A POST adds a context entry exactly when the body is an object
    with a truthy id: an entry for that id and no other, with the auth
    context the gate attached and with the planned session id for an
    initialize request and no session id for every other request, whatever
    its session header. *)
Theorem context_is_created_for_truthy_ids (c : Request) (randomUUID : string) (st : RouteState) :
  exists added,
    history (snd (app_post c randomUUID st)) = history st ++ added
    /\ forall id sid context,
         ContextCreated id sid context ∈ added
         <-> request_id (json c) = Some id
             /\ sid = (if is_initialize (json c)
                       then Some (Spec.planned_session c randomUUID) else None)
             /\ context = authContext c.
Proof.
  rewrite app_post_serves.
  destruct (serve_plain_effect "Error handling POST request"
              (Spec.post_transport c randomUUID st) POST (json c)
              (Spec.post_prepared c randomUUID st))
    as (_ & (added & Hadded & Hnone) & _).
  rewrite Hadded. clear Hadded.
  unfold Spec.post_prepared.
  assert (forall (chosen : RouteState) (entry : LogEntry),
             history chosen = history st ++ [Logged entry] ->
             exists added0,
               history match request_id (json c) with
                       | Some id =>
                           record_event
                             (ContextCreated id (Spec.post_planned c randomUUID) (authContext c))
                             chosen
                       | None => chosen
                       end ++ added = history st ++ added0
               /\ forall id sid context,
                    ContextCreated id sid context ∈ added0
                    <-> request_id (json c) = Some id
                        /\ sid = Spec.post_planned c randomUUID
                        /\ context = authContext c) as Hchosen.
  { intros chosen entry Hchosen. destruct (request_id (json c)) as [id0|]; simpl.
    - rewrite Hchosen, <- !app_assoc. eexists. split; [reflexivity|].
      intros id sid context. simpl. rewrite !elem_of_cons. split.
      + intros [[=]|[[= -> -> ->]|Hin]]; [done | by apply Hnone in Hin].
      + intros ([= ->] & -> & ->). right. by left.
    - rewrite Hchosen, <- !app_assoc. eexists. split; [reflexivity|].
      intros id sid context. simpl. rewrite !elem_of_cons. split.
      + intros [[=]|Hin]. by apply Hnone in Hin.
      + by intros ([=] & _). }
  unfold Spec.post_planned in Hchosen.
  destruct (Spec.resolved_transport c st); eapply Hchosen; reflexivity.
Qed.

End PostFacts.

Section GetDeleteFacts.
Import McpRoutes.
Context {sdk : Sdk}.

Lemma serve_plain_answer (what : string) (transport : Transport) (method : Method)
    (body : option Json) (st : RouteState) :
  (exists res, fst (Spec.serve_plain what transport method body st) = FetchResponse res)
  \/ fst (Spec.serve_plain what transport method body st)
     = JsonResponse 500 {| code := -32603; message := "Internal server error" |}.
Proof.
  unfold Spec.serve_plain, or_internal_error, bind.
  destruct (ensureConnected transport st) as [[[]|e] st1]; [|by right].
  destruct (handleRequest transport method body st1) as [[res|e] st2]; [|by right].
  left. by exists res.
Qed.

Lemma app_get_serves (c : Request) (st : RouteState) (transport : Transport) :
  Spec.resolved_transport c st = Some transport ->
  app_get c st = Spec.serve_plain "Error handling GET request" transport GET None st.
Proof.
  intros [Hheader Hfound]%resolved_transport_registered.
  unfold app_get, Spec.serve_plain, or_internal_error. by rewrite Hheader, Hfound.
Qed.

(** The DELETE handler on a registered session: its answer, and the state
    it leaves, by how far it got. *)
Lemma app_delete_registered (c : Request) (st : RouteState) (transport : Transport) :
  Spec.resolved_transport c st = Some transport ->
  ((exists res, fst (app_delete c st) = FetchResponse res)
   /\ transports (snd (app_delete c st))
      = delete (Js.nullish (Mcp_Session_Id c) "") (transports st))
  \/ (fst (app_delete c st)
      = JsonResponse 500 {| code := -32603; message := "Internal server error" |}
      /\ transports (snd (app_delete c st)) = transports st
      /\ forall i, Closed i ∈ history (snd (app_delete c st)) -> Closed i ∈ history st).
Proof.
  intros [Hheader Hfound]%resolved_transport_registered.
  unfold app_delete, or_internal_error, bind. rewrite Hheader, Hfound. cbn [negb].
  pose proof (ensureConnected_registry transport st) as Hregistry.
  pose proof (ensureConnected_history transport st) as Hhistory.
  destruct (ensureConnected transport st) as [[[]|e] st1]; cbn [fst snd] in *.
  - unfold handleRequest. cbn [fst snd].
    destruct (transport_handleRequest (history st1) transport DELETE None) as [res|e].
    + left. split; [by exists res|]. simpl. by rewrite Hregistry.
    + right. split; [reflexivity|]. split; [simpl; congruence|].
      intros i. simpl. rewrite !elem_of_app, !list_elem_of_singleton.
      intros [[Hin|[=]]|[=]].
      destruct Hhistory as [Hsame|Hconnected]; [congruence|].
      rewrite Hconnected in Hin. apply elem_of_app in Hin as [|[=]%list_elem_of_singleton].
      done.
  - right. split; [reflexivity|]. split; [simpl; congruence|].
    intros i. simpl. rewrite elem_of_app, list_elem_of_singleton. intros [Hin|[=]].
    destruct Hhistory as [Hsame|Hconnected]; [congruence|].
    rewrite Hconnected in Hin. apply elem_of_app in Hin as [|[=]%list_elem_of_singleton].
    done.
Qed.

(** X26.  The answers of GET and DELETE tell the cases apart: 405 with the
    error -32000 is answered exactly when the request has no session header
    (absent or empty), and 404 "Invalid session" exactly when it has one that
    is not registered. *)
Theorem get_and_delete_answers_tell_cases (c : Request) (st : RouteState) :
  (fst (app_get c st)
   = JsonResponse 405 {| code := -32000; message := "Method not allowed - no session" |}
   <-> Js.truthy_opt (Mcp_Session_Id c) = false)
  /\ (fst (app_get c st) = TextResponse 404 "Invalid session"
      <-> Js.truthy_opt (Mcp_Session_Id c) = true /\ Spec.resolved_transport c st = None)
  /\ (fst (app_delete c st)
      = JsonResponse 405 {| code := -32000; message := "Method not allowed - no session" |}
      <-> Js.truthy_opt (Mcp_Session_Id c) = false)
  /\ (fst (app_delete c st) = TextResponse 404 "Invalid session"
      <-> Js.truthy_opt (Mcp_Session_Id c) = true /\ Spec.resolved_transport c st = None).
Proof.
  destruct (Js.truthy_opt (Mcp_Session_Id c)) eqn:Hheader.
  - destruct (Spec.resolved_transport c st) as [transport|] eqn:Hfound.
    + rewrite (app_get_serves c st transport Hfound).
      destruct (serve_plain_answer "Error handling GET request" transport GET None st)
        as [[res ->]| ->];
        destruct (app_delete_registered c st transport Hfound)
          as [[[res' ->] _]|[-> _]];
        repeat split; try discriminate; intros [_ [=]].
    + unfold Spec.resolved_transport in Hfound. rewrite Hheader in Hfound.
      unfold app_get, app_delete, or_internal_error. rewrite Hheader, Hfound. cbn.
      repeat split; try discriminate; done.
  - unfold app_get, app_delete. rewrite Hheader. cbn.
    repeat split; try done; intros [[=] _].
Qed.

(** X27.  A GET changes neither the registry nor the number of transports;
    a DELETE constructs no transport and, unless the transport serves it,
    leaves the registry as it was and closes no transport. *)
Theorem get_and_failed_delete_keep_registry (c : Request) (st : RouteState) :
  transports (snd (app_get c st)) = transports st
  /\ constructed (snd (app_get c st)) = constructed st
  /\ ((exists res, fst (app_delete c st) = FetchResponse res)
      \/ (transports (snd (app_delete c st)) = transports st
          /\ forall i, Closed i ∈ history (snd (app_delete c st)) -> Closed i ∈ history st)).
Proof.
  split; [|split].
  - destruct (Spec.resolved_transport c st) as [transport|] eqn:Hfound.
    + rewrite (app_get_serves c st transport Hfound).
      destruct (serve_plain_effect "Error handling GET request" transport GET None st)
        as (_ & _ & [Hsame|(sid & [=] & _)]). exact Hsame.
    + unfold Spec.resolved_transport in Hfound. unfold app_get, or_internal_error.
      destruct (Js.truthy_opt (Mcp_Session_Id c)); cbn; [by rewrite Hfound | done].
  - destruct (Spec.resolved_transport c st) as [transport|] eqn:Hfound.
    + rewrite (app_get_serves c st transport Hfound).
      by destruct (serve_plain_effect "Error handling GET request" transport GET None st).
    + unfold Spec.resolved_transport in Hfound. unfold app_get, or_internal_error.
      destruct (Js.truthy_opt (Mcp_Session_Id c)); cbn; [by rewrite Hfound | done].
  - destruct (Spec.resolved_transport c st) as [transport|] eqn:Hfound.
    + destruct (app_delete_registered c st transport Hfound) as [[Hserved _]|(_ & ? & ?)];
        [by left | by right].
    + right. unfold Spec.resolved_transport in Hfound. unfold app_delete, or_internal_error.
      destruct (Js.truthy_opt (Mcp_Session_Id c)); cbn; [by rewrite Hfound | done].
Qed.

End GetDeleteFacts.

(** ** The MCP routes: requests with and without a session *)

Section RouteSessions.
Import McpRoutes.
Context {sdk : Sdk}.

(** Connecting, dispatching and answering on a transport that is not yet
    connected, by what [server.connect] does. *)
Lemma serve_plain_fresh (what : string) (transport : Transport) (method : Method)
    (body : option Json) (st : RouteState) :
  identity transport ∉ connectedTransports st ->
  (forall e,
     server_connect (history st) transport = Throws e ->
     fst (Spec.serve_plain what transport method body st)
     = JsonResponse 500 {| code := -32603; message := "Internal server error" |}
     /\ history (snd (Spec.serve_plain what transport method body st))
        = history st
          ++ [Connected (identity transport);
              Logged {| level := error; scope := "mcp"; text := what; detail := Some e |}])
  /\ (server_connect (history st) transport = Returns tt ->
      fst (Spec.serve_plain what transport method body st)
      = match transport_handleRequest (history st ++ [Connected (identity transport)])
                transport method body with
        | Returns res => FetchResponse res
        | Throws _ => JsonResponse 500 {| code := -32603; message := "Internal server error" |}
        end
      /\ exists added,
           history (snd (Spec.serve_plain what transport method body st))
           = history st
             ++ Connected (identity transport) :: Dispatched (identity transport) method :: added).
Proof.
  intros Hfresh. unfold Spec.serve_plain, or_internal_error, bind, ensureConnected.
  rewrite decide_False by done. split.
  - intros e ->. cbn [fst snd]. split; [reflexivity|].
    simpl. by rewrite <- app_assoc.
  - intros ->.
    set (st1 := mark_connected transport (record_event (Connected (identity transport)) st)).
    destruct (handleRequest_effect transport method body st1)
      as (_ & _ & (added & Hhistory & _) & _).
    assert (fst (handleRequest transport method body st1)
            = transport_handleRequest (history st ++ [Connected (identity transport)])
                transport method body) as Hanswer by reflexivity.
    assert (history st1 = history st ++ [Connected (identity transport)]) as Hconnected
      by reflexivity.
    rewrite Hconnected, <- app_assoc in Hhistory. cbn [app] in Hhistory.
    destruct (handleRequest transport method body st1) as [[res|e] st2];
      cbn [fst snd ret] in *; rewrite <- Hanswer.
    + split; [reflexivity|]. by exists added.
    + split; [reflexivity|]. eexists. simpl. rewrite Hhistory, <- app_assoc. reflexivity.
Qed.

(** C4, as the code has it.  A GET or DELETE request without a session id
    header (absent or empty) is answered 405 with the JSON-RPC error -32000
    "Method not allowed - no session", and a GET or DELETE request whose
    session id is not registered is answered 404 "Invalid session"; both
    leave the state as it is.  A POST request whose session id is missing or
    not registered is not rejected: the handler constructs a new transport
    and, a new transport not being in the connected set, calls
    [server.connect] on it; when that returns, the request is dispatched to
    the transport and the answer is what the transport wrote, or the 500
    internal error when [handleRequest] throws; when [server.connect]
    throws, the request is not dispatched and the answer is the 500 internal
    error. *)
Theorem get_and_delete_require_session (c : Request) (st : RouteState) :
  (Mcp_Session_Id c = None \/ Mcp_Session_Id c = Some "" ->
   app_get c st
   = (JsonResponse 405 {| code := -32000; message := "Method not allowed - no session" |}, st)
   /\ app_delete c st
      = (JsonResponse 405 {| code := -32000; message := "Method not allowed - no session" |}, st))
  /\ (forall sid,
      Mcp_Session_Id c = Some sid -> sid <> "" -> transports st !! sid = None ->
      app_get c st = (TextResponse 404 "Invalid session", st)
      /\ app_delete c st = (TextResponse 404 "Invalid session", st))
  /\ (forall randomUUID,
      Spec.resolved_transport c st = None ->
      constructed st ∉ connectedTransports st ->
      identity (Spec.post_transport c randomUUID st) = constructed st
      /\ constructed (snd (app_post c randomUUID st)) = S (constructed st)
      /\ (forall e,
            server_connect (history (Spec.post_prepared c randomUUID st))
              (Spec.post_transport c randomUUID st) = Throws e ->
            fst (app_post c randomUUID st)
            = JsonResponse 500 {| code := -32603; message := "Internal server error" |}
            /\ history (snd (app_post c randomUUID st))
               = history (Spec.post_prepared c randomUUID st)
                 ++ [Connected (constructed st);
                     Logged {| level := error; scope := "mcp";
                               text := "Error handling POST request"; detail := Some e |}])
      /\ (server_connect (history (Spec.post_prepared c randomUUID st))
            (Spec.post_transport c randomUUID st) = Returns tt ->
          fst (app_post c randomUUID st)
          = match transport_handleRequest
                    (history (Spec.post_prepared c randomUUID st)
                     ++ [Connected (constructed st)])
                    (Spec.post_transport c randomUUID st) POST (json c) with
            | Returns res => FetchResponse res
            | Throws _ =>
                JsonResponse 500 {| code := -32603; message := "Internal server error" |}
            end
          /\ exists added,
               history (snd (app_post c randomUUID st))
               = history (Spec.post_prepared c randomUUID st)
                 ++ Connected (constructed st) :: Dispatched (constructed st) POST :: added)).
Proof.
  split; [|split].
  - intros Hnone%truthy_opt_false.
    split; [by apply get_without_session | by apply delete_without_session].
  - intros sid Hsid Hfilled Hunknown.
    split; [by eapply get_unknown_session | by eapply delete_unknown_session].
  - intros randomUUID Hunresolved Hnew.
    assert (identity (Spec.post_transport c randomUUID st) = constructed st) as Hidentity.
    { unfold Spec.post_transport. by rewrite Hunresolved. }
    assert (connectedTransports (Spec.post_prepared c randomUUID st) = connectedTransports st)
      as Hset.
    { unfold Spec.post_prepared. rewrite Hunresolved. by destruct (request_id (json c)). }
    split; [exact Hidentity|]. split.
    { rewrite app_post_serves.
      destruct (serve_plain_effect "Error handling POST request"
                  (Spec.post_transport c randomUUID st) POST (json c)
                  (Spec.post_prepared c randomUUID st)) as (Hconstructed & _).
      by rewrite Hconstructed, post_prepared_constructed, Hunresolved. }
    rewrite app_post_serves, <- Hidentity.
    apply serve_plain_fresh. by rewrite Hset, Hidentity.
Qed.


End RouteSessions.

(** ** The routes' further properties on the fixtures *)

Section RouteInvariantExamples.
Import McpRoutes.
Existing Instance example_sdk.

Lemma one_session_is_own : Spec.own_sessions one_session.
Proof.
  intros sid transport Hfound. unfold one_session in Hfound. cbn [transports] in Hfound.
  apply lookup_singleton_Some in Hfound as [<- <-]. by split.
Qed.

Lemma never_reconnected_witness :
  0 ∈ connectedTransports (snd (app_get (route_request (Some "session-1") None)
                                  connected_session))
  /\ connect_calls 0 (history (snd (app_get (route_request (Some "session-1") None)
                                      connected_session)))
     = connect_calls 0 (history connected_session).
Proof.
  apply (connected_transport_is_never_reconnected connected_session
           (snd (app_get (route_request (Some "session-1") None) connected_session)) 0).
  - apply rtc_once. apply Spec.serves_get.
  - simpl. by apply elem_of_singleton.
Defined.

Lemma connect_at_most_once_witness :
  Spec.connected_once
    (snd (app_get (route_request (Some "uuid-1") None)
            (snd (app_post (route_request None (Some initialize_body)) "uuid-1" empty_routes))))
  /\ forall i,
       connect_calls i
         (history
            (snd (app_get (route_request (Some "uuid-1") None)
                    (snd (app_post (route_request None (Some initialize_body)) "uuid-1"
                            empty_routes))))) <= 1.
Proof.
  apply (connect_is_called_at_most_once empty_routes).
  - reflexivity.
  - reflexivity.
  - split; reflexivity.
  - eapply rtc_l; [apply Spec.serves_post|]. apply rtc_once. apply Spec.serves_get.
Defined.

Example two_requests_connect_once_example :
  history
    (snd (app_get (route_request (Some "uuid-1") None)
            (snd (app_post (route_request None (Some initialize_body)) "uuid-1" empty_routes))))
  = [Logged {| level := info; scope := "mcp_request"; text := "Processing MCP request";
               detail := Some "uuid-1" |};
     ContextCreated (JNumber 1) (Some "uuid-1") None;
     Connected 0;
     Dispatched 0 POST;
     Logged {| level := info; scope := "mcp"; text := "Session initialized";
               detail := Some "uuid-1" |};
     Dispatched 0 GET].
Proof. reflexivity. Qed.

Lemma dispatched_is_connected_witness :
  0 ∈ connectedTransports
        (snd (app_post (route_request None (Some tools_list_body)) "uuid-1" empty_routes))
  /\ 1 <= connect_calls 0
            (history (snd (app_post (route_request None (Some tools_list_body)) "uuid-1"
                             empty_routes))).
Proof.
  apply (requests_reach_connected_transports_only empty_routes
           (snd (app_post (route_request None (Some tools_list_body)) "uuid-1" empty_routes)))
    with (method := POST).
  - split; reflexivity.
  - apply rtc_once. apply Spec.serves_post.
  - apply list_elem_of_In. vm_compute. tauto.
Defined.

Lemma own_sessions_witness :
  Spec.own_sessions
    (snd (app_post (route_request (Some "session-2") (Some initialize_body)) "uuid-1"
            one_session)).
Proof.
  apply (registry_holds_own_sessions one_session).
  - exact one_session_is_own.
  - apply rtc_once. apply Spec.serves_post.
Defined.

Lemma post_keeps_sessions_witness :
  transports (snd (app_post (route_request None (Some initialize_body)) "uuid-1" one_session))
    !! "session-1"
  = Some example_transport.
Proof.
  apply (post_keeps_sessions (route_request None (Some initialize_body)) "uuid-1" one_session).
  - exact one_session_is_own.
  - reflexivity.
  - reflexivity.
Defined.

(** A generated id that is already registered takes the session over: the
    id then resolves to the new transport. *)
Example reused_generated_id_example :
  transports (snd (app_post (route_request None (Some initialize_body)) "session-1"
                     one_session)) !! "session-1"
  = Some {| identity := 1; sessionIdGenerator := Some "session-1";
            onsessioninitialized := true |}.
Proof. reflexivity. Qed.


(** The DELETE of the fixture is served: the session is gone and a GET with
    its id is answered 404. *)
Example served_delete_example :
  fst (app_delete (route_request (Some "session-1") None) one_session)
  = FetchResponse (sdk := example_sdk) 200%N
  /\ transports (snd (app_delete (route_request (Some "session-1") None) one_session))
       !! "session-1" = None
  /\ history (snd (app_delete (route_request (Some "session-1") None) one_session))
     = [Connected 0; Dispatched 0 DELETE; Closed 0]
  /\ fst (app_get (route_request (Some "session-1") None)
            (snd (app_delete (route_request (Some "session-1") None) one_session)))
     = TextResponse 404 "Invalid session".
Proof. repeat split; reflexivity. Qed.

(** A POST without a session whose [server.connect] throws is answered 500
    and not dispatched. *)
Example post_connect_failure_example :
  app_post (sdk := flaky_sdk) (route_request None (Some tools_list_body)) "uuid-1" empty_routes
  = (JsonResponse 500 {| code := -32603; message := "Internal server error" |},
     {| transports := ∅;
        connectedTransports := ∅;
        constructed := 1;
        history :=
          [Logged {| level := info; scope := "mcp_request"; text := "Processing MCP request";
                     detail := None |};
           ContextCreated (JNumber 1) None None;
           Connected 0;
           Logged {| level := error; scope := "mcp"; text := "Error handling POST request";
                     detail := Some "connection refused" |}] |}).
Proof. reflexivity. Qed.

Lemma stateless_post_witness :
  transports (snd (app_post (route_request (Some "session-9") (Some tools_list_body))
                     "uuid-1" one_session))
  = transports one_session
  /\ constructed (snd (app_post (route_request (Some "session-9") (Some tools_list_body))
                         "uuid-1" one_session))
     = S (constructed one_session).
Proof.
  apply (stateless_post_registers_nothing
           (route_request (Some "session-9") (Some tools_list_body)) "uuid-1" one_session);
    reflexivity.
Defined.

(** A request with id 0 gets no context entry. *)
Example zero_id_gets_no_context_example :
  history (snd (app_post
    (route_request (Some "session-1")
       (Some (JObject [("id", JNumber 0); ("method", JString "tools/list")])))
    "uuid-1" connected_session))
  = [Connected 0;
     Logged {| level := info; scope := "mcp_request"; text := "Processing MCP request";
               detail := Some "session-1" |};
     Dispatched 0 POST].
Proof. reflexivity. Qed.

End RouteInvariantExamples.

Section InitializeExamples.
Import McpRoutes.
Existing Instance initializing_sdk.

Lemma initialize_registers_witness :
  transports (snd (app_post (route_request (Some "session-2") (Some initialize_body))
                     "uuid-1" one_session))
  = <[Spec.planned_session (route_request (Some "session-2") (Some initialize_body)) "uuid-1"
      := {| identity := constructed one_session;
            sessionIdGenerator :=
              Some (Spec.planned_session
                      (route_request (Some "session-2") (Some initialize_body)) "uuid-1");
            onsessioninitialized := true |}]> (transports one_session)
  /\ constructed (snd (app_post (route_request (Some "session-2") (Some initialize_body))
                         "uuid-1" one_session))
     = S (constructed one_session)
  /\ constructed one_session
     ∈ connectedTransports
         (snd (app_post (route_request (Some "session-2") (Some initialize_body))
                 "uuid-1" one_session))
  /\ Dispatched (constructed one_session) POST
     ∈ history (snd (app_post (route_request (Some "session-2") (Some initialize_body))
                       "uuid-1" one_session)).
Proof.
  apply (initialize_registers_session
           (route_request (Some "session-2") (Some initialize_body)) "uuid-1" one_session
           (snd (ensureConnected
                   (Spec.post_transport
                      (route_request (Some "session-2") (Some initialize_body)) "uuid-1"
                      one_session)
                   (Spec.post_prepared
                      (route_request (Some "session-2") (Some initialize_body)) "uuid-1"
                      one_session))));
    reflexivity.
Defined.

(** A second initialize request on the session is refused by this SDK and
    registers nothing anew. *)
Example second_initialize_example :
  fst (app_post (route_request (Some "session-2") (Some initialize_body)) "uuid-2"
         (snd (app_post (route_request (Some "session-2") (Some initialize_body))
                 "uuid-1" one_session)))
  = FetchResponse (sdk := initializing_sdk) 400%N
  /\ transports
       (snd (app_post (route_request (Some "session-2") (Some initialize_body)) "uuid-2"
               (snd (app_post (route_request (Some "session-2") (Some initialize_body))
                       "uuid-1" one_session))))
     = transports (snd (app_post (route_request (Some "session-2") (Some initialize_body))
                          "uuid-1" one_session)).
Proof. split; reflexivity. Qed.

End InitializeExamples.
